(** * Verification of the Dify markdown ingestion orchestrator

    Shallow embedding of [upload_markdown.py]: file discovery, the
    inventory resolver, the indexing status poller, the per-file upload
    dispatcher with its delete-and-retry fallback, and [main].

    Modelling conventions.
    - Python values read out of JSON bodies are [pyval] scalars; a JSON
      object whose fields are scalars is a [pydict] (association list,
      looked up with [dict_get], which is [dict.get]).
    - Strings are [string]s of 8-bit characters; [lower] folds the ASCII
      letters, every other character is left as it is.
    - Everything outside the program (the HTTP gateway of
      [dify_knowledge_api.py], the wall clock) is an [environment]: an
      oracle that answers each request from the history of events so far.
      The program runs in the monad [M], which threads the event log and
      the file system and can stop with [None] when the loop budget
      ([fuel]) of an unbounded [while] loop is used up.
    - The log also records every entry into
      [wait_for_batch_completion] with its arguments ([EvWait]), so
      that the budget a polling phase was given can be read off a run.
    - Console output is not part of the model; uncaught exceptions
      (operating-system errors such as an unreadable directory or a
      failing copy, a negative sleep duration) are outside it. *)

From Stdlib Require Import ZArith QArith Lqa List Bool Ascii String Sorting.Sorted.
From Stdlib Require Import DecimalString.
From stdpp Require Import base gmap sets list strings sorting.

Local Open Scope Z_scope.

(* ================================================================== *)
(** * Python values *)

Inductive pyval : Type :=
| VNone
| VBool (b : bool)
| VInt (z : Z)
| VStr (s : string).

Definition pydict : Type := list (string * pyval).

(** [bool(v)]: the truth value Python gives to a scalar. *)
Definition truthy (v : pyval) : bool :=
  match v with
  | VNone => false
  | VBool b => b
  | VInt z => negb (z =? 0)
  | VStr s => negb (String.eqb s "")
  end.

(** [d.get(key)], [None] when the key is absent. *)
Fixpoint dict_get (d : pydict) (key : string) : pyval :=
  match d with
  | [] => VNone
  | (k, v) :: d' => if String.eqb k key then v else dict_get d' key
  end.

(** [v == s] for a string literal [s]. *)
Definition eq_str (v : pyval) (s : string) : bool :=
  match v with
  | VStr t => String.eqb t s
  | _ => false
  end.

(** [str(v)]. *)
Definition py_str (v : pyval) : string :=
  match v with
  | VNone => "None"
  | VBool true => "True"
  | VBool false => "False"
  | VInt z => NilZero.string_of_int (Z.to_int z)
  | VStr s => s
  end.

(** Truth value of an optional string ([None] or [""] is false). *)
Definition truthy_opt (o : option string) : bool :=
  match o with
  | None => false
  | Some s => negb (String.eqb s "")
  end.

(* ================================================================== *)
(** * Strings and paths *)

(** [c.lower()] for an ASCII character: the letters [A] to [Z] are
    folded, every other character is left as it is. On strings of
    ASCII characters [lower] below is [str.lower]; the case mapping
    that [str.lower] applies to other characters is not modelled. *)
Definition lower_char (c : ascii) : ascii :=
  let n := nat_of_ascii c in
  if ((65 <=? n) && (n <=? 90))%nat then ascii_of_nat (n + 32) else c.

(** [s.lower()]. *)
Fixpoint lower (s : string) : string :=
  match s with
  | EmptyString => EmptyString
  | String c s' => String (lower_char c) (lower s')
  end.

(** [s.endswith(suffix)]. *)
Fixpoint endswith (s suffix : string) : bool :=
  String.eqb s suffix
  || match s with
     | EmptyString => false
     | String _ s' => endswith s' suffix
     end.

(** [s.endswith(suffixes)] for a tuple of suffixes. *)
Definition endswith_any (s : string) (suffixes : list string) : bool :=
  existsb (endswith s) suffixes.

Definition startswith_char (s : string) (c : ascii) : bool :=
  match s with
  | EmptyString => false
  | String a _ => Ascii.eqb a c
  end.

Fixpoint contains_char (s : string) (c : ascii) : bool :=
  match s with
  | EmptyString => false
  | String a s' => Ascii.eqb a c || contains_char s' c
  end.

Definition sep : ascii := "/"%char.
Definition extsep : ascii := "."%char.

(** [os.path.join(a, b)] (posixpath, two components). *)
Definition path_join (a b : string) : string :=
  if startswith_char b sep then b
  else if String.eqb a "" || endswith a "/" then a +:+ b
  else a +:+ "/" +:+ b.

(** [os.path.basename(p)]: what follows the last separator. *)
Fixpoint basename (p : string) : string :=
  match p with
  | EmptyString => EmptyString
  | String c p' =>
      if contains_char p' sep then basename p'
      else if Ascii.eqb c sep then p' else p
  end.

(** [s.rfind(c)], [-1] when [c] does not occur; [i] is the index of the
    head of [s] and [last] the best index so far. *)
Fixpoint rfind_from (s : string) (c : ascii) (i last : Z) : Z :=
  match s with
  | EmptyString => last
  | String a s' => rfind_from s' c (i + 1) (if Ascii.eqb a c then i else last)
  end.

Definition rfind (s : string) (c : ascii) : Z := rfind_from s c 0 (-1).

Fixpoint all_char (s : string) (c : ascii) : bool :=
  match s with
  | EmptyString => true
  | String a s' => Ascii.eqb a c && all_char s' c
  end.

(** [os.path.splitext(p)] (genericpath._splitext): the extension
    starts at the last dot, provided that dot comes after the last
    separator and is preceded, inside the file name, by a character
    that is not a dot. *)
Definition splitext (p : string) : string * string :=
  let sepIndex := rfind p sep in
  let dotIndex := rfind p extsep in
  if sepIndex <? dotIndex then
    let filenameIndex := sepIndex + 1 in
    if all_char (substring (Z.to_nat filenameIndex)
                           (Z.to_nat (dotIndex - filenameIndex)) p) extsep
    then (p, "")
    else (substring 0 (Z.to_nat dotIndex) p,
          substring (Z.to_nat dotIndex) (String.length p - Z.to_nat dotIndex) p)
  else (p, "").

(* ================================================================== *)
(** * File system *)

Record filesystem : Type := {
  isdir : string -> bool;          (* os.path.isdir *)
  isfile : string -> bool;         (* os.path.isfile *)
  path_exists : string -> bool;    (* os.path.exists *)
  listdir : string -> list string; (* os.listdir, in the order the OS gives *)
  file_bytes : string -> string;   (* the bytes of a file: open(p, "rb").read() *)
  abspath : string -> string;      (* os.path.abspath *)
}.

Definition markdown_suffixes : list string := [".md"; ".markdown"].

(** [find_markdown_files(directory_path)]. *)
Definition find_markdown_files (fs : filesystem) (directory_path : string)
  : list string :=
  if negb (isdir fs directory_path) then []
  else
    let file_names :=
      List.map (path_join directory_path)
        (List.filter (fun file_name => isfile fs (path_join directory_path file_name))
                     (listdir fs directory_path)) in
    let markdown_files :=
      List.filter (fun file_path => endswith_any (lower file_path) markdown_suffixes)
                  file_names in
    merge_sort String.le markdown_files.


(* ================================================================== *)
(** * Gateway responses, events and the environment *)

(** A response body: [isinstance(body, dict)] holds for [Dict] only. *)
Inductive response (A : Type) : Type :=
| NotADict
| Dict (fields : A).
Arguments NotADict {A}.
Arguments Dict {A} fields.

(** Body of a document listing: [data] and [has_more]. *)
Record list_body : Type := {
  docs_data : list pydict;   (* body.get("data") or [] *)
  has_more : pyval;          (* body.get("has_more") *)
}.

(** Body of an indexing status query: [data]. *)
Record status_body : Type := {
  status_data : list pydict; (* body.get("data") or [] *)
}.

(** Body of a creation: [document] (absent or null is [None]) and
    [batch]. *)
Record create_body : Type := {
  document : option pydict;  (* result.get("document") *)
  batch : pyval;             (* result.get("batch") *)
}.

(** What the program does to the outside world, with the answer it
    got. [EvWait] marks an entry into [wait_for_batch_completion] and
    records its arguments. *)
Inductive event : Type :=
| EvListDocuments (dataset_id : string) (page limit : Z)
                  (ok : bool) (body : response list_body)
| EvCreateDocument (dataset_id file_path indexing_technique : string)
                   (ok : bool) (body : response create_body)
| EvIndexingStatus (dataset_id : string) (batch_id : pyval)
                   (ok : bool) (body : response status_body)
| EvDeleteDocument (dataset_id : string) (document_id : pyval) (ok : bool)
| EvTime (now : Q)
| EvSleep (seconds : Z)
| EvWait (batch_id : pyval) (poll_interval_seconds indexing_timeout_seconds : Z).

(** The outside world: each answer may depend on everything that
    happened before. *)
Record environment : Type := {
  env_list_documents :
    list event -> string -> Z -> Z -> bool * response list_body;
  env_create_document_from_file :
    list event -> string -> string -> string -> bool * response create_body;
  env_get_indexing_status :
    list event -> string -> pyval -> bool * response status_body;
  env_delete_document : list event -> string -> pyval -> bool;
  env_time : list event -> Q;
}.

Record world : Type := {
  w_fs : filesystem;
  w_log : list event;
}.

(* ================================================================== *)
(** * The program monad *)

Definition M (A : Type) : Type := world -> option A * world.

Definition ret {A : Type} (a : A) : M A := fun w => (Some a, w).

Definition bind {A B : Type} (m : M A) (k : A -> M B) : M B :=
  fun w =>
    match m w with
    | (Some a, w') => k a w'
    | (None, w') => (None, w')
    end.

Definition out_of_fuel {A : Type} : M A := fun w => (None, w).

Declare Scope prog_scope.
Delimit Scope prog_scope with prog.
Notation "x <- m ;; k" := (bind m (fun x => k))
  (at level 100, m at next level, right associativity) : prog_scope.
Notation "m ;;; k" := (bind m (fun _ => k))
  (at level 100, right associativity) : prog_scope.

Definition emit (e : event) : M unit :=
  fun w => (Some tt, {| w_fs := w_fs w; w_log := w_log w ++ [e] |}).

Definition get_fs : M filesystem := fun w => (Some (w_fs w), w).

Definition set_fs (fs : filesystem) : M unit :=
  fun w => (Some tt, {| w_fs := fs; w_log := w_log w |}).

(* ================================================================== *)
(** * Command line and file system updates *)

(** The namespace returned by [parse_args()]. An identifier that was
    given neither as a flag nor in the process environment is [None]. *)
Record arguments : Type := {
  arg_dataset_id : option string;
  arg_api_key : option string;
  arg_api_base : option string;
  arg_dir : string;
  arg_output_dir : string;
  arg_copy_missing_from_output : bool;
  arg_copy_missing_only : bool;
  arg_timeout : Z;
  arg_indexing_timeout : Z;
  arg_poll_interval : Z;
  arg_fallback_timeout_seconds : Z;
  arg_fallback_retry_wait_seconds : Z;
}.

(** The value of an identifier once it is known to be present. *)
Definition opt_str (o : option string) : string :=
  match o with
  | Some s => s
  | None => ""
  end.

(** [s.rstrip("/")]. *)
Fixpoint rstrip_sep (s : string) : string :=
  match s with
  | EmptyString => EmptyString
  | String c s' =>
      match rstrip_sep s' with
      | EmptyString =>
          if Ascii.eqb c sep then EmptyString else String c EmptyString
      | r => String c r
      end
  end.

(** [os.path.split(p)] (posixpath): the tail is what follows the last
    separator, the head what precedes the tail, without its trailing
    separators unless it consists of separators only. *)
Definition path_split (p : string) : string * string :=
  let tail := basename p in
  let head := substring 0 (String.length p - String.length tail)%nat p in
  (if negb (String.eqb head "") && negb (all_char head sep)
   then rstrip_sep head else head,
   tail).

(** The head and tail [os.makedirs(name)] works with: a name that ends
    in a separator is split once more. *)
Definition makedirs_split (name : string) : string * string :=
  let (head, tail) := path_split name in
  if String.eqb tail "" then path_split head else (head, tail).

(** The paths [os.makedirs(name, exist_ok=True)] calls [mkdir] on,
    parents first: when the head of [name] does not exist, the paths
    made for the head, then [name] itself (unless its tail is [.]).
    The head is shorter than the name, so the recursion of
    [os.makedirs] is at most as deep as the name is long. *)
Fixpoint makedirs_created (fuel : nat) (fs : filesystem) (name : string)
  : list string :=
  match fuel with
  | O => [name]
  | S fuel' =>
      let (head, tail) := makedirs_split name in
      if negb (String.eqb head "") && negb (String.eqb tail "")
         && negb (path_exists fs head)
      then makedirs_created fuel' fs head
           ++ (if String.eqb tail "." then [] else [name])
      else [name]
  end.

(** The entries of the directory [p] when it is one of the paths
    [made] by [os.makedirs] and was created by it: the name of the
    next path made, which lies in it; nothing for the last one. *)
Fixpoint made_children (made : list string) (p : string) : list string :=
  match made with
  | [] => []
  | a :: rest =>
      match rest with
      | [] => []
      | b :: _ =>
          if String.eqb p a then [basename (rstrip_sep b)]
          else made_children rest p
      end
  end.

(** [os.makedirs(d, exist_ok=True)] when it returns: [d] and the paths
    it called [mkdir] on, the missing ancestors of [d], are
    directories afterwards; regular files and their bytes are as
    before. A directory that was created lists the next directory
    made in it and nothing else, [d] nothing. The listing of a
    directory that was there before is left as it is: the name of a
    sub-directory created in it is not added. *)
Definition fs_makedirs (fs : filesystem) (d : string) : filesystem :=
  let made := makedirs_created (S (String.length d)) fs d in
  let is_made := fun p => String.eqb p d || existsb (String.eqb p) made in
  {| isdir := fun p => is_made p || isdir fs p;
     isfile := isfile fs;
     path_exists := fun p => is_made p || path_exists fs p;
     listdir := fun p =>
       if is_made p && negb (isdir fs p) then made_children made p
       else listdir fs p;
     file_bytes := file_bytes fs;
     abspath := abspath fs |}.

(** [shutil.copy2(source_path, os.path.join(d, file_name))]: the
    destination is a regular file afterwards, holds the bytes of the
    source, whatever was at the destination before, and is listed in
    [d]. The file times and permission bits that [copy2] copies as
    well are not part of the model. *)
Definition fs_copy2 (fs : filesystem) (source_path d file_name : string)
  : filesystem :=
  let destination_path := path_join d file_name in
  {| isdir := isdir fs;
     isfile := fun p => String.eqb p destination_path || isfile fs p;
     path_exists := fun p => String.eqb p destination_path || path_exists fs p;
     listdir := fun p =>
       if String.eqb p d && negb (existsb (String.eqb file_name) (listdir fs p))
       then listdir fs p ++ [file_name] else listdir fs p;
     file_bytes := fun p =>
       if String.eqb p destination_path then file_bytes fs source_path
       else file_bytes fs p;
     abspath := abspath fs |}.

Section Program.

Variable env : environment.

Local Open Scope prog_scope.

(** ** Primitive operations *)

(** [api_client.documents.list_documents(dataset_id, page, limit)]. *)
Definition list_documents (dataset_id : string) (page limit : Z)
  : M (bool * response list_body) :=
  fun w =>
    let r := env_list_documents env (w_log w) dataset_id page limit in
    (Some r, {| w_fs := w_fs w;
                w_log := w_log w ++ [EvListDocuments dataset_id page limit (fst r) (snd r)] |}).

(** [api_client.documents.create_document_from_file(...)]. *)
Definition create_document_from_file
  (dataset_id file_path indexing_technique : string)
  : M (bool * response create_body) :=
  fun w =>
    let r := env_create_document_from_file env (w_log w)
               dataset_id file_path indexing_technique in
    (Some r, {| w_fs := w_fs w;
                w_log := w_log w ++ [EvCreateDocument dataset_id file_path
                                       indexing_technique (fst r) (snd r)] |}).

(** [api_client.documents.get_indexing_status(dataset_id, batch_id)]. *)
Definition get_indexing_status (dataset_id : string) (batch_id : pyval)
  : M (bool * response status_body) :=
  fun w =>
    let r := env_get_indexing_status env (w_log w) dataset_id batch_id in
    (Some r, {| w_fs := w_fs w;
                w_log := w_log w ++ [EvIndexingStatus dataset_id batch_id (fst r) (snd r)] |}).

(** [api_client.documents.delete_document(dataset_id, document_id)];
    only the success flag is used by the program. *)
Definition delete_document (dataset_id : string) (document_id : pyval) : M bool :=
  fun w =>
    let r := env_delete_document env (w_log w) dataset_id document_id in
    (Some r, {| w_fs := w_fs w;
                w_log := w_log w ++ [EvDeleteDocument dataset_id document_id r] |}).

(** [time.time()]. *)
Definition time_time : M Q :=
  fun w =>
    let t := env_time env (w_log w) in
    (Some t, {| w_fs := w_fs w; w_log := w_log w ++ [EvTime t] |}).

(** [time.sleep(seconds)]. *)
Definition time_sleep (seconds : Z) : M unit := emit (EvSleep seconds).

(** [a < b] on clock readings. *)
Definition Qltb (a b : Q) : bool := negb (Qle_bool b a).

(** ** Document Inventory Resolver *)

(** Body of the [for item in items] loop of
    [fetch_existing_document_names]. *)
Definition add_item_names (normalized : gset string) (item : pydict) : gset string :=
  let name_value := dict_get item "name" in
  if negb (truthy name_value) then normalized
  else
    let lower_name := lower (py_str name_value) in
    let base_no_ext := fst (splitext lower_name) in
    {[base_no_ext]} ∪ ({[lower_name]} ∪ normalized).

(** The [while True] loop of [fetch_existing_document_names]; one unit
    of [fuel] per iteration. *)
Fixpoint fetch_pages (fuel : nat) (dataset_id : string) (page_limit page : Z)
  (normalized : gset string) : M (gset string) :=
  match fuel with
  | O => out_of_fuel
  | S fuel' =>
      r <- list_documents dataset_id page page_limit ;;
      match r with
      | (true, Dict body) =>
          let items := docs_data body in
          let normalized' := fold_left add_item_names items normalized in
          if negb (truthy (has_more body)) then ret normalized'
          else fetch_pages fuel' dataset_id page_limit (page + 1) normalized'
      | _ => ret normalized
      end
  end.

(** [fetch_existing_document_names(api_client, dataset_id, page_limit)]. *)
Definition fetch_existing_document_names (fuel : nat) (dataset_id : string)
  (page_limit : Z) : M (gset string) :=
  fetch_pages fuel dataset_id page_limit 1 ∅.

(** ** Indexing Status Poller *)

(** The [for item in items] loop of [wait_for_batch_completion]:
    the pair [(any_error, all_completed)]. *)
Definition scan_item (flags : bool * bool) (item : pydict) : bool * bool :=
  let status := dict_get item "indexing_status" in
  let completed_at := dict_get item "completed_at" in
  let error := dict_get item "error" in
  let any_error := if truthy error then true else fst flags in
  let all_completed :=
    if negb (truthy completed_at) && negb (eq_str status "completed")
    then false else snd flags in
  (any_error, all_completed).

Definition scan_items (items : list pydict) : bool * bool :=
  fold_left scan_item items (false, true).

(** The [while time.time() < deadline] loop; [items] is [None] as long
    as the local variable [items] has not been assigned. One unit of
    [fuel] per iteration. The progress message ([progress_notes],
    [last_message]) only feeds [print] and is left out. *)
Fixpoint wait_loop (fuel : nat) (dataset_id : string) (batch_id : pyval)
  (poll_interval_seconds : Z) (deadline : Q) (items : option (list pydict))
  : M (bool * option (list pydict)) :=
  now <- time_time ;;
  if Qltb now deadline then
    match fuel with
    | O => out_of_fuel
    | S fuel' =>
        r <- get_indexing_status dataset_id batch_id ;;
        match r with
        | (true, Dict body) =>
            let items' := status_data body in
            match items' with
            | [] =>
                time_sleep poll_interval_seconds ;;;
                wait_loop fuel' dataset_id batch_id poll_interval_seconds
                          deadline (Some items')
            | _ :: _ =>
                let flags := scan_items items' in
                if fst flags then ret (false, Some items')
                else if snd flags then ret (true, Some items')
                else
                  time_sleep poll_interval_seconds ;;;
                  wait_loop fuel' dataset_id batch_id poll_interval_seconds
                            deadline (Some items')
            end
        | _ =>
            time_sleep poll_interval_seconds ;;;
            wait_loop fuel' dataset_id batch_id poll_interval_seconds
                      deadline items
        end
    end
  else ret (false, items).

(** [wait_for_batch_completion(api_client, dataset_id, batch_id,
    poll_interval_seconds, indexing_timeout_seconds)]. *)
Definition wait_for_batch_completion (fuel : nat) (dataset_id : string)
  (batch_id : pyval) (poll_interval_seconds indexing_timeout_seconds : Z)
  : M (bool * option (list pydict)) :=
  emit (EvWait batch_id poll_interval_seconds indexing_timeout_seconds) ;;;
  start_time <- time_time ;;
  let deadline := (start_time + inject_Z indexing_timeout_seconds)%Q in
  wait_loop fuel dataset_id batch_id poll_interval_seconds deadline None.

(** ** Upload Dispatcher and Fallback Recovery Controller *)

(** [result.get("document")] is true for a non-empty object. *)
Definition truthy_dict (o : option pydict) : bool :=
  match o with
  | Some (_ :: _) => true
  | _ => false
  end.

(** [(result.get("document") or {}).get("id") if result.get("document")
    else None], and [None] when [result] is not a dict. *)
Definition result_document_id (result : response create_body) : pyval :=
  match result with
  | Dict body =>
      if truthy_dict (document body)
      then dict_get (default [] (document body)) "id"
      else VNone
  | NotADict => VNone
  end.

(** [result.get("batch")], and [None] when [result] is not a dict. *)
Definition result_batch_id (result : response create_body) : pyval :=
  match result with
  | Dict body => batch body
  | NotADict => VNone
  end.

(** The [else] branch of [if completed] in [main] (delete the stuck
    document, wait, upload again, poll again); returns the new
    [failure_count]. *)
Definition delete_and_retry (fuel : nat) (args : arguments) (dataset_id : string)
  (file_path : string) (document_id : pyval) (failure_count : Z) : M Z :=
  if truthy document_id then
    deleted <- delete_document dataset_id document_id ;;
    if deleted : bool then
      time_sleep (arg_fallback_retry_wait_seconds args) ;;;
      re <- create_document_from_file dataset_id file_path "high_quality" ;;
      let re_ok := fst re in
      let re_result := snd re in
      if re_ok then
        let re_batch_id := result_batch_id re_result in
        if truthy re_batch_id then
          r <- wait_for_batch_completion fuel dataset_id re_batch_id
                 (arg_poll_interval args) (arg_indexing_timeout args) ;;
          let re_completed := fst r in
          if re_completed then ret failure_count
          else ret (failure_count + 1)
        else ret (failure_count + 1)
      else ret (failure_count + 1)
    else ret (failure_count + 1)
  else ret (failure_count + 1).

(** One iteration of the [for index, file_path in enumerate(files)]
    loop of [main]; [counts] is [(success_count, failure_count)]. *)
Definition upload_file (fuel : nat) (args : arguments) (dataset_id : string)
  (existing_names : gset string) (file_path : string) (counts : Z * Z)
  : M (Z * Z) :=
  let success_count := fst counts in
  let failure_count := snd counts in
  let file_name := basename file_path in
  let base_no_ext := fst (splitext file_name) in
  let lower_file := lower file_name in
  let lower_base := lower base_no_ext in
  if bool_decide (lower_file ∈ existing_names)
     || bool_decide (lower_base ∈ existing_names)
  then ret (success_count + 1, failure_count)
  else
    r <- create_document_from_file dataset_id file_path "high_quality" ;;
    let ok := fst r in
    let result := snd r in
    if ok then
      let success_count := success_count + 1 in
      let document_id := result_document_id result in
      let batch_id := result_batch_id result in
      if truthy batch_id then
        w <- wait_for_batch_completion fuel dataset_id batch_id
               (arg_poll_interval args)
               (Z.min (arg_indexing_timeout args) (arg_fallback_timeout_seconds args)) ;;
        let completed := fst w in
        if completed then ret (success_count, failure_count)
        else
          failure_count <- delete_and_retry fuel args dataset_id file_path
                             document_id failure_count ;;
          ret (success_count, failure_count)
      else ret (success_count, failure_count)
    else ret (success_count, failure_count + 1).

(** The whole [for] loop over [files]. *)
Fixpoint upload_files (fuel : nat) (args : arguments) (dataset_id : string)
  (existing_names : gset string) (files : list string) (counts : Z * Z)
  : M (Z * Z) :=
  match files with
  | [] => ret counts
  | file_path :: files' =>
      counts' <- upload_file fuel args dataset_id existing_names file_path counts ;;
      upload_files fuel args dataset_id existing_names files' counts'
  end.

(** ** Preparing the markdown directory *)

(** The [for source_path in candidates] loop of
    [copy_missing_output_files_to_markdown]; [counts] is
    [(copied_count, skipped_count)]. *)
Fixpoint copy_candidates (existing_names : gset string) (markdown_dir : string)
  (candidates : list string) (counts : Z * Z) : M (Z * Z) :=
  match candidates with
  | [] => ret counts
  | source_path :: candidates' =>
      let file_name := basename source_path in
      let base_no_ext := fst (splitext file_name) in
      let lower_file := lower file_name in
      let lower_base := lower base_no_ext in
      if bool_decide (lower_file ∈ existing_names)
         || bool_decide (lower_base ∈ existing_names)
      then copy_candidates existing_names markdown_dir candidates'
             (fst counts, snd counts + 1)
      else
        fs <- get_fs ;;
        let destination_path := path_join markdown_dir file_name in
        if path_exists fs destination_path
        then copy_candidates existing_names markdown_dir candidates'
               (fst counts, snd counts + 1)
        else
          set_fs (fs_copy2 fs source_path markdown_dir file_name) ;;;
          copy_candidates existing_names markdown_dir candidates'
            (fst counts + 1, snd counts)
  end.

(** [copy_missing_output_files_to_markdown(api_client, dataset_id,
    output_dir, markdown_dir)]: [(copied, skipped, considered)]. *)
Definition copy_missing_output_files_to_markdown (fuel : nat)
  (dataset_id output_dir markdown_dir : string) : M (Z * Z * Z) :=
  fs <- get_fs ;;
  if negb (isdir fs output_dir) then ret (0, 0, 0)
  else
    set_fs (fs_makedirs fs markdown_dir) ;;;
    fs <- get_fs ;;
    let candidates :=
      List.map (path_join output_dir)
        (List.filter
           (fun file_name =>
              isfile fs (path_join output_dir file_name)
              && endswith_any (lower file_name) markdown_suffixes)
           (listdir fs output_dir)) in
    existing_names <- fetch_existing_document_names fuel dataset_id 100 ;;
    counts <- copy_candidates existing_names markdown_dir candidates (0, 0) ;;
    ret (fst counts, snd counts, Z.of_nat (List.length candidates)).

(** ** The orchestrator *)

(** [main], from [files = find_markdown_files(target_dir)] to the end. *)
Definition upload_directory (fuel : nat) (args : arguments)
  (dataset_id target_dir : string) : M Z :=
  fs <- get_fs ;;
  let files := find_markdown_files fs target_dir in
  match files with
  | [] => ret 0
  | _ :: _ =>
      existing_names <- fetch_existing_document_names fuel dataset_id 100 ;;
      counts <- upload_files fuel args dataset_id existing_names files (0, 0) ;;
      let failure_count := snd counts in
      ret (if failure_count =? 0 then 0 else 1)
  end.

(** [main()]: the exit code of the process. *)
Definition main (fuel : nat) (args : arguments) : M Z :=
  if negb (truthy_opt (arg_dataset_id args)) then ret 2
  else if negb (truthy_opt (arg_api_key args)) then ret 2
  else if negb (truthy_opt (arg_api_base args)) then ret 2
  else
    let dataset_id := opt_str (arg_dataset_id args) in
    fs <- get_fs ;;
    let target_dir := abspath fs (arg_dir args) in
    let output_dir := abspath fs (arg_output_dir args) in
    if arg_copy_missing_from_output args || arg_copy_missing_only args then
      copy_missing_output_files_to_markdown fuel dataset_id output_dir target_dir ;;;
      if arg_copy_missing_only args then ret 0
      else upload_directory fuel args dataset_id target_dir
    else upload_directory fuel args dataset_id target_dir.

End Program.

(* ================================================================== *)
(** * Vocabulary of the statements *)

(** The world [w] after the further events [evs]. *)
Definition with_log (w : world) (evs : list event) : world :=
  {| w_fs := w_fs w; w_log := w_log w ++ evs |}.

(** A file name ends, case-insensitively, in a markdown suffix. *)
Definition is_markdown_name (file_name : string) : bool :=
  endswith (lower file_name) ".md" || endswith (lower file_name) ".markdown".

(** An item of an indexing status carries a non-empty error. *)
Definition has_error (item : pydict) : bool :=
  truthy (dict_get item "error").

(** An item of an indexing status has a completion timestamp or the
    status ["completed"]. *)
Definition item_completed (item : pydict) : bool :=
  truthy (dict_get item "completed_at")
  || eq_str (dict_get item "indexing_status") "completed".

(** Events of the polling loop: clock readings, sleeps and status
    queries. *)
Definition is_poll_event (e : event) : bool :=
  match e with
  | EvTime _ | EvSleep _ | EvIndexingStatus _ _ _ _ => true
  | _ => false
  end.

Definition is_status_query (e : event) : bool :=
  match e with
  | EvIndexingStatus _ _ _ _ => true
  | _ => false
  end.

Definition is_create (e : event) : bool :=
  match e with
  | EvCreateDocument _ _ _ _ _ => true
  | _ => false
  end.

Definition is_delete (e : event) : bool :=
  match e with
  | EvDeleteDocument _ _ _ => true
  | _ => false
  end.

Definition is_wait (e : event) : bool :=
  match e with
  | EvWait _ _ _ => true
  | _ => false
  end.

(** Number of events of a kind in a log. *)
Definition count (kind : event -> bool) (evs : list event) : nat :=
  List.length (List.filter kind evs).

(** A log ends with a status answer in which no item has an error and
    every item is completed. *)
Definition ends_completed (evs : list event) : Prop :=
  exists pre ds b body,
    evs = pre ++ [EvIndexingStatus ds b true (Dict body)]
    /\ status_data body <> []
    /\ existsb has_error (status_data body) = false
    /\ forallb item_completed (status_data body) = true.

(** ** Paging *)

(** The listing answers the requests for the pages [page], [page + 1],
    ... with the bodies [pages], each announcing a further page, and
    answers the request after them with [stop]. *)
Fixpoint pages_answered (env : environment) (ds : string) (limit page : Z)
  (log : list event) (pages : list list_body)
  (stop : bool * response list_body) : Prop :=
  match pages with
  | [] => env_list_documents env log ds page limit = stop
  | body :: pages' =>
      env_list_documents env log ds page limit = (true, Dict body)
      /\ truthy (has_more body) = true
      /\ pages_answered env ds limit (page + 1)
           (log ++ [EvListDocuments ds page limit true (Dict body)]) pages' stop
  end.

(** The events of the requests answered with [pages]. *)
Fixpoint page_events (ds : string) (limit page : Z) (pages : list list_body)
  : list event :=
  match pages with
  | [] => []
  | body :: pages' =>
      EvListDocuments ds page limit true (Dict body)
      :: page_events ds limit (page + 1) pages'
  end.

(** An answer that ends the paging: a failed request, a body that is
    not a dict, or a page that announces no further page. *)
Definition stops_paging (stop : bool * response list_body) : Prop :=
  match stop with
  | (true, Dict body) => truthy (has_more body) = false
  | _ => True
  end.

(** The pages that were fetched successfully. *)
Definition fetched_pages (pages : list list_body)
  (stop : bool * response list_body) : list list_body :=
  pages ++ match stop with
           | (true, Dict body) => [body]
           | _ => []
           end.

(** [x] is the lower-cased name, or the lower-cased name without its
    extension, of a document named in [pages]. *)
Definition named_in (pages : list list_body) (x : string) : Prop :=
  exists body item,
    In body pages /\ In item (docs_data body)
    /\ truthy (dict_get item "name") = true
    /\ (x = lower (py_str (dict_get item "name"))
        \/ x = fst (splitext (lower (py_str (dict_get item "name"))))).

(** ** Runs of the dispatcher *)

(** The dedup test of the dispatcher. *)
Definition already_listed (existing_names : gset string) (file_path : string)
  : Prop :=
  lower (basename file_path) ∈ existing_names
  \/ lower (fst (splitext (basename file_path))) ∈ existing_names.

(** The runs of the fallback cycle for a file whose first submission
    returned the document id [doc]: the events of the cycle and the
    failure counter it returns ([None] when the loop budget of the
    second polling phase runs out). *)
Inductive fallback_run (args : arguments) (ds file : string) (doc : pyval)
  (failure_count : Z) : list event -> option Z -> Prop :=
| FbNoDocumentId :
    truthy doc = false ->
    fallback_run args ds file doc failure_count [] (Some (failure_count + 1))
| FbDeleteFailed :
    truthy doc = true ->
    fallback_run args ds file doc failure_count
      [EvDeleteDocument ds doc false] (Some (failure_count + 1))
| FbRetryFailed (re_result : response create_body) :
    truthy doc = true ->
    fallback_run args ds file doc failure_count
      [EvDeleteDocument ds doc true;
       EvSleep (arg_fallback_retry_wait_seconds args);
       EvCreateDocument ds file "high_quality" false re_result]
      (Some (failure_count + 1))
| FbRetryNoBatch (re_result : response create_body) :
    truthy doc = true ->
    truthy (result_batch_id re_result) = false ->
    fallback_run args ds file doc failure_count
      [EvDeleteDocument ds doc true;
       EvSleep (arg_fallback_retry_wait_seconds args);
       EvCreateDocument ds file "high_quality" true re_result]
      (Some (failure_count + 1))
| FbRetryPolled (re_result : response create_body) (t : Q)
    (evs : list event) (res : option Z) :
    truthy doc = true ->
    truthy (result_batch_id re_result) = true ->
    forallb is_poll_event evs = true ->
    (res = None \/ res = Some (failure_count + 1)
     \/ (res = Some failure_count /\ ends_completed evs)) ->
    fallback_run args ds file doc failure_count
      ([EvDeleteDocument ds doc true;
        EvSleep (arg_fallback_retry_wait_seconds args);
        EvCreateDocument ds file "high_quality" true re_result;
        EvWait (result_batch_id re_result) (arg_poll_interval args)
          (arg_indexing_timeout args);
        EvTime t] ++ evs)
      res.

(** The runs of one iteration of the upload loop, given the answer
    [created] that a submission of the file gets: the events of the
    iteration and the counters it returns. *)
Inductive file_run (args : arguments) (ds : string) (existing_names : gset string)
  (file : string) (counts : Z * Z) (created : bool * response create_body)
  : list event -> option (Z * Z) -> Prop :=
| RunSkipped :
    already_listed existing_names file ->
    file_run args ds existing_names file counts created
      [] (Some (fst counts + 1, snd counts))
| RunCreateFailed :
    ~ already_listed existing_names file ->
    fst created = false ->
    file_run args ds existing_names file counts created
      [EvCreateDocument ds file "high_quality" false (snd created)]
      (Some (fst counts, snd counts + 1))
| RunNoBatch :
    ~ already_listed existing_names file ->
    fst created = true ->
    truthy (result_batch_id (snd created)) = false ->
    file_run args ds existing_names file counts created
      [EvCreateDocument ds file "high_quality" true (snd created)]
      (Some (fst counts + 1, snd counts))
| RunPolled (t : Q) (evs : list event) (res : option (Z * Z)) :
    ~ already_listed existing_names file ->
    fst created = true ->
    truthy (result_batch_id (snd created)) = true ->
    forallb is_poll_event evs = true ->
    (res = None
     \/ (res = Some (fst counts + 1, snd counts) /\ ends_completed evs)) ->
    file_run args ds existing_names file counts created
      (EvCreateDocument ds file "high_quality" true (snd created)
       :: EvWait (result_batch_id (snd created)) (arg_poll_interval args)
            (Z.min (arg_indexing_timeout args) (arg_fallback_timeout_seconds args))
       :: EvTime t :: evs)
      res
| RunFallback (t : Q) (evs tail : list event) (res : option Z) :
    ~ already_listed existing_names file ->
    fst created = true ->
    truthy (result_batch_id (snd created)) = true ->
    forallb is_poll_event evs = true ->
    fallback_run args ds file (result_document_id (snd created)) (snd counts)
      tail res ->
    file_run args ds existing_names file counts created
      (EvCreateDocument ds file "high_quality" true (snd created)
       :: EvWait (result_batch_id (snd created)) (arg_poll_interval args)
            (Z.min (arg_indexing_timeout args) (arg_fallback_timeout_seconds args))
       :: EvTime t :: evs ++ tail)
      (option_map (fun failure_count => (fst counts + 1, failure_count)) res).

(** ** Runs of the orchestrator *)

(** The required configuration is incomplete. *)
Definition config_missing (args : arguments) : bool :=
  negb (truthy_opt (arg_dataset_id args))
  || negb (truthy_opt (arg_api_key args))
  || negb (truthy_opt (arg_api_base args)).

(** What [main] does between the configuration check and its upload
    loop: [None] when it exits before the loop with nothing to upload
    (a copy-only run, or no markdown file), otherwise the set of
    existing names and the files the loop runs over. *)
Definition main_prelude (env : environment) (fuel : nat) (args : arguments)
  : M (option (gset string * list string)) :=
  let dataset_id := opt_str (arg_dataset_id args) in
  bind get_fs (fun fs =>
  let target_dir := abspath fs (arg_dir args) in
  let output_dir := abspath fs (arg_output_dir args) in
  let enter_loop : M (option (gset string * list string)) :=
    bind get_fs (fun fs' =>
    match find_markdown_files fs' target_dir with
    | [] => ret None
    | file :: files =>
        bind (fetch_existing_document_names env fuel dataset_id 100)
             (fun existing_names => ret (Some (existing_names, file :: files)))
    end) in
  if arg_copy_missing_from_output args || arg_copy_missing_only args then
    bind (copy_missing_output_files_to_markdown env fuel dataset_id output_dir
            target_dir)
         (fun _ => if arg_copy_missing_only args then ret None else enter_loop)
  else enter_loop).

(** The files whose iteration of the upload loop incremented the
    failure counter, that is, the files that ended in failure. *)
Fixpoint failed_files (env : environment) (fuel : nat) (args : arguments)
  (ds : string) (existing_names : gset string) (files : list string)
  (counts : Z * Z) (w : world) : list string :=
  match files with
  | [] => []
  | file :: files' =>
      let r := upload_file env fuel args ds existing_names file counts w in
      match fst r with
      | Some counts' =>
          (if snd counts <? snd counts' then [file] else [])
          ++ failed_files env fuel args ds existing_names files' counts' (snd r)
      | None => []
      end
  end.

(* ================================================================== *)
(** * Sample worlds *)

(** A clock that advances by one second with every event. *)
Definition tick_clock (log : list event) : Q :=
  inject_Z (Z.of_nat (List.length log)).

(** A clock that is set back by one second with every event. *)
Definition backwards_clock (log : list event) : Q :=
  inject_Z (10 - Z.of_nat (List.length log)).

Definition sample_created : response create_body :=
  Dict {| document := Some [("id", VStr "doc-1")]; batch := VStr "batch-1" |}.

Definition errored_item : pydict :=
  [("indexing_status", VStr "error"); ("error", VStr "boom")].

Definition indexing_item : pydict :=
  [("indexing_status", VStr "indexing"); ("completed_at", VNone);
   ("error", VNone); ("completed_segments", VInt 1); ("total_segments", VInt 4)].

Definition completed_item : pydict :=
  [("indexing_status", VStr "completed"); ("completed_at", VInt 1700000000);
   ("error", VNone)].

(** Every upload is accepted with a document id and a batch id; the
    indexing of every batch reports an item error; deletions succeed. *)
Definition env_errored : environment :=
  {| env_list_documents := fun _ _ _ _ =>
       (true, Dict {| docs_data := []; has_more := VBool false |});
     env_create_document_from_file := fun _ _ _ _ => (true, sample_created);
     env_get_indexing_status := fun _ _ _ =>
       (true, Dict {| status_data := [errored_item] |});
     env_delete_document := fun _ _ _ => true;
     env_time := tick_clock |}.

(** As [env_errored], with the clock running backwards. *)
Definition env_backwards : environment :=
  {| env_list_documents := env_list_documents env_errored;
     env_create_document_from_file := env_create_document_from_file env_errored;
     env_get_indexing_status := env_get_indexing_status env_errored;
     env_delete_document := env_delete_document env_errored;
     env_time := backwards_clock |}.

(** A directory [/data] that holds the single file [a.md]. *)
Definition sample_fs : filesystem :=
  {| isdir := fun p => String.eqb p "/data";
     isfile := fun p => String.eqb p "/data/a.md";
     path_exists := fun p => String.eqb p "/data" || String.eqb p "/data/a.md";
     listdir := fun p => if String.eqb p "/data" then ["a.md"] else [];
     file_bytes := fun p => if String.eqb p "/data/a.md" then "# a" else "";
     abspath := fun p => p |}.

Definition sample_world : world := {| w_fs := sample_fs; w_log := [] |}.

Definition sample_args : arguments :=
  {| arg_dataset_id := Some "ds";
     arg_api_key := Some "key";
     arg_api_base := Some "https://llm.bupt.edu.cn/v1";
     arg_dir := "/data";
     arg_output_dir := "/output";
     arg_copy_missing_from_output := false;
     arg_copy_missing_only := false;
     arg_timeout := 120;
     arg_indexing_timeout := 600;
     arg_poll_interval := 5;
     arg_fallback_timeout_seconds := 300;
     arg_fallback_retry_wait_seconds := 300 |}.

(** The dataset lists the document [Notes.md] on its first page and
    announces a second page, whose request fails; the rest is as in
    [env_errored]. *)
Definition notes_page : list_body :=
  {| docs_data := [[("id", VStr "d-7"); ("name", VStr "Notes.md")]];
     has_more := VBool true |}.

Definition env_notes : environment :=
  {| env_list_documents := fun _ _ page _ =>
       if page =? 1 then (true, Dict notes_page) else (false, NotADict);
     env_create_document_from_file := env_create_document_from_file env_errored;
     env_get_indexing_status := env_get_indexing_status env_errored;
     env_delete_document := env_delete_document env_errored;
     env_time := tick_clock |}.

(** Every upload is accepted with a batch id but without a document
    id; the indexing never leaves the state "indexing"; every event
    takes two hundred seconds. *)
Definition env_stuck : environment :=
  {| env_list_documents := env_list_documents env_errored;
     env_create_document_from_file := fun _ _ _ _ =>
       (true, Dict {| document := None; batch := VStr "batch-1" |});
     env_get_indexing_status := fun _ _ _ =>
       (true, Dict {| status_data := [indexing_item] |});
     env_delete_document := fun _ _ _ => true;
     env_time := fun log => inject_Z (200 * Z.of_nat (List.length log)) |}.

(** The first batch of a file never leaves the state "indexing"; once
    the file has been submitted a second time its batch is completed;
    every event takes two hundred seconds. *)
Definition env_recovers : environment :=
  {| env_list_documents := env_list_documents env_errored;
     env_create_document_from_file := fun _ _ _ _ => (true, sample_created);
     env_get_indexing_status := fun log _ _ =>
       if (2 <=? count is_create log)%nat
       then (true, Dict {| status_data := [completed_item] |})
       else (true, Dict {| status_data := [indexing_item] |});
     env_delete_document := fun _ _ _ => true;
     env_time := fun log => inject_Z (200 * Z.of_nat (List.length log)) |}.

(* ================================================================== *)
(** * Vocabulary of the further properties *)

(** The page a listing request asks for. *)
Definition requested_page (e : event) : option Z :=
  match e with
  | EvListDocuments _ page _ _ _ => Some page
  | _ => None
  end.

(** A listing request for the dataset [ds] with the page size [limit]. *)
Definition is_listing_of (ds : string) (limit : Z) (e : event) : bool :=
  match e with
  | EvListDocuments ds' _ limit' _ _ => String.eqb ds' ds && (limit' =? limit)
  | _ => false
  end.

Definition is_list (e : event) : bool :=
  match e with
  | EvListDocuments _ _ _ _ _ => true
  | _ => false
  end.

(** The pages [page], [page + 1], ..., [page + n - 1]. *)
Fixpoint pages_from (page : Z) (n : nat) : list (option Z) :=
  match n with
  | O => []
  | S n' => Some page :: pages_from (page + 1) n'
  end.

(** ** Runs of the polling loop *)

Definition is_sleep (e : event) : bool :=
  match e with
  | EvSleep _ => true
  | _ => false
  end.

Definition is_time (e : event) : bool :=
  match e with
  | EvTime _ => true
  | _ => false
  end.

(** The runs of the polling loop for the batch [b] of the dataset [ds]
    with the deadline [deadline], started with the item list [items]:
    the events of the run and what it returns ([None] when the loop
    budget runs out). *)
Inductive poll_run (ds : string) (b : pyval) (poll : Z) (deadline : Q)
  : option (list pydict) -> list event
    -> option (bool * option (list pydict)) -> Prop :=
| PollTimedOut (items : option (list pydict)) (t : Q) :
    Qltb t deadline = false ->
    poll_run ds b poll deadline items [EvTime t] (Some (false, items))
| PollOutOfBudget (items : option (list pydict)) (t : Q) :
    Qltb t deadline = true ->
    poll_run ds b poll deadline items [EvTime t] None
| PollErrored (items : option (list pydict)) (t : Q) (body : status_body) :
    Qltb t deadline = true ->
    status_data body <> [] ->
    existsb has_error (status_data body) = true ->
    poll_run ds b poll deadline items
      [EvTime t; EvIndexingStatus ds b true (Dict body)]
      (Some (false, Some (status_data body)))
| PollCompleted (items : option (list pydict)) (t : Q) (body : status_body) :
    Qltb t deadline = true ->
    status_data body <> [] ->
    existsb has_error (status_data body) = false ->
    forallb item_completed (status_data body) = true ->
    poll_run ds b poll deadline items
      [EvTime t; EvIndexingStatus ds b true (Dict body)]
      (Some (true, Some (status_data body)))
| PollWaiting (items : option (list pydict)) (t : Q) (body : status_body)
    (evs : list event) (res : option (bool * option (list pydict))) :
    Qltb t deadline = true ->
    status_data body = []
    \/ (existsb has_error (status_data body) = false
        /\ forallb item_completed (status_data body) = false) ->
    poll_run ds b poll deadline (Some (status_data body)) evs res ->
    poll_run ds b poll deadline items
      (EvTime t :: EvIndexingStatus ds b true (Dict body) :: EvSleep poll :: evs)
      res
| PollTransient (items : option (list pydict)) (t : Q) (ok : bool)
    (body : response status_body) (evs : list event)
    (res : option (bool * option (list pydict))) :
    Qltb t deadline = true ->
    ok = false \/ body = NotADict ->
    poll_run ds b poll deadline items evs res ->
    poll_run ds b poll deadline items
      (EvTime t :: EvIndexingStatus ds b ok body :: EvSleep poll :: evs)
      res.

(** The last event of a log. *)
Definition last_event (evs : list event) : option event :=
  List.last (List.map Some evs) None.

(** A status answer that carries an item list: an ok answer whose body
    is a dict. *)
Definition is_item_answer (e : event) : bool :=
  match e with
  | EvIndexingStatus _ _ true (Dict _) => true
  | _ => false
  end.

(** ** What an iteration of the upload loop touches *)

(** The batch ids returned by the submissions of a log. *)
Fixpoint created_batches (evs : list event) : list pyval :=
  match evs with
  | [] => []
  | EvCreateDocument _ _ _ _ body :: evs' =>
      result_batch_id body :: created_batches evs'
  | _ :: evs' => created_batches evs'
  end.

(** The document id returned by the first event of a log, when it is a
    submission. *)
Definition first_document (evs : list event) : pyval :=
  match evs with
  | EvCreateDocument _ _ _ _ body :: _ => result_document_id body
  | _ => VNone
  end.

(** An event that concerns the file [file] of the dataset [ds] only:
    a submission of that file, a deletion of the document [doc], a
    polling phase or a status query for one of the batches [batches],
    a clock reading or a sleep. *)
Definition about_file (ds file : string) (doc : pyval) (batches : list pyval)
  (e : event) : Prop :=
  match e with
  | EvCreateDocument d f technique _ _ =>
      d = ds /\ f = file /\ technique = "high_quality"
  | EvDeleteDocument d x _ => d = ds /\ x = doc
  | EvIndexingStatus d b _ _ => d = ds /\ In b batches
  | EvWait b _ _ => In b batches
  | EvListDocuments _ _ _ _ _ => False
  | EvTime _ | EvSleep _ => True
  end.

(** ** What a run deletes and submits *)

(** Every deletion of a log is the deletion, in the dataset [ds], of a
    document whose non-empty id is one of [created] or was returned by
    an earlier successful submission of the log. *)
Fixpoint deletes_created (ds : string) (created : list pyval)
  (evs : list event) : Prop :=
  match evs with
  | [] => True
  | EvCreateDocument _ _ _ true body :: evs' =>
      deletes_created ds (result_document_id body :: created) evs'
  | EvDeleteDocument d doc _ :: evs' =>
      d = ds /\ truthy doc = true /\ In doc created
      /\ deletes_created ds created evs'
  | _ :: evs' => deletes_created ds created evs'
  end.

(** The files of the submissions of a log, in the order of the log. *)
Fixpoint submitted_files (evs : list event) : list string :=
  match evs with
  | [] => []
  | EvCreateDocument _ file _ _ _ :: evs' => file :: submitted_files evs'
  | _ :: evs' => submitted_files evs'
  end.

(** An event that is neither a submission nor a deletion. *)
Definition is_read_only (e : event) : bool :=
  negb (is_create e || is_delete e).

(** Every file twice, in order. *)
Definition twice (files : list string) : list string :=
  flat_map (fun file => [file; file]) files.

(** ** A sample output directory *)

(** The root directory with the directory [/data] of [sample_fs] and a
    directory [/output] that holds the files [b.md] and [Notes.md]. *)
Definition output_fs : filesystem :=
  {| isdir := fun p =>
       String.eqb p "/" || String.eqb p "/data" || String.eqb p "/output";
     isfile := fun p =>
       String.eqb p "/data/a.md" || String.eqb p "/output/b.md"
       || String.eqb p "/output/Notes.md";
     path_exists := fun p =>
       String.eqb p "/" || String.eqb p "/data" || String.eqb p "/data/a.md"
       || String.eqb p "/output" || String.eqb p "/output/b.md"
       || String.eqb p "/output/Notes.md";
     listdir := fun p =>
       if String.eqb p "/" then ["data"; "output"]
       else if String.eqb p "/data" then ["a.md"]
       else if String.eqb p "/output" then ["b.md"; "Notes.md"] else [];
     file_bytes := fun p =>
       if String.eqb p "/data/a.md" then "# a"
       else if String.eqb p "/output/b.md" then "# b"
       else if String.eqb p "/output/Notes.md" then "# notes" else "";
     abspath := fun p => p |}.

Definition output_world : world := {| w_fs := output_fs; w_log := [] |}.

(** As [sample_args], with [--copy-missing-only]. *)
Definition copy_only_args : arguments :=
  {| arg_dataset_id := Some "ds";
     arg_api_key := Some "key";
     arg_api_base := Some "https://llm.bupt.edu.cn/v1";
     arg_dir := "/data";
     arg_output_dir := "/output";
     arg_copy_missing_from_output := false;
     arg_copy_missing_only := true;
     arg_timeout := 120;
     arg_indexing_timeout := 600;
     arg_poll_interval := 5;
     arg_fallback_timeout_seconds := 300;
     arg_fallback_retry_wait_seconds := 300 |}.

(** ** Ancestors of a path *)

(** The heads [os.makedirs(name)] would go through if none of them
    existed: the head of [name], the head of that head, and so on. *)
Fixpoint path_ancestors (fuel : nat) (name : string) : list string :=
  match fuel with
  | O => []
  | S fuel' =>
      let (head, tail) := makedirs_split name in
      if negb (String.eqb head "") && negb (String.eqb tail "")
      then head :: path_ancestors fuel' head
      else []
  end.

Definition ancestors (name : string) : list string :=
  path_ancestors (S (String.length name)) name.

(** A string of ASCII characters; on these [lower] is [str.lower]. *)
Fixpoint is_ascii (s : string) : bool :=
  match s with
  | EmptyString => true
  | String c s' => (nat_of_ascii c <? 128)%nat && is_ascii s'
  end.

(* ================================================================== *)
(** * Facts about strings and paths *)

Lemma app_cons (c : ascii) (a b : string) :
  String c a +:+ b = String c (a +:+ b).
Proof. reflexivity. Qed.

Lemma app_nil_l (b : string) : "" +:+ b = b.
Proof. reflexivity. Qed.

Lemma app_assoc_str (a b c : string) : (a +:+ b) +:+ c = a +:+ (b +:+ c).
Proof.
  induction a as [|x a IH]; [reflexivity|].
  rewrite !app_cons. by rewrite IH.
Qed.

Example splitext_examples :
  splitext "notes.md" = ("notes", ".md")
  /\ splitext "archive.tar.gz" = ("archive.tar", ".gz")
  /\ splitext ".bashrc" = (".bashrc", "")
  /\ splitext "a.b/c" = ("a.b/c", "").
Proof. repeat split. Qed.

Example path_examples :
  basename "/data/Notes.MD" = "Notes.MD"
  /\ lower "Notes.MD" = "notes.md"
  /\ path_join "/data" "a.md" = "/data/a.md"
  /\ path_join "/data/" "a.md" = "/data/a.md"
  /\ endswith_any (lower "/data/README.Markdown") markdown_suffixes = true.
Proof. repeat split. Qed.

Lemma lower_app (a b : string) : lower (a +:+ b) = lower a +:+ lower b.
Proof.
  induction a as [|x a IH]; [reflexivity|].
  rewrite app_cons. simpl lower. rewrite app_cons. by rewrite IH.
Qed.

Lemma contains_char_app_r (a n : string) (c : ascii) :
  contains_char (a +:+ String c n) c = true.
Proof.
  induction a as [|x a IH].
  - rewrite app_nil_l. simpl. by rewrite Ascii.eqb_refl.
  - rewrite app_cons. simpl. rewrite IH. apply orb_true_r.
Qed.

Lemma endswith_cons (c : ascii) (s suffix : string) :
  endswith (String c s) suffix
  = String.eqb (String c s) suffix || endswith s suffix.
Proof. reflexivity. Qed.

(** A suffix that holds no separator is found behind the last
    separator. *)
Lemma endswith_behind_sep (a n suffix : string) :
  contains_char suffix sep = false ->
  endswith (a +:+ String sep n) suffix = endswith n suffix.
Proof.
  intros Hs.
  assert (Hne : forall s, contains_char s sep = true ->
                          String.eqb s suffix = false).
  { intros s Hc. destruct (String.eqb s suffix) eqn:E; [|done].
    apply String.eqb_eq in E. congruence. }
  induction a as [|x a IH].
  - rewrite app_nil_l, endswith_cons.
    rewrite Hne; [done|]. reflexivity.
  - rewrite app_cons, endswith_cons, IH.
    rewrite Hne; [done|]. simpl. rewrite contains_char_app_r.
    apply orb_true_r.
Qed.

Lemma endswith_split (a suffix : string) :
  endswith a suffix = true -> exists a', a = a' +:+ suffix.
Proof.
  induction a as [|x a IH]; intros H.
  - change (String.eqb "" suffix || false = true) in H.
    apply orb_true_iff in H as [H|H]; [|done].
    apply String.eqb_eq in H. exists "". by rewrite app_nil_l.
  - rewrite endswith_cons in H. apply orb_true_iff in H as [H|H].
    + apply String.eqb_eq in H. exists "". by rewrite app_nil_l.
    + destruct (IH H) as [a' ->]. exists (String x a'). by rewrite app_cons.
Qed.

(** Joining a directory in front of a name puts a separator in front
    of it, unless the result is the name itself. *)
Lemma path_join_shape (d n : string) :
  path_join d n = n \/ exists a, path_join d n = a +:+ String sep n.
Proof.
  unfold path_join.
  destruct (startswith_char n sep); [by left|].
  destruct (String.eqb d "") eqn:Ed.
  - apply String.eqb_eq in Ed as ->. by left.
  - simpl orb. destruct (endswith d "/") eqn:Es.
    + right. apply endswith_split in Es as [a ->].
      exists a. by rewrite app_assoc_str.
    + right. by exists d.
Qed.

Lemma lower_char_sep : lower_char sep = sep.
Proof. reflexivity. Qed.

(** The test of [find_markdown_files], made on the lower-cased path,
    is a test on the lower-cased file name. *)
Lemma markdown_path_name (d n : string) :
  endswith_any (lower (path_join d n)) markdown_suffixes
  = endswith_any (lower n) markdown_suffixes.
Proof.
  destruct (path_join_shape d n) as [->|[a ->]]; [done|].
  rewrite lower_app. simpl lower. rewrite lower_char_sep.
  unfold endswith_any, markdown_suffixes. simpl existsb.
  by rewrite !endswith_behind_sep.
Qed.

Lemma filter_map_comm {A B : Type} (f : A -> B) (p : B -> bool) (l : list A) :
  List.filter p (List.map f l) = List.map f (List.filter (fun x => p (f x)) l).
Proof.
  induction l as [|x l IH]; [done|]. simpl.
  destruct (p (f x)); simpl; by rewrite IH.
Qed.

Lemma filter_filter_andb {A : Type} (p q : A -> bool) (l : list A) :
  List.filter q (List.filter p l) = List.filter (fun x => p x && q x) l.
Proof.
  induction l as [|x l IH]; [done|]. simpl.
  destruct (p x); simpl; [destruct (q x)|]; by rewrite IH.
Qed.

(* ================================================================== *)
(** * File Discovery *)

(** C7. [find_markdown_files] returns the empty list when the path is
    not a directory; otherwise its result is sorted in lexicographic
    order of the full paths and holds exactly (as a permutation) the
    joined paths of the entries of the directory that are regular
    files and whose name ends case-insensitively in [.md] or
    [.markdown]. *)
Theorem find_markdown_files_spec (fs : filesystem) (directory_path : string) :
  if isdir fs directory_path then
    Sorted String.le (find_markdown_files fs directory_path)
    /\ find_markdown_files fs directory_path
       ≡ₚ List.map (path_join directory_path)
            (List.filter
               (fun file_name =>
                  isfile fs (path_join directory_path file_name)
                  && is_markdown_name file_name)
               (listdir fs directory_path))
  else find_markdown_files fs directory_path = [].
Proof.
  unfold find_markdown_files.
  destruct (isdir fs directory_path); simpl; [|done].
  split; [apply (Sorted_merge_sort String.le)|].
  rewrite merge_sort_Permutation, filter_map_comm, filter_filter_andb.
  apply Permutation_map. erewrite List.filter_ext; [done|].
  intros n. cbv beta.
  pose proof (markdown_path_name directory_path n) as H.
  unfold endswith_any, markdown_suffixes in H. cbn [existsb] in H.
  rewrite H. unfold is_markdown_name. by rewrite orb_false_r.
Qed.

(* ================================================================== *)
(** * The program monad and its primitives *)

Lemma with_log_nil (w : world) : with_log w [] = w.
Proof. destruct w. unfold with_log. simpl. by rewrite app_nil_r. Qed.

Lemma w_log_with_log (w : world) (evs : list event) :
  w_log (with_log w evs) = w_log w ++ evs.
Proof. reflexivity. Qed.

Lemma with_log_app (w : world) (a b : list event) :
  with_log (with_log w a) b = with_log w (a ++ b).
Proof. unfold with_log. simpl. by rewrite app_assoc. Qed.

Lemma bind_some {A B : Type} (m : M A) (k : A -> M B) (w w' : world) (a : A) :
  m w = (Some a, w') -> bind m k w = k a w'.
Proof. intros H. unfold bind. by rewrite H. Qed.

Lemma bind_assoc {A B C : Type} (m : M A) (f : A -> M B) (g : B -> M C)
  (w : world) :
  bind (bind m f) g w = bind m (fun a => bind (f a) g) w.
Proof. unfold bind. by destruct (m w) as [[a|] w']. Qed.

Lemma bind_ext {A B : Type} (m : M A) (f g : A -> M B) (w : world) :
  (forall a w', f a w' = g a w') -> bind m f w = bind m g w.
Proof. intros H. unfold bind. destruct (m w) as [[a|] w']; [apply H|done]. Qed.

Lemma bind_get_fs {B : Type} (k : filesystem -> M B) (w : world) :
  bind get_fs k w = k (w_fs w) w.
Proof. reflexivity. Qed.

Section Primitives.

Variable env : environment.

Lemma time_time_run (w : world) :
  time_time env w
  = (Some (env_time env (w_log w)), with_log w [EvTime (env_time env (w_log w))]).
Proof. reflexivity. Qed.

Lemma time_sleep_run (n : Z) (w : world) :
  time_sleep n w = (Some tt, with_log w [EvSleep n]).
Proof. reflexivity. Qed.

Lemma get_indexing_status_run (ds : string) (b : pyval) (w : world) :
  get_indexing_status env ds b w
  = (Some (env_get_indexing_status env (w_log w) ds b),
     with_log w [EvIndexingStatus ds b
                   (fst (env_get_indexing_status env (w_log w) ds b))
                   (snd (env_get_indexing_status env (w_log w) ds b))]).
Proof. reflexivity. Qed.

Lemma create_document_from_file_run (ds file technique : string) (w : world) :
  create_document_from_file env ds file technique w
  = (Some (env_create_document_from_file env (w_log w) ds file technique),
     with_log w [EvCreateDocument ds file technique
                   (fst (env_create_document_from_file env (w_log w) ds file technique))
                   (snd (env_create_document_from_file env (w_log w) ds file technique))]).
Proof. reflexivity. Qed.

Lemma delete_document_run (ds : string) (doc : pyval) (w : world) :
  delete_document env ds doc w
  = (Some (env_delete_document env (w_log w) ds doc),
     with_log w [EvDeleteDocument ds doc (env_delete_document env (w_log w) ds doc)]).
Proof. reflexivity. Qed.

Lemma list_documents_run (ds : string) (page limit : Z) (w : world) :
  list_documents env ds page limit w
  = (Some (env_list_documents env (w_log w) ds page limit),
     with_log w [EvListDocuments ds page limit
                   (fst (env_list_documents env (w_log w) ds page limit))
                   (snd (env_list_documents env (w_log w) ds page limit))]).
Proof. reflexivity. Qed.

End Primitives.

(* ================================================================== *)
(** * Indexing Status Poller *)

Lemma scan_items_from (items : list pydict) (any_error all_completed : bool) :
  fold_left scan_item items (any_error, all_completed)
  = (any_error || existsb has_error items,
     all_completed && forallb item_completed items).
Proof.
  revert any_error all_completed.
  induction items as [|item items IH]; intros a c; simpl.
  - by rewrite orb_false_r, andb_true_r.
  - unfold scan_item at 2. simpl fst. simpl snd. rewrite IH.
    unfold has_error, item_completed.
    destruct (truthy (dict_get item "error")),
             (truthy (dict_get item "completed_at")),
             (eq_str (dict_get item "indexing_status") "completed"),
             a, c; reflexivity.
Qed.

(** The two flags of the [for item in items] loop are "some item has
    an error" and "every item is completed". *)
Lemma scan_items_spec (items : list pydict) :
  scan_items items = (existsb has_error items, forallb item_completed items).
Proof. unfold scan_items. by rewrite scan_items_from. Qed.

(** One iteration of the polling loop, unfolded. *)
Lemma wait_loop_unfold (env : environment) (fuel : nat) (ds : string)
  (b : pyval) (poll : Z) (deadline : Q) (items : option (list pydict)) (w : world) :
  wait_loop env fuel ds b poll deadline items w
  = let now := env_time env (w_log w) in
    let w1 := with_log w [EvTime now] in
    if Qltb now deadline then
      match fuel with
      | O => (None, w1)
      | S fuel' =>
          let r := env_get_indexing_status env (w_log w1) ds b in
          let w2 := with_log w1 [EvIndexingStatus ds b (fst r) (snd r)] in
          let w3 := with_log w2 [EvSleep poll] in
          match r with
          | (true, Dict body) =>
              match status_data body with
              | [] => wait_loop env fuel' ds b poll deadline (Some []) w3
              | _ :: _ =>
                  if existsb has_error (status_data body)
                  then (Some (false, Some (status_data body)), w2)
                  else if forallb item_completed (status_data body)
                  then (Some (true, Some (status_data body)), w2)
                  else wait_loop env fuel' ds b poll deadline
                         (Some (status_data body)) w3
              end
          | _ => wait_loop env fuel' ds b poll deadline items w3
          end
      end
    else (Some (false, items), w1).
Proof.
  destruct fuel as [|fuel']; simpl wait_loop; unfold bind at 1;
    rewrite time_time_run; cbv zeta;
    destruct (Qltb (env_time env (w_log w)) deadline); try reflexivity.
  unfold bind at 1. rewrite get_indexing_status_run.
  destruct (env_get_indexing_status env _ ds b) as [[|] [|body]];
    try reflexivity.
  destruct (status_data body) as [|item items'] eqn:E; [reflexivity|].
  rewrite scan_items_spec. simpl fst. simpl snd.
  destruct (existsb has_error (item :: items')); [reflexivity|].
  destruct (forallb item_completed (item :: items')); reflexivity.
Qed.

(** C3. One iteration of the polling loop that starts before the
    deadline and receives a non-empty item list: if some item carries
    a non-empty error the poller returns not-completed with the items,
    whatever the other items say; otherwise it returns completed with
    the items exactly when every item has a completion timestamp or
    the status "completed"; otherwise it sleeps one poll interval and
    iterates again. *)
Theorem wait_loop_iteration (env : environment) (fuel : nat) (ds : string)
  (b : pyval) (poll : Z) (deadline : Q) (items0 : option (list pydict))
  (w : world) (body : status_body) :
  let now := env_time env (w_log w) in
  Qltb now deadline = true ->
  env_get_indexing_status env (w_log w ++ [EvTime now]) ds b = (true, Dict body) ->
  status_data body <> [] ->
  let items := status_data body in
  let w' := with_log w [EvTime now; EvIndexingStatus ds b true (Dict body)] in
  wait_loop env (S fuel) ds b poll deadline items0 w
  = if existsb has_error items then (Some (false, Some items), w')
    else if forallb item_completed items then (Some (true, Some items), w')
    else wait_loop env fuel ds b poll deadline (Some items)
           (with_log w' [EvSleep poll]).
Proof.
  intros now Hnow Hst Hne items w'.
  rewrite wait_loop_unfold. cbv zeta. fold now. rewrite Hnow.
  change (w_log (with_log w [EvTime now])) with (w_log w ++ [EvTime now]).
  rewrite Hst. simpl fst. simpl snd. rewrite !with_log_app. simpl app.
  fold items. subst w'. rewrite with_log_app. simpl app.
  destruct items as [|item items'] eqn:E; [done|]. reflexivity.
Qed.

(** The events of the polling loop are clock readings, status queries
    and sleeps; a run that returns "completed" ends with a status
    answer in which every item is completed and none has an error. *)
Lemma wait_loop_events (env : environment) (ds : string) (b : pyval)
  (poll : Z) (deadline : Q) (fuel : nat) :
  forall (items : option (list pydict)) (w : world),
  exists evs,
    snd (wait_loop env fuel ds b poll deadline items w) = with_log w evs
    /\ forallb is_poll_event evs = true
    /\ (forall its, fst (wait_loop env fuel ds b poll deadline items w)
                    = Some (true, its) -> ends_completed evs).
Proof.
  induction fuel as [|fuel IH]; intros items w; rewrite wait_loop_unfold;
    cbv zeta; destruct (Qltb (env_time env (w_log w)) deadline);
    try (eexists; split; [reflexivity|]; split; [reflexivity|]; simpl; by intros).
  set (w1 := with_log w [EvTime (env_time env (w_log w))]).
  set (r := env_get_indexing_status env (w_log w1) ds b).
  assert (Hloop : forall its' : option (list pydict),
    exists evs,
      snd (wait_loop env fuel ds b poll deadline its'
             (with_log (with_log w1 [EvIndexingStatus ds b (fst r) (snd r)])
                       [EvSleep poll]))
      = with_log w evs
      /\ forallb is_poll_event evs = true
      /\ (forall its, fst (wait_loop env fuel ds b poll deadline its'
             (with_log (with_log w1 [EvIndexingStatus ds b (fst r) (snd r)])
                       [EvSleep poll])) = Some (true, its) -> ends_completed evs)).
  { intros its'. destruct (IH its' (with_log (with_log w1
      [EvIndexingStatus ds b (fst r) (snd r)]) [EvSleep poll]))
      as (evs & Hw & Hp & Hc).
    eexists. split; [rewrite Hw; subst w1; rewrite !with_log_app; reflexivity|].
    split.
    - simpl. exact Hp.
    - intros its Hits. destruct (Hc its Hits) as (pre & ds' & b' & body & -> & H).
      exists ((EvTime (env_time env (w_log w))
               :: EvIndexingStatus ds b (fst r) (snd r) :: EvSleep poll :: pre)),
             ds', b', body.
      split; [reflexivity|exact H]. }
  destruct r as [[|] [|body]] eqn:Er; try apply Hloop.
  destruct (status_data body) as [|item items'] eqn:E; [apply Hloop|].
  destruct (existsb has_error (item :: items')) eqn:Eerr.
  { eexists. split; [subst w1; rewrite with_log_app; reflexivity|].
    split; [reflexivity|]. simpl. by intros. }
  destruct (forallb item_completed (item :: items')) eqn:Eall; [|apply Hloop].
  eexists. split; [subst w1; rewrite with_log_app; reflexivity|].
  split; [reflexivity|]. intros _ _.
  exists [EvTime (env_time env (w_log w))], ds, b, body. simpl fst. simpl snd.
  split; [reflexivity|]. rewrite E. by split.
Qed.

(** [wait_for_batch_completion], unfolded to its loop. *)
Lemma wait_for_batch_completion_unfold (env : environment) (fuel : nat)
  (ds : string) (b : pyval) (poll timeout : Z) (w : world) :
  wait_for_batch_completion env fuel ds b poll timeout w
  = let w1 := with_log w [EvWait b poll timeout] in
    let start_time := env_time env (w_log w1) in
    wait_loop env fuel ds b poll (start_time + inject_Z timeout)%Q None
      (with_log w1 [EvTime start_time]).
Proof. reflexivity. Qed.

Lemma wait_for_batch_completion_events (env : environment) (fuel : nat)
  (ds : string) (b : pyval) (poll timeout : Z) (w : world) :
  exists t evs,
    snd (wait_for_batch_completion env fuel ds b poll timeout w)
    = with_log w (EvWait b poll timeout :: EvTime t :: evs)
    /\ forallb is_poll_event evs = true
    /\ (forall its, fst (wait_for_batch_completion env fuel ds b poll timeout w)
                    = Some (true, its) -> ends_completed evs).
Proof.
  rewrite wait_for_batch_completion_unfold. cbv zeta.
  set (w1 := with_log w [EvWait b poll timeout]).
  set (t := env_time env (w_log w1)).
  destruct (wait_loop_events env ds b poll (t + inject_Z timeout)%Q fuel None
              (with_log w1 [EvTime t])) as (evs & Hw & Hp & Hc).
  exists t, evs. split; [|by split].
  rewrite Hw. subst w1. by rewrite !with_log_app.
Qed.

(** Witness of C3: the first iteration in [env_errored]. *)
Lemma wait_loop_iteration_witness :
  wait_loop env_errored 1 "ds" (VStr "batch-1") 5 (100 # 1) None sample_world
  = (Some (false, Some [errored_item]),
     with_log sample_world
       [EvTime (tick_clock []);
        EvIndexingStatus "ds" (VStr "batch-1") true
          (Dict {| status_data := [errored_item] |})]).
Proof.
  apply (wait_loop_iteration env_errored 0 "ds" (VStr "batch-1") 5 (100 # 1)
           None sample_world {| status_data := [errored_item] |});
    [reflexivity | reflexivity | discriminate].
Defined.

(** C10, as amended. With a timeout budget that is zero or negative,
    and a clock that has not been set back between the reading taken
    at entry and the reading of the first loop test, the poller issues
    no status query and returns not-completed with no item list: its
    only events are the entry and the two clock readings. *)
Theorem wait_zero_budget (env : environment) (fuel : nat) (ds : string)
  (b : pyval) (poll timeout : Z) (w : world) :
  timeout <= 0 ->
  let t0 := env_time env (w_log w ++ [EvWait b poll timeout]) in
  let t1 := env_time env (w_log w ++ [EvWait b poll timeout; EvTime t0]) in
  (t0 <= t1)%Q ->
  wait_for_batch_completion env fuel ds b poll timeout w
  = (Some (false, None),
     with_log w [EvWait b poll timeout; EvTime t0; EvTime t1]).
Proof.
  intros Hle t0 t1 Hmono.
  rewrite wait_for_batch_completion_unfold. cbv zeta.
  rewrite wait_loop_unfold. cbv zeta. rewrite !with_log_app. simpl app.
  change (w_log (with_log w [EvWait b poll timeout]))
    with (w_log w ++ [EvWait b poll timeout]).
  change (w_log (with_log w [EvWait b poll timeout;
            EvTime (env_time env (w_log w ++ [EvWait b poll timeout]))]))
    with (w_log w ++ [EvWait b poll timeout; EvTime t0]).
  fold t0. fold t1.
  assert (Hq : Qltb t1 (t0 + inject_Z timeout) = false).
  { unfold Qltb. apply negb_false_iff. apply Qle_bool_iff.
    rewrite Zle_Qle in Hle. change (inject_Z 0) with 0%Q in Hle. lra. }
  by rewrite Hq.
Qed.

Lemma wait_zero_budget_witness :
  0 <= 0
  /\ wait_for_batch_completion env_errored 0 "ds" (VStr "batch-1") 5 0 sample_world
     = (Some (false, None),
        with_log sample_world
          [EvWait (VStr "batch-1") 5 0;
           EvTime (tick_clock [EvWait (VStr "batch-1") 5 0]);
           EvTime (tick_clock [EvWait (VStr "batch-1") 5 0;
                               EvTime (tick_clock [EvWait (VStr "batch-1") 5 0])])]).
Proof.
  split; [lia|].
  apply (wait_zero_budget env_errored 0 "ds" (VStr "batch-1") 5 0 sample_world);
    [lia | vm_compute; discriminate].
Defined.

(** Counterexample to C10 as stated: with a zero budget and a clock
    that is set back between the two readings, the loop is entered,
    one status query is issued and an item list is returned. *)
Lemma wait_zero_budget_backwards_clock :
  let r := wait_for_batch_completion env_backwards 1 "ds" (VStr "batch-1") 5 0
             sample_world in
  fst r = Some (false, Some [errored_item])
  /\ count is_status_query (w_log (snd r)) = 1%nat.
Proof. vm_compute. split; reflexivity. Qed.

(* ================================================================== *)
(** * Document Inventory Resolver *)

Lemma add_item_names_spec (normalized : gset string) (item : pydict) (x : string) :
  x ∈ add_item_names normalized item
  <-> x ∈ normalized
      \/ (truthy (dict_get item "name") = true
          /\ (x = lower (py_str (dict_get item "name"))
              \/ x = fst (splitext (lower (py_str (dict_get item "name")))))).
Proof.
  unfold add_item_names.
  destruct (truthy (dict_get item "name")); simpl.
  - rewrite !elem_of_union, !elem_of_singleton. tauto.
  - split; [by left | by intros [?|[? _]]].
Qed.

Lemma fold_add_item_names_spec (items : list pydict) :
  forall (normalized : gset string) (x : string),
  x ∈ fold_left add_item_names items normalized
  <-> x ∈ normalized
      \/ exists item,
           In item items
           /\ truthy (dict_get item "name") = true
           /\ (x = lower (py_str (dict_get item "name"))
               \/ x = fst (splitext (lower (py_str (dict_get item "name"))))).
Proof.
  induction items as [|item items IH]; intros normalized x; simpl.
  - split; [by left | by intros [?|(? & [] & _)]].
  - rewrite IH, add_item_names_spec. split.
    + intros [[H|[Ht H]]|(it & Hin & H)].
      * by left.
      * right. exists item. by split; [left|].
      * right. exists it. by split; [right|].
    + intros [H|(it & [<-|Hin] & Ht & H)].
      * left. by left.
      * left. right. by split.
      * right. by exists it.
Qed.

Lemma named_in_cons (body : list_body) (pages : list list_body) (x : string) :
  named_in (body :: pages) x
  <-> (exists item,
         In item (docs_data body)
         /\ truthy (dict_get item "name") = true
         /\ (x = lower (py_str (dict_get item "name"))
             \/ x = fst (splitext (lower (py_str (dict_get item "name"))))))
      \/ named_in pages x.
Proof.
  unfold named_in. split.
  - intros (b & item & [<-|Hin] & H).
    + left. by exists item.
    + right. by exists b, item.
  - intros [(item & H)|(b & item & Hin & H)].
    + exists body, item. by split; [left|].
    + exists b, item. by split; [right|].
Qed.

Lemma named_in_nil (x : string) : ~ named_in [] x.
Proof. by intros (b & item & [] & _). Qed.

(** The paging loop, started at any page with any set collected so
    far. *)
Lemma fetch_pages_spec (env : environment) (ds : string) (limit : Z)
  (stop : bool * response list_body) (pages : list list_body) :
  forall (fuel : nat) (page : Z) (normalized : gset string) (w : world),
  pages_answered env ds limit page (w_log w) pages stop ->
  stops_paging stop ->
  (List.length pages < fuel)%nat ->
  exists names,
    fetch_pages env fuel ds limit page normalized w
    = (Some names,
       with_log w (page_events ds limit page pages
                   ++ [EvListDocuments ds (page + Z.of_nat (List.length pages))
                         limit (fst stop) (snd stop)]))
    /\ forall x, x ∈ names
                 <-> x ∈ normalized \/ named_in (fetched_pages pages stop) x.
Proof.
  induction pages as [|body pages IH]; intros fuel page normalized w Hans Hstop Hfuel.
  - destruct fuel as [|fuel]; [simpl in Hfuel; lia|].
    simpl in Hans. simpl fetch_pages.
    erewrite bind_some by apply list_documents_run. rewrite Hans.
    simpl page_events. simpl List.length. rewrite Z.add_0_r. simpl app.
    unfold fetched_pages. simpl app.
    destruct stop as [[|] [|body]]; simpl in Hstop; simpl fst; simpl snd.
    + exists normalized. split; [reflexivity|].
      intros x. split; [by left | by intros [?|?%named_in_nil]].
    + rewrite Hstop. cbn [negb].
      exists (fold_left add_item_names (docs_data body) normalized).
      split; [reflexivity|].
      intros x. rewrite fold_add_item_names_spec, named_in_cons.
      split; [intros [?|?]; [by left|by right; left]|].
      intros [?|[?|?%named_in_nil]]; [by left|by right|done].
    + exists normalized. split; [reflexivity|].
      intros x. split; [by left | by intros [?|?%named_in_nil]].
    + exists normalized. split; [reflexivity|].
      intros x. split; [by left | by intros [?|?%named_in_nil]].
  - destruct fuel as [|fuel]; [simpl in Hfuel; lia|].
    simpl in Hans. destruct Hans as (Hpage & Hmore & Hrest).
    simpl fetch_pages.
    erewrite bind_some by apply list_documents_run. rewrite Hpage.
    simpl fst. simpl snd. rewrite Hmore. cbn [negb].
    destruct (IH fuel (page + 1)
                (fold_left add_item_names (docs_data body) normalized)
                (with_log w [EvListDocuments ds page limit true (Dict body)]))
      as (names & Hrun & Hnames).
    { exact Hrest. }
    { exact Hstop. }
    { simpl in Hfuel. lia. }
    exists names. split.
    + rewrite Hrun, with_log_app. simpl page_events.
      replace (page + Z.of_nat (List.length (body :: pages)))
        with (page + 1 + Z.of_nat (List.length pages))
        by (simpl List.length; lia).
      reflexivity.
    + intros x. rewrite Hnames, fold_add_item_names_spec.
      change (fetched_pages (body :: pages) stop)
        with (body :: fetched_pages pages stop).
      rewrite named_in_cons. tauto.
Qed.

(** C8. Whatever pages the listing answers with: when the first
    [length pages] requests succeed with a dict body that announces a
    further page, and the next answer ends the paging (a failed
    request, a body that is not a dict, or a last page), the resolver
    returns, without running out of loop budget, after exactly these
    requests, and the set it returns holds exactly the lower-cased name
    and the lower-cased extension-stripped name of every document
    named in the successfully fetched pages: the partial set when the
    paging ended on a failure. *)
Theorem fetch_existing_document_names_spec (env : environment) (ds : string)
  (limit : Z) (w : world) (pages : list list_body)
  (stop : bool * response list_body) (fuel : nat) :
  pages_answered env ds limit 1 (w_log w) pages stop ->
  stops_paging stop ->
  (List.length pages < fuel)%nat ->
  exists names,
    fetch_existing_document_names env fuel ds limit w
    = (Some names,
       with_log w (page_events ds limit 1 pages
                   ++ [EvListDocuments ds (1 + Z.of_nat (List.length pages))
                         limit (fst stop) (snd stop)]))
    /\ forall x, x ∈ names <-> named_in (fetched_pages pages stop) x.
Proof.
  intros Hans Hstop Hfuel.
  destruct (fetch_pages_spec env ds limit stop pages fuel 1 ∅ w Hans Hstop Hfuel)
    as (names & Hrun & Hnames).
  exists names. split; [exact Hrun|].
  intros x. rewrite Hnames. split; [|by right].
  intros [H|H]; [by apply not_elem_of_empty in H|done].
Qed.

Lemma fetch_existing_document_names_spec_witness :
  exists names,
    fetch_existing_document_names env_notes 2 "ds" 100 sample_world
    = (Some names,
       with_log sample_world
         [EvListDocuments "ds" 1 100 true (Dict notes_page);
          EvListDocuments "ds" 2 100 false NotADict])
    /\ forall x, x ∈ names <-> named_in [notes_page] x.
Proof.
  apply (fetch_existing_document_names_spec env_notes "ds" 100 sample_world
           [notes_page] (false, NotADict) 2).
  - simpl. split; [reflexivity|]. split; reflexivity.
  - exact I.
  - simpl. lia.
Defined.

(* ================================================================== *)
(** * Upload Dispatcher and Fallback Recovery Controller *)

Lemma already_listed_test (existing_names : gset string) (file : string) :
  bool_decide (lower (basename file) ∈ existing_names)
  || bool_decide (lower (fst (splitext (basename file))) ∈ existing_names) = true
  <-> already_listed existing_names file.
Proof.
  unfold already_listed. rewrite orb_true_iff, !bool_decide_eq_true. tauto.
Qed.

(** C6. A candidate file whose lower-cased name, or lower-cased name
    without extension, is in the set of existing names is counted as a
    success and leaves the world as it was: no event at all, hence no
    call of [create_document_from_file], happens for it. *)
Theorem upload_file_skips_existing (env : environment) (fuel : nat)
  (args : arguments) (ds : string) (existing_names : gset string)
  (file : string) (counts : Z * Z) (w : world) :
  lower (basename file) ∈ existing_names
  \/ lower (fst (splitext (basename file))) ∈ existing_names ->
  upload_file env fuel args ds existing_names file counts w
  = (Some (fst counts + 1, snd counts), w).
Proof.
  intros H. apply already_listed_test in H.
  unfold upload_file. cbv zeta. by rewrite H.
Qed.

(** Scenario B: the local file [notes.md] when the dataset lists
    [Notes.md]. *)
Lemma upload_file_skips_existing_witness :
  upload_file env_notes 2 sample_args "ds" ({["notes.md"]} ∪ {["notes"]})
    "/data/notes.md" (0, 0) sample_world
  = (Some (1, 0), sample_world).
Proof.
  apply (upload_file_skips_existing env_notes 2 sample_args "ds"
           ({["notes.md"]} ∪ {["notes"]}) "/data/notes.md" (0, 0) sample_world).
  left. apply elem_of_union. left. apply elem_of_singleton. reflexivity.
Defined.

(** Every run of the fallback cycle is one of [fallback_run]. *)
Lemma delete_and_retry_run (env : environment) (fuel : nat) (args : arguments)
  (ds file : string) (doc : pyval) (failure_count : Z) (w : world) :
  exists evs res,
    delete_and_retry env fuel args ds file doc failure_count w
    = (res, with_log w evs)
    /\ fallback_run args ds file doc failure_count evs res.
Proof.
  unfold delete_and_retry.
  destruct (truthy doc) eqn:Hdoc.
  2:{ exists [], (Some (failure_count + 1)). rewrite with_log_nil.
      split; [reflexivity | by constructor]. }
  erewrite bind_some by apply delete_document_run.
  destruct (env_delete_document env (w_log w) ds doc) eqn:Hdel.
  2:{ eexists _, _. split; [reflexivity | by constructor]. }
  erewrite bind_some by apply time_sleep_run.
  erewrite bind_some by apply create_document_from_file_run.
  cbv zeta. rewrite !with_log_app, !w_log_with_log. simpl app.
  destruct (env_create_document_from_file env _ ds file "high_quality")
    as [re_ok re_result] eqn:Hre.
  cbn [fst snd].
  destruct re_ok.
  2:{ eexists _, _. split; [reflexivity | by constructor]. }
  destruct (truthy (result_batch_id re_result)) eqn:Hbatch.
  2:{ eexists _, _. split; [reflexivity | by constructor]. }
  set (w3 := with_log w _).
  destruct (wait_for_batch_completion_events env fuel ds
              (result_batch_id re_result) (arg_poll_interval args)
              (arg_indexing_timeout args) w3) as (t & evs & Hw & Hp & Hc).
  unfold bind.
  destruct (wait_for_batch_completion env fuel ds (result_batch_id re_result)
              (arg_poll_interval args) (arg_indexing_timeout args) w3)
    as [[[completed its]|] w4] eqn:Hwait; simpl in Hw; subst w4 w3;
    rewrite with_log_app; simpl app; cbn [fst snd].
  - destruct completed.
    + eexists _, _. split; [reflexivity|].
      apply (FbRetryPolled args ds file doc failure_count re_result t evs);
        try done.
      right. right. split; [done|]. by apply (Hc its).
    + eexists _, _. split; [reflexivity|].
      apply (FbRetryPolled args ds file doc failure_count re_result t evs);
        try done.
      right. by left.
  - eexists _, _. split; [reflexivity|].
    apply (FbRetryPolled args ds file doc failure_count re_result t evs);
      try done.
    by left.
Qed.

(** Every run of one iteration of the upload loop is one of
    [file_run]. *)
Lemma upload_file_run (env : environment) (fuel : nat) (args : arguments)
  (ds : string) (existing_names : gset string) (file : string)
  (counts : Z * Z) (w : world) :
  exists evs res,
    upload_file env fuel args ds existing_names file counts w
    = (res, with_log w evs)
    /\ file_run args ds existing_names file counts
         (env_create_document_from_file env (w_log w) ds file "high_quality")
         evs res.
Proof.
  unfold upload_file. cbv zeta.
  destruct (bool_decide _ || bool_decide _) eqn:Hskip.
  { apply already_listed_test in Hskip.
    exists [], (Some (fst counts + 1, snd counts)). rewrite with_log_nil.
    split; [reflexivity | by constructor]. }
  assert (Hnew : ~ already_listed existing_names file).
  { intros H. apply already_listed_test in H. congruence. }
  erewrite bind_some by apply create_document_from_file_run.
  set (created := env_create_document_from_file env (w_log w) ds file "high_quality").
  destruct (fst created) eqn:Hok.
  2:{ eexists _, _. split; [reflexivity | by constructor]. }
  destruct (truthy (result_batch_id (snd created))) eqn:Hbatch.
  2:{ eexists _, _. split; [reflexivity | by constructor]. }
  set (w1 := with_log w _).
  set (budget := Z.min (arg_indexing_timeout args) (arg_fallback_timeout_seconds args)).
  destruct (wait_for_batch_completion_events env fuel ds
              (result_batch_id (snd created)) (arg_poll_interval args) budget w1)
    as (t & evs & Hw & Hp & Hc).
  unfold bind at 1.
  destruct (wait_for_batch_completion env fuel ds (result_batch_id (snd created))
              (arg_poll_interval args) budget w1)
    as [[[completed its]|] w2] eqn:Hwait; simpl in Hw; subst w2 w1;
    rewrite with_log_app; simpl app; cbn [fst snd].
  - destruct completed.
    + eexists _, _. split; [reflexivity|].
      apply RunPolled; try done. right. split; [done|]. by apply (Hc its).
    + destruct (delete_and_retry_run env fuel args ds file
                  (result_document_id (snd created)) (snd counts)
                  (with_log w (EvCreateDocument ds file "high_quality" true
                                 (snd created)
                               :: EvWait (result_batch_id (snd created))
                                    (arg_poll_interval args) budget
                               :: EvTime t :: evs)))
        as (tail & res & Hrun & Hfb).
      unfold bind. rewrite Hrun, with_log_app.
      exists ((EvCreateDocument ds file "high_quality" true (snd created)
               :: EvWait (result_batch_id (snd created))
                    (arg_poll_interval args) budget
               :: EvTime t :: evs) ++ tail),
             (option_map (fun failure_count => (fst counts + 1, failure_count)) res).
      split; [by destruct res|].
      by apply RunFallback.
  - eexists _, _. split; [reflexivity|].
    apply RunPolled; try done. by left.
Qed.

(** ** Counting events *)

Lemma count_nil (kind : event -> bool) : count kind [] = 0%nat.
Proof. reflexivity. Qed.

Lemma count_cons (kind : event -> bool) (e : event) (evs : list event) :
  count kind (e :: evs) = ((if kind e then 1 else 0) + count kind evs)%nat.
Proof. unfold count. simpl. by destruct (kind e). Qed.

Lemma count_app (kind : event -> bool) (a b : list event) :
  count kind (a ++ b) = (count kind a + count kind b)%nat.
Proof. unfold count. by rewrite List.filter_app, List.length_app. Qed.

(** The polling loop neither creates nor deletes a document, and does
    not enter the poller again. *)
Lemma count_poll_events (kind : event -> bool) (evs : list event) :
  (forall e, is_poll_event e = true -> kind e = false) ->
  forallb is_poll_event evs = true -> count kind evs = 0%nat.
Proof.
  intros Hkind. induction evs as [|e evs IH]; [done|]. simpl forallb.
  intros [He Hevs]%andb_true_iff. rewrite count_cons, (Hkind e He), IH; done.
Qed.

Lemma poll_event_not_delete (e : event) :
  is_poll_event e = true -> is_delete e = false.
Proof. by destruct e. Qed.

Lemma poll_event_not_create (e : event) :
  is_poll_event e = true -> is_create e = false.
Proof. by destruct e. Qed.

Lemma poll_event_not_wait (e : event) :
  is_poll_event e = true -> is_wait e = false.
Proof. by destruct e. Qed.

Lemma poll_events_no_delete (evs : list event) (ds : string) (doc : pyval) (ok : bool) :
  forallb is_poll_event evs = true -> ~ In (EvDeleteDocument ds doc ok) evs.
Proof.
  intros Hp Hin. rewrite forallb_forall in Hp. by apply Hp in Hin.
Qed.

Lemma ends_completed_app (pre evs : list event) :
  ends_completed evs -> ends_completed (pre ++ evs).
Proof.
  intros (p & ds & b & body & -> & H).
  exists (pre ++ p), ds, b, body. by rewrite app_assoc.
Qed.

Ltac count_events :=
  repeat (rewrite ?count_app, ?count_cons, ?count_nil);
  cbn [is_delete is_create is_wait];
  repeat match goal with
    | H : forallb is_poll_event ?evs = true |- context [count is_delete ?evs] =>
        rewrite (count_poll_events is_delete evs poll_event_not_delete H)
    | H : forallb is_poll_event ?evs = true |- context [count is_create ?evs] =>
        rewrite (count_poll_events is_create evs poll_event_not_create H)
    | H : forallb is_poll_event ?evs = true |- context [count is_wait ?evs] =>
        rewrite (count_poll_events is_wait evs poll_event_not_wait H)
    end.

(** What a fallback cycle can do: at most one deletion, one
    resubmission and one polling phase; the deletion is of the known,
    non-empty document id; a resubmission follows a successful
    deletion only; and once the deletion has been issued the failure
    counter is incremented unless the second polling phase ends
    completed. *)
Lemma fallback_run_bounds (args : arguments) (ds file : string) (doc : pyval)
  (failure_count : Z) (tail : list event) (res : option Z) :
  fallback_run args ds file doc failure_count tail res ->
  (count is_delete tail <= 1)%nat
  /\ (count is_create tail <= 1)%nat
  /\ (count is_wait tail <= 1)%nat
  /\ (forall ds' d ok, In (EvDeleteDocument ds' d ok) tail -> truthy d = true)
  /\ ((count is_create tail = 1)%nat -> In (EvDeleteDocument ds doc true) tail)
  /\ (forall f', res = Some f' ->
        f' = failure_count + 1
        \/ (f' = failure_count /\ (count is_wait tail = 1)%nat
            /\ ends_completed tail)).
Proof.
  intros Hrun. destruct Hrun as [Hdoc|Hdoc|re Hdoc|re Hdoc Hb|re t evs res Hdoc Hb Hp Hres].
  - repeat split; count_events; try lia; try done.
    intros f' [= <-]. by left.
  - repeat split; count_events; try lia.
    + intros ds' d ok [[= <- <- <-]|[]]. done.
    + intros f' [= <-]. by left.
  - repeat split; count_events; try lia.
    + intros ds' d ok [[= <- <- <-]|[?|[?|[]]]]; done.
    + intros _. by left.
    + intros f' [= <-]. by left.
  - repeat split; count_events; try lia.
    + intros ds' d ok [[= <- <- <-]|[?|[?|[]]]]; done.
    + intros _. by left.
    + intros f' [= <-]. by left.
  - repeat split; count_events; try lia.
    + intros ds' d ok [[= <- <- <-]|[?|[?|[?|[?|Hin]]]]]; try done.
      by apply poll_events_no_delete in Hin.
    + intros _. by left.
    + intros f' ->. destruct Hres as [?|[[= ->]|[[= ->] Hc]]]; [done|by left|].
      right. split; [done|]. split; [count_events; lia|].
      by apply (ends_completed_app [_; _; _; _; _]).
Qed.

(** C4. When the submission of a file returns a batch id, the poller
    is entered right after the submission with the budget
    [min(indexing_timeout, fallback_timeout_seconds)]; the events of
    that polling phase hold no further entry into the poller; and what
    follows it either holds no entry into the poller at all, or is a
    successful deletion, the wait, a resubmission that returned a batch
    id, and an entry into the poller with the full [indexing_timeout]
    as its budget. *)
Theorem poller_budgets (env : environment) (fuel : nat) (args : arguments)
  (ds : string) (existing_names : gset string) (file : string)
  (counts : Z * Z) (w : world) (result : response create_body) :
  ~ already_listed existing_names file ->
  env_create_document_from_file env (w_log w) ds file "high_quality"
  = (true, result) ->
  truthy (result_batch_id result) = true ->
  exists t evs tail,
    snd (upload_file env fuel args ds existing_names file counts w)
    = with_log w
        (EvCreateDocument ds file "high_quality" true result
         :: EvWait (result_batch_id result) (arg_poll_interval args)
              (Z.min (arg_indexing_timeout args) (arg_fallback_timeout_seconds args))
         :: EvTime t :: evs ++ tail)
    /\ forallb is_poll_event evs = true
    /\ (count is_wait tail = 0%nat
        \/ exists re_result t' evs',
             tail = [EvDeleteDocument ds (result_document_id result) true;
                     EvSleep (arg_fallback_retry_wait_seconds args);
                     EvCreateDocument ds file "high_quality" true re_result;
                     EvWait (result_batch_id re_result) (arg_poll_interval args)
                       (arg_indexing_timeout args);
                     EvTime t'] ++ evs'
             /\ truthy (result_batch_id re_result) = true
             /\ forallb is_poll_event evs' = true).
Proof.
  intros Hnew Hcreated Hbatch.
  destruct (upload_file_run env fuel args ds existing_names file counts w)
    as (evs0 & res & Hrun & Hfile).
  rewrite Hrun, Hcreated in *. clear Hrun Hcreated. cbn [snd].
  inversion Hfile as [Hl|? Hok|? ? Hb|t evs res' ? ? ? Hp Hres
                      |t evs tail res' ? ? ? Hp Hfb]; subst; cbn [fst snd] in *;
    try done; try congruence.
  - exists t, evs, []. rewrite app_nil_r. repeat split; try done. by left.
  - exists t, evs, tail. repeat split; try done.
    inversion Hfb as [?|?|re ?|re ? ?|re t' evs' res2 ? Hb2 Hp2 ?]; subst;
      try (left; reflexivity).
    right. by exists re, t', evs'.
Qed.

Lemma poller_budgets_witness :
  exists t evs tail,
    snd (upload_file env_errored 1 sample_args "ds" ∅ "/data/a.md" (0, 0)
           sample_world)
    = with_log sample_world
        (EvCreateDocument "ds" "/data/a.md" "high_quality" true sample_created
         :: EvWait (VStr "batch-1") 5 300
         :: EvTime t :: evs ++ tail)
    /\ forallb is_poll_event evs = true
    /\ (count is_wait tail = 0%nat
        \/ exists re_result t' evs',
             tail = [EvDeleteDocument "ds" (VStr "doc-1") true;
                     EvSleep 300;
                     EvCreateDocument "ds" "/data/a.md" "high_quality" true re_result;
                     EvWait (result_batch_id re_result) 5 600;
                     EvTime t'] ++ evs'
             /\ truthy (result_batch_id re_result) = true
             /\ forallb is_poll_event evs' = true).
Proof.
  apply (poller_budgets env_errored 1 sample_args "ds" ∅ "/data/a.md" (0, 0)
           sample_world sample_created).
  - intros [H|H]; by apply not_elem_of_empty in H.
  - reflexivity.
  - reflexivity.
Defined.

(** C5. In one iteration of the upload loop at most one fallback cycle
    runs: at most one deletion, at most two submissions and at most
    two polling phases happen; every deletion is of a non-empty
    document id; a second submission happens only when a deletion has
    succeeded; the failure counter never grows by more than one; and
    once a deletion has been issued, the iteration ends with the
    failure counter incremented (resubmission refused, resubmission
    without a batch id, second polling phase not completed, or
    deletion failed) unless the second polling phase ended
    completed. *)
Theorem at_most_one_fallback_cycle (env : environment) (fuel : nat)
  (args : arguments) (ds : string) (existing_names : gset string)
  (file : string) (counts : Z * Z) (w : world) :
  exists evs res,
    upload_file env fuel args ds existing_names file counts w
    = (res, with_log w evs)
    /\ (count is_delete evs <= 1)%nat
    /\ (count is_create evs <= 2)%nat
    /\ (count is_wait evs <= 2)%nat
    /\ (forall ds' doc ok, In (EvDeleteDocument ds' doc ok) evs -> truthy doc = true)
    /\ ((count is_create evs = 2)%nat ->
        exists doc, In (EvDeleteDocument ds doc true) evs)
    /\ (forall s' f', res = Some (s', f') ->
          f' = snd counts \/ f' = snd counts + 1)
    /\ ((count is_delete evs = 1)%nat -> forall s' f', res = Some (s', f') ->
          f' = snd counts + 1
          \/ (f' = snd counts /\ (count is_wait evs = 2)%nat
              /\ ends_completed evs)).
Proof.
  destruct (upload_file_run env fuel args ds existing_names file counts w)
    as (evs0 & res & Hrun & Hfile).
  exists evs0, res. split; [exact Hrun|]. clear Hrun.
  destruct Hfile as [Hl|? Hok|? ? Hb|t evs res ? ? ? Hp Hres
                     |t evs tail res ? ? ? Hp Hfb].
  - repeat split; count_events; try lia; try done.
    intros s' f' [= ? ?]; subst. by left.
  - repeat split; count_events; try lia.
    + by intros ds' doc ok [?|[]].
    + intros s' f' [= ? ?]; subst. by right.
  - repeat split; count_events; try lia.
    + by intros ds' doc ok [?|[]].
    + intros s' f' [= ? ?]; subst. by left.
  - repeat split; count_events; try lia.
    + intros ds' doc ok [?|[?|[?|Hin]]]; try done.
      by apply poll_events_no_delete in Hin.
    + intros s' f' ->. destruct Hres as [?|[[= ? ?] _]]; [done|subst; by left].
  - destruct (fallback_run_bounds _ _ _ _ _ _ _ Hfb)
      as (Hd & Hc & Hw & Hdoc & Hre & Hout).
    repeat split; count_events; try lia.
    + intros ds' doc ok [?|[?|[?|Hin]]]; try done.
      apply in_app_or in Hin as [Hin|Hin]; [|by eapply Hdoc].
      by apply poll_events_no_delete in Hin.
    + intros Hcount. eexists.
      do 3 right. apply in_or_app. right. apply Hre. lia.
    + intros s' f' Hres. destruct res as [f|]; [|done].
      injection Hres as ? ?; subst.
      destruct (Hout _ eq_refl) as [->|(-> & _)]; [by right|by left].
    + intros Hcount s' f' Hres. destruct res as [f|]; [|done].
      injection Hres as ? ?; subst.
      destruct (Hout _ eq_refl) as [->|(-> & Hw1 & Hend)]; [by left|].
      right. split; [done|]. split; [count_events; lia|].
      apply (ends_completed_app [_; _; _]). by apply ends_completed_app.
Qed.

Lemma at_most_one_fallback_cycle_witness :
  exists evs res,
    upload_file env_errored 1 sample_args "ds" ∅ "/data/a.md" (0, 0) sample_world
    = (res, with_log sample_world evs)
    /\ (count is_delete evs <= 1)%nat
    /\ (count is_create evs <= 2)%nat
    /\ (count is_wait evs <= 2)%nat.
Proof.
  destruct (at_most_one_fallback_cycle env_errored 1 sample_args "ds" ∅
              "/data/a.md" (0, 0) sample_world)
    as (evs & res & Hrun & Hd & Hc & Hw & _).
  by exists evs, res.
Defined.

(** The dispatcher tests only whether the first polling phase
    completed and never looks at the items: when the phase returns
    not-completed with an item list in which some item carries a
    non-empty error, what follows is a run of the fallback cycle on
    the document id of the submission, as after a timeout. With no
    document id the failure counter is incremented at once and nothing
    else happens; with a document id the next event is the deletion of
    that document, followed, when it succeeds, by the wait and the
    resubmission. *)
Theorem errored_first_poll_enters_fallback (env : environment) (fuel : nat)
  (args : arguments) (ds : string) (existing_names : gset string)
  (file : string) (counts : Z * Z) (w w' : world)
  (result : response create_body) (items : list pydict) :
  ~ already_listed existing_names file ->
  env_create_document_from_file env (w_log w) ds file "high_quality"
  = (true, result) ->
  truthy (result_batch_id result) = true ->
  wait_for_batch_completion env fuel ds (result_batch_id result)
    (arg_poll_interval args)
    (Z.min (arg_indexing_timeout args) (arg_fallback_timeout_seconds args))
    (with_log w [EvCreateDocument ds file "high_quality" true result])
  = (Some (false, Some items), w') ->
  existsb has_error items = true ->
  exists tail res,
    upload_file env fuel args ds existing_names file counts w
    = (option_map (fun failure_count => (fst counts + 1, failure_count)) res,
       with_log w' tail)
    /\ fallback_run args ds file (result_document_id result) (snd counts)
         tail res.
Proof.
  intros Hnew Hcreated Hbatch Hwait _.
  unfold upload_file. cbv zeta.
  destruct (bool_decide _ || bool_decide _) eqn:Hskip.
  { apply already_listed_test in Hskip. done. }
  erewrite bind_some by apply create_document_from_file_run.
  rewrite Hcreated. cbn [fst snd]. rewrite Hbatch.
  erewrite bind_some by exact Hwait. cbn [fst].
  destruct (delete_and_retry_run env fuel args ds file
              (result_document_id result) (snd counts) w')
    as (tail & res & Hrun & Hfb).
  exists tail, res. split; [|exact Hfb].
  unfold bind. rewrite Hrun. by destruct res.
Qed.

Lemma errored_first_poll_enters_fallback_witness :
  exists tail res,
    upload_file env_errored 1 sample_args "ds" ∅ "/data/a.md" (0, 0) sample_world
    = (option_map (fun failure_count => (0 + 1, failure_count)) res,
       with_log
         (with_log sample_world
            [EvCreateDocument "ds" "/data/a.md" "high_quality" true sample_created;
             EvWait (VStr "batch-1") 5 300;
             EvTime (2 # 1); EvTime (3 # 1);
             EvIndexingStatus "ds" (VStr "batch-1") true
               (Dict {| status_data := [errored_item] |})])
         tail)
    /\ fallback_run sample_args "ds" "/data/a.md" (VStr "doc-1") 0 tail res.
Proof.
  apply (errored_first_poll_enters_fallback env_errored 1 sample_args "ds" ∅
           "/data/a.md" (0, 0) sample_world _ sample_created [errored_item]).
  - intros [H|H]; by apply not_elem_of_empty in H.
  - reflexivity.
  - reflexivity.
  - vm_compute. reflexivity.
  - reflexivity.
Defined.

(** C1, on the code. The first polling phase of [/data/a.md] ends
    after one status query with an item error. The dispatcher does not
    record the failure and stop there, as the claim says: it takes the
    branch written for a first phase that exceeded the fallback
    timeout, deletes the document, sleeps for the retry wait, submits
    the file again and polls again with the full indexing timeout. No
    fallback timeout has passed: the first phase ended at the second
    clock reading of a budget of 300 seconds. *)
Lemma errored_first_poll_runs_fallback :
  upload_file env_errored 1 sample_args "ds" ∅ "/data/a.md" (0, 0) sample_world
  = (Some (1, 1),
     with_log sample_world
       [EvCreateDocument "ds" "/data/a.md" "high_quality" true sample_created;
        EvWait (VStr "batch-1") 5 300;
        EvTime (2 # 1); EvTime (3 # 1);
        EvIndexingStatus "ds" (VStr "batch-1") true
          (Dict {| status_data := [errored_item] |});
        EvDeleteDocument "ds" (VStr "doc-1") true;
        EvSleep 300;
        EvCreateDocument "ds" "/data/a.md" "high_quality" true sample_created;
        EvWait (VStr "batch-1") 5 600;
        EvTime (9 # 1); EvTime (10 # 1);
        EvIndexingStatus "ds" (VStr "batch-1") true
          (Dict {| status_data := [errored_item] |})]).
Proof. vm_compute. reflexivity. Qed.

(** C2, on the code. A run over the single file [/data/a.md] whose
    upload is accepted and whose indexing does not complete within the
    first polling phase, with no document id to delete: the file is
    counted in the success counter and in the failure counter, and the
    two counters add up to more than the number of files. *)
Theorem file_counted_twice :
  let files := ["/data/a.md"] in
  let r := upload_files env_stuck 2 sample_args "ds" ∅ files (0, 0) sample_world in
  fst r = Some (1, 1)
  /\ 1 + 1 <> Z.of_nat (List.length files)
  /\ w_log (snd r)
     = [EvCreateDocument "ds" "/data/a.md" "high_quality" true
          (Dict {| document := None; batch := VStr "batch-1" |});
        EvWait (VStr "batch-1") 5 300;
        EvTime (400 # 1); EvTime (600 # 1);
        EvIndexingStatus "ds" (VStr "batch-1") true
          (Dict {| status_data := [indexing_item] |});
        EvSleep 5;
        EvTime (1200 # 1)].
Proof. vm_compute. repeat split. discriminate. Qed.

(** Scenario C: the first polling phase times out, the deletion
    succeeds, and the resubmitted file completes: one success, no
    failure. *)
Example stuck_then_recovered :
  upload_file env_recovers 2 sample_args "ds" ∅ "/data/a.md" (0, 0) sample_world
  = (Some (1, 0),
     with_log sample_world
       [EvCreateDocument "ds" "/data/a.md" "high_quality" true sample_created;
        EvWait (VStr "batch-1") 5 300;
        EvTime (400 # 1); EvTime (600 # 1);
        EvIndexingStatus "ds" (VStr "batch-1") true
          (Dict {| status_data := [indexing_item] |});
        EvSleep 5;
        EvTime (1200 # 1);
        EvDeleteDocument "ds" (VStr "doc-1") true;
        EvSleep 300;
        EvCreateDocument "ds" "/data/a.md" "high_quality" true sample_created;
        EvWait (VStr "batch-1") 5 600;
        EvTime (2200 # 1); EvTime (2400 # 1);
        EvIndexingStatus "ds" (VStr "batch-1") true
          (Dict {| status_data := [completed_item] |})]).
Proof. vm_compute. reflexivity. Qed.

(* ================================================================== *)
(** * The orchestrator *)

(** An iteration of the upload loop leaves the failure counter as it
    is or adds one to it. *)
Lemma upload_file_failure_step (env : environment) (fuel : nat)
  (args : arguments) (ds : string) (existing_names : gset string)
  (file : string) (counts counts' : Z * Z) (w : world) :
  fst (upload_file env fuel args ds existing_names file counts w) = Some counts' ->
  snd counts' = snd counts \/ snd counts' = snd counts + 1.
Proof.
  destruct (upload_file_run env fuel args ds existing_names file counts w)
    as (evs & res & Hrun & Hfile).
  rewrite Hrun. cbn [fst]. intros ->.
  inversion Hfile as [Hl|? Hok|? ? Hb|t evs' res ? ? ? Hp Hres
                      |t evs' tail res ? ? ? Hp Hfb Hevs Hcounts]; subst;
    cbn [snd]; try tauto.
  - destruct Hres as [?|[[= ->] _]]; [done|]. by left.
  - destruct res as [f|]; [|done]. injection Hcounts as <-. cbn [snd].
    destruct (fallback_run_bounds _ _ _ _ _ _ _ Hfb) as (_ & _ & _ & _ & _ & Hout).
    destruct (Hout f eq_refl) as [->|(-> & _)]; tauto.
Qed.

(** The failure counter at the end of the loop is the counter at its
    start plus the number of files that ended in failure. *)
Lemma upload_files_failures (env : environment) (fuel : nat) (args : arguments)
  (ds : string) (existing_names : gset string) (files : list string) :
  forall (counts counts' : Z * Z) (w : world),
  fst (upload_files env fuel args ds existing_names files counts w) = Some counts' ->
  snd counts'
  = snd counts
    + Z.of_nat (List.length
                  (failed_files env fuel args ds existing_names files counts w)).
Proof.
  induction files as [|file files IH]; intros counts counts' w; simpl.
  - intros [= <-]. lia.
  - unfold bind.
    pose proof (upload_file_failure_step env fuel args ds existing_names file
                  counts) as Hstep.
    destruct (upload_file env fuel args ds existing_names file counts w)
      as [[c1|] w1] eqn:Hfile; cbn [fst snd]; [|done].
    intros Hrest. rewrite (IH _ _ _ Hrest), List.length_app.
    specialize (Hstep c1 w). rewrite Hfile in Hstep.
    destruct (Hstep eq_refl) as [Hs|Hs]; rewrite Hs.
    + rewrite Z.ltb_irrefl. simpl List.length. lia.
    + replace (snd counts <? snd counts + 1) with true
        by (symmetry; apply Z.ltb_lt; lia).
      simpl List.length. lia.
Qed.

(** [main] with a complete configuration is its prelude followed by
    the upload loop and the computation of the exit code. *)
Lemma main_prelude_spec (env : environment) (fuel : nat) (args : arguments)
  (w : world) :
  config_missing args = false ->
  main env fuel args w
  = bind (main_prelude env fuel args)
      (fun entry =>
         match entry with
         | None => ret 0
         | Some (existing_names, files) =>
             bind (upload_files env fuel args (opt_str (arg_dataset_id args))
                     existing_names files (0, 0))
                  (fun counts => ret (if snd counts =? 0 then 0 else 1))
         end) w.
Proof.
  unfold config_missing. intros H.
  apply orb_false_iff in H as [H Hbase]. apply orb_false_iff in H as [Hds Hkey].
  unfold main, main_prelude. rewrite Hds, Hkey, Hbase. cbv zeta.
  rewrite bind_assoc, !bind_get_fs.
  assert (Henter : forall w1 : world,
    upload_directory env fuel args (opt_str (arg_dataset_id args))
      (abspath (w_fs w) (arg_dir args)) w1
    = bind (bind get_fs (fun fs' =>
        match find_markdown_files fs' (abspath (w_fs w) (arg_dir args)) with
        | [] => ret None
        | file :: files =>
            bind (fetch_existing_document_names env fuel
                    (opt_str (arg_dataset_id args)) 100)
              (fun existing_names => ret (Some (existing_names, file :: files)))
        end))
      (fun entry =>
         match entry with
         | None => ret 0
         | Some (existing_names, files) =>
             bind (upload_files env fuel args (opt_str (arg_dataset_id args))
                     existing_names files (0, 0))
                  (fun counts => ret (if snd counts =? 0 then 0 else 1))
         end) w1).
  { intros w1. unfold upload_directory. rewrite bind_assoc, !bind_get_fs.
    destruct (find_markdown_files (w_fs w1) (abspath (w_fs w) (arg_dir args)))
      as [|file files]; [reflexivity|].
    rewrite bind_assoc. apply bind_ext. reflexivity. }
  destruct (arg_copy_missing_from_output args || arg_copy_missing_only args).
  - rewrite bind_assoc. apply bind_ext. intros _ w1.
    destruct (arg_copy_missing_only args); [reflexivity|]. apply Henter.
  - apply Henter.
Qed.

(** C9. When the dataset id, the API key or the API base is missing,
    [main] returns the exit code 2 and leaves the world as it was: no
    event, hence no network call, happens. With a complete
    configuration [main] returns an exit code exactly when its prelude
    and its upload loop return within the loop budget, and then: the
    code is 0 when [main] exits before its upload loop (a copy-only
    run, or no markdown file: nothing to do); otherwise the code is 0
    when no file of the loop ended in failure and 1 when at least one
    did. *)
Theorem main_exit_code (env : environment) (fuel : nat) (args : arguments)
  (w : world) :
  if config_missing args then main env fuel args w = (Some 2, w)
  else
    fst (main env fuel args w)
    = match main_prelude env fuel args w with
      | (Some (Some (existing_names, files)), w1) =>
          match fst (upload_files env fuel args (opt_str (arg_dataset_id args))
                       existing_names files (0, 0) w1) with
          | Some _ =>
              match failed_files env fuel args (opt_str (arg_dataset_id args))
                      existing_names files (0, 0) w1 with
              | [] => Some 0
              | _ :: _ => Some 1
              end
          | None => None
          end
      | (Some None, _) => Some 0
      | (None, _) => None
      end.
Proof.
  destruct (config_missing args) eqn:Hcfg.
  - unfold config_missing in Hcfg. unfold main.
    destruct (truthy_opt (arg_dataset_id args)); [|reflexivity].
    destruct (truthy_opt (arg_api_key args)); [|reflexivity].
    destruct (truthy_opt (arg_api_base args)); [|reflexivity].
    discriminate.
  - rewrite main_prelude_spec by exact Hcfg. unfold bind at 1.
    destruct (main_prelude env fuel args w) as [[[[existing_names files]|]|] w1];
      [|reflexivity|reflexivity].
    unfold bind.
    pose proof (upload_files_failures env fuel args
                  (opt_str (arg_dataset_id args)) existing_names files
                  (0, 0)) as Hfail.
    destruct (upload_files env fuel args (opt_str (arg_dataset_id args))
                existing_names files (0, 0) w1) as [[counts|] w2] eqn:Hloop;
      [|reflexivity].
    specialize (Hfail counts w1). rewrite Hloop in Hfail.
    specialize (Hfail eq_refl). cbn [fst snd] in *.
    destruct (failed_files env fuel args (opt_str (arg_dataset_id args))
                existing_names files (0, 0) w1) as [|file failed].
    + simpl in Hfail. by rewrite Hfail.
    + destruct (snd counts =? 0) eqn:E; [|done].
      apply Z.eqb_eq in E. simpl List.length in Hfail. lia.
Qed.

(** Scenario E: the dataset id is omitted; exit code 2 and an empty
    log. *)
Lemma main_missing_dataset_id (env : environment) (fuel : nat) :
  main env fuel
    {| arg_dataset_id := None;
       arg_api_key := arg_api_key sample_args;
       arg_api_base := arg_api_base sample_args;
       arg_dir := arg_dir sample_args;
       arg_output_dir := arg_output_dir sample_args;
       arg_copy_missing_from_output := false;
       arg_copy_missing_only := false;
       arg_timeout := 120;
       arg_indexing_timeout := 600;
       arg_poll_interval := 5;
       arg_fallback_timeout_seconds := 300;
       arg_fallback_retry_wait_seconds := 300 |}
    sample_world
  = (Some 2, sample_world).
Proof. reflexivity. Qed.

(** A run over [/data] in [env_errored]: the single file ends in
    failure and the exit code is 1. *)
Lemma main_exit_code_witness :
  fst (main env_errored 1 sample_args sample_world) = Some 1
  /\ failed_files env_errored 1 sample_args "ds" ∅ ["/data/a.md"] (0, 0)
       (with_log sample_world
          [EvListDocuments "ds" 1 100 true
             (Dict {| docs_data := []; has_more := VBool false |})])
     = ["/data/a.md"].
Proof.
  pose proof (main_exit_code env_errored 1 sample_args sample_world) as H.
  vm_compute in H. split; [exact H|].
  vm_compute. reflexivity.
Defined.

(* ================================================================== *)
(** * Further properties: strings and paths *)

Lemma length_app_str (a b : string) :
  String.length (a +:+ b) = (String.length a + String.length b)%nat.
Proof.
  induction a as [|x a IH]; [reflexivity|].
  rewrite app_cons. simpl. by rewrite IH.
Qed.

Lemma substring_split (s : string) :
  forall n : nat, (n <= String.length s)%nat ->
  substring 0 n s +:+ substring n (String.length s - n) s = s.
Proof.
  induction s as [|c s IH]; intros n Hn.
  - simpl in Hn. by replace n with 0%nat by lia.
  - destruct n as [|n].
    + simpl substring at 1. rewrite app_nil_l.
      change (String.length (String c s) - 0)%nat with (S (String.length s)).
      simpl. f_equal. clear. induction s as [|d s IH]; [done|]. simpl. by f_equal.
    + simpl. rewrite app_cons. f_equal. apply IH. simpl in Hn. lia.
Qed.

(** [rfind] returns [-1] or an index inside the string. *)
Lemma rfind_from_range (s : string) (c : ascii) :
  forall i last : Z,
  rfind_from s c i last = last
  \/ (i <= rfind_from s c i last < i + Z.of_nat (String.length s)).
Proof.
  induction s as [|a s IH]; intros i last; [by left|].
  simpl rfind_from. simpl String.length.
  destruct (IH (i + 1) (if Ascii.eqb a c then i else last)) as [H|H].
  - rewrite H. destruct (Ascii.eqb a c); [right; lia|by left].
  - right. lia.
Qed.

Lemma rfind_range (s : string) (c : ascii) :
  rfind s c = -1 \/ (0 <= rfind s c < Z.of_nat (String.length s)).
Proof. unfold rfind. destruct (rfind_from_range s c 0 (-1)); [by left|right; lia]. Qed.

(** [os.path.splitext] splits without losing anything: root and
    extension, put together again, give the path. *)
Theorem splitext_join (p : string) :
  fst (splitext p) +:+ snd (splitext p) = p.
Proof.
  unfold splitext.
  destruct (rfind p sep <? rfind p extsep) eqn:E; cbn [fst snd].
  2:{ clear. induction p as [|c p IH]; [done|]. rewrite app_cons. by f_equal. }
  destruct (all_char _ extsep); cbn [fst snd].
  { clear. induction p as [|c p IH]; [done|]. rewrite app_cons. by f_equal. }
  apply substring_split.
  destruct (rfind_range p extsep) as [H|H]; lia.
Qed.

Lemma lower_char_idem (a : ascii) : lower_char (lower_char a) = lower_char a.
Proof. by destruct a as [[] [] [] [] [] [] [] []]. Qed.

Lemma lower_idem (s : string) : lower (lower s) = lower s.
Proof.
  induction s as [|a s IH]; [done|]. simpl. by rewrite lower_char_idem, IH.
Qed.

Lemma lower_char_eqb_sep (a : ascii) :
  Ascii.eqb (lower_char a) sep = Ascii.eqb a sep.
Proof. by destruct a as [[] [] [] [] [] [] [] []]. Qed.

Lemma lower_char_eqb_extsep (a : ascii) :
  Ascii.eqb (lower_char a) extsep = Ascii.eqb a extsep.
Proof. by destruct a as [[] [] [] [] [] [] [] []]. Qed.

Lemma rfind_from_lower (s : string) (c : ascii) :
  (forall a, Ascii.eqb (lower_char a) c = Ascii.eqb a c) ->
  forall i last, rfind_from (lower s) c i last = rfind_from s c i last.
Proof.
  intros Hc. induction s as [|a s IH]; intros i last; [done|].
  simpl. by rewrite Hc, IH.
Qed.

Lemma substring_lower (s : string) :
  forall n m, substring n m (lower s) = lower (substring n m s).
Proof.
  induction s as [|a s IH]; intros n m.
  - by destruct n, m.
  - destruct n as [|n]; simpl.
    + destruct m as [|m]; [done|]. simpl. by rewrite IH.
    + apply IH.
Qed.

Lemma all_char_lower (s : string) :
  all_char (lower s) extsep = all_char s extsep.
Proof.
  induction s as [|a s IH]; [done|]. simpl.
  by rewrite lower_char_eqb_extsep, IH.
Qed.

Lemma length_lower (s : string) : String.length (lower s) = String.length s.
Proof. induction s as [|a s IH]; [done|]. simpl. by rewrite IH. Qed.

(** Lower-casing and splitting off the extension commute. *)
Lemma splitext_lower (p : string) :
  splitext (lower p) = (lower (fst (splitext p)), lower (snd (splitext p))).
Proof.
  unfold splitext, rfind.
  rewrite (rfind_from_lower p sep lower_char_eqb_sep).
  rewrite (rfind_from_lower p extsep lower_char_eqb_extsep).
  destruct (_ <? _); [|done].
  rewrite !substring_lower, all_char_lower, length_lower.
  by destruct (all_char _ extsep).
Qed.

(** The dedup test looks at an ASCII file name case-insensitively:
    two paths whose file names consist of ASCII characters, on which
    [lower] is [str.lower], and differ only in the case of their
    letters are both listed or both not listed, for every set of
    existing names. *)
Theorem already_listed_case_insensitive (existing_names : gset string)
  (file1 file2 : string) :
  is_ascii (basename file1) = true ->
  is_ascii (basename file2) = true ->
  lower (basename file1) = lower (basename file2) ->
  already_listed existing_names file1 <-> already_listed existing_names file2.
Proof.
  intros _ _ H. unfold already_listed.
  assert (Hroot : lower (fst (splitext (basename file1)))
                  = lower (fst (splitext (basename file2)))).
  { pose proof (splitext_lower (basename file1)) as H1.
    pose proof (splitext_lower (basename file2)) as H2.
    rewrite H in H1. rewrite H1 in H2. by injection H2. }
  by rewrite H, Hroot.
Qed.

Lemma already_listed_case_insensitive_witness :
  already_listed ({["notes.md"]} ∪ {["notes"]}) "/data/NOTES.md"
  <-> already_listed ({["notes.md"]} ∪ {["notes"]}) "/data/notes.MD".
Proof.
  apply (already_listed_case_insensitive ({["notes.md"]} ∪ {["notes"]})
           "/data/NOTES.md" "/data/notes.MD"); reflexivity.
Defined.

Lemma basename_no_sep_id (n : string) :
  contains_char n sep = false -> basename n = n.
Proof.
  destruct n as [|c n]; [done|]. simpl.
  intros [Hc Hn]%orb_false_iff. by rewrite Hn, Hc.
Qed.

Lemma basename_behind_sep (a n : string) :
  contains_char n sep = false -> basename (a +:+ String sep n) = n.
Proof.
  intros Hn. induction a as [|x a IH].
  - rewrite app_nil_l. simpl. by rewrite Hn.
  - rewrite app_cons. simpl basename. by rewrite contains_char_app_r.
Qed.

(** The file name of a joined path is the name that was joined. *)
Lemma basename_path_join (d n : string) :
  contains_char n sep = false -> basename (path_join d n) = n.
Proof.
  intros Hn. destruct (path_join_shape d n) as [->|[a ->]].
  - by apply basename_no_sep_id.
  - by apply basename_behind_sep.
Qed.

(** [os.path.basename] returns a name without separator, and the
    path ends with it. *)
Theorem basename_spec (p : string) :
  contains_char (basename p) sep = false
  /\ exists a, p = a +:+ basename p.
Proof.
  induction p as [|c p [IH1 [a IH2]]].
  - split; [done|]. by exists "".
  - simpl basename. destruct (contains_char p sep) eqn:Hp.
    + split; [done|]. exists (String c a). rewrite app_cons. by f_equal.
    + destruct (Ascii.eqb c sep) eqn:Hc.
      * split; [done|]. by exists (String c "").
      * split; [simpl; by rewrite Hc, Hp|]. by exists "".
Qed.

(** What File Discovery returns fits what the dispatcher does with
    it: when no entry of the directory has a separator in its name,
    every returned path is a regular file whose file name (the
    [basename] the dispatcher takes) is an entry of the directory and
    ends case-insensitively in a markdown suffix. *)
Theorem find_markdown_files_basename (fs : filesystem) (d p : string) :
  (forall n, In n (listdir fs d) -> contains_char n sep = false) ->
  In p (find_markdown_files fs d) ->
  In (basename p) (listdir fs d)
  /\ is_markdown_name (basename p) = true
  /\ isfile fs p = true
  /\ p = path_join d (basename p).
Proof.
  intros Hnames Hin. unfold find_markdown_files in Hin.
  destruct (isdir fs d); simpl in Hin; [|done].
  apply list_elem_of_In in Hin. rewrite merge_sort_Permutation in Hin.
  apply list_elem_of_In in Hin.
  apply List.filter_In in Hin as [Hin Hmd].
  apply List.in_map_iff in Hin as (n & <- & Hin).
  apply List.filter_In in Hin as [Hin Hfile].
  rewrite (basename_path_join d n) by by apply Hnames.
  repeat split; try done.
  pose proof (markdown_path_name d n) as H.
  unfold endswith_any, markdown_suffixes in H, Hmd. cbn [existsb] in H, Hmd.
  rewrite H in Hmd. unfold is_markdown_name. by rewrite orb_false_r in Hmd.
Qed.

Lemma find_markdown_files_basename_witness :
  In (basename "/data/a.md") (listdir sample_fs "/data")
  /\ is_markdown_name (basename "/data/a.md") = true
  /\ isfile sample_fs "/data/a.md" = true
  /\ "/data/a.md" = path_join "/data" (basename "/data/a.md").
Proof.
  apply (find_markdown_files_basename sample_fs "/data" "/data/a.md").
  - intros n [<-|[]]. reflexivity.
  - left. reflexivity.
Defined.

(* ================================================================== *)
(** * Further properties: Document Inventory Resolver *)

Lemma add_item_names_lower (normalized : gset string) (item : pydict) :
  (forall x, x ∈ normalized -> lower x = x) ->
  forall x, x ∈ add_item_names normalized item -> lower x = x.
Proof.
  intros Hn x Hx. apply add_item_names_spec in Hx as [Hx|[_ [->| ->]]].
  - by apply Hn.
  - apply lower_idem.
  - pose proof (splitext_lower (lower (py_str (dict_get item "name")))) as H.
    rewrite lower_idem in H.
    by destruct (splitext (lower (py_str (dict_get item "name")))); injection H.
Qed.

Lemma fold_add_item_names_lower (items : list pydict) :
  forall normalized : gset string,
  (forall x, x ∈ normalized -> lower x = x) ->
  forall x, x ∈ fold_left add_item_names items normalized -> lower x = x.
Proof.
  induction items as [|item items IH]; intros normalized Hn; [done|].
  simpl. apply IH. by apply add_item_names_lower.
Qed.

Lemma fetch_pages_lower (env : environment) (ds : string) (limit : Z)
  (fuel : nat) :
  forall (page : Z) (normalized names : gset string) (w : world),
  (forall x, x ∈ normalized -> lower x = x) ->
  fst (fetch_pages env fuel ds limit page normalized w) = Some names ->
  forall x, x ∈ names -> lower x = x.
Proof.
  induction fuel as [|fuel IH]; intros page normalized names w Hn; [done|].
  simpl fetch_pages. erewrite bind_some by apply list_documents_run.
  destruct (env_list_documents env (w_log w) ds page limit) as [[|] [|body]];
    cbn [fst snd]; try (by intros [= <-]).
  destruct (negb (truthy (has_more body))).
  - intros [= <-]. by apply fold_add_item_names_lower.
  - apply IH. by apply fold_add_item_names_lower.
Qed.

(** The set of existing names holds lower-case strings only, which is
    what the dispatcher, who looks up lower-cased names, relies on. *)
Theorem existing_names_are_lower_case (env : environment) (fuel : nat)
  (ds : string) (limit : Z) (w : world) (names : gset string) :
  fst (fetch_existing_document_names env fuel ds limit w) = Some names ->
  forall x, x ∈ names -> lower x = x.
Proof.
  apply fetch_pages_lower. intros x Hx. by apply not_elem_of_empty in Hx.
Qed.

Lemma existing_names_are_lower_case_witness :
  lower "notes.md" = "notes.md".
Proof.
  apply (existing_names_are_lower_case env_notes 2 "ds" 100 sample_world
           (default ∅ (fst (fetch_existing_document_names env_notes 2 "ds" 100
                              sample_world)))).
  - vm_compute. reflexivity.
  - apply (bool_decide_unpack
             ("notes.md"
              ∈ default ∅ (fst (fetch_existing_document_names env_notes 2 "ds"
                                  100 sample_world)))).
    vm_compute. exact I.
Defined.

(** The events of the paging loop: requests for consecutive pages of
    the same dataset with the same page size, at most one per unit of
    loop budget; the file system is not touched. *)
Lemma fetch_pages_requests (env : environment) (ds : string) (limit : Z)
  (fuel : nat) :
  forall (page : Z) (normalized : gset string) (w : world),
  exists evs,
    snd (fetch_pages env fuel ds limit page normalized w) = with_log w evs
    /\ List.map requested_page evs = pages_from page (List.length evs)
    /\ forallb (is_listing_of ds limit) evs = true
    /\ (List.length evs <= fuel)%nat.
Proof.
  induction fuel as [|fuel IH]; intros page normalized w.
  - exists []. rewrite with_log_nil. by repeat split.
  - simpl fetch_pages. erewrite bind_some by apply list_documents_run.
    set (r := env_list_documents env (w_log w) ds page limit).
    assert (Hone : forall (m : M (gset string)) (x : gset string),
      m = ret x ->
      exists evs,
        snd (m (with_log w [EvListDocuments ds page limit (fst r) (snd r)]))
        = with_log w evs
        /\ List.map requested_page evs = pages_from page (List.length evs)
        /\ forallb (is_listing_of ds limit) evs = true
        /\ (List.length evs <= S fuel)%nat).
    { intros m x ->. exists [EvListDocuments ds page limit (fst r) (snd r)].
      repeat split; simpl; [|lia].
      by rewrite String.eqb_refl, Z.eqb_refl. }
    destruct r as [[|] [|body]] eqn:Er; cbn [fst snd] in *;
      try (by eapply Hone).
    destruct (negb (truthy (has_more body))); [by eapply Hone|].
    destruct (IH (page + 1)
                (fold_left add_item_names (docs_data body) normalized)
                (with_log w [EvListDocuments ds page limit true (Dict body)]))
      as (evs & Hw & Hp & Hl & Hlen).
    exists (EvListDocuments ds page limit true (Dict body) :: evs).
    rewrite Hw, with_log_app. repeat split; simpl.
    + by rewrite Hp.
    + by rewrite String.eqb_refl, Z.eqb_refl, Hl.
    + lia.
Qed.

(** For every environment and every loop budget, the resolver does
    nothing but ask for the pages 1, 2, 3, ... of the given dataset,
    each once and in this order, with the given page size; it makes
    at most as many requests as its loop budget. *)
Theorem fetch_requests_consecutive_pages (env : environment) (fuel : nat)
  (ds : string) (limit : Z) (w : world) :
  exists evs,
    snd (fetch_existing_document_names env fuel ds limit w) = with_log w evs
    /\ List.map requested_page evs = pages_from 1 (List.length evs)
    /\ forallb (is_listing_of ds limit) evs = true
    /\ (List.length evs <= fuel)%nat.
Proof. apply fetch_pages_requests. Qed.

(** The names of every document of a successful listing answer of the
    run are in the set the paging loop returns. *)
Lemma fetch_pages_collects (env : environment) (ds : string) (limit : Z)
  (fuel : nat) :
  forall (page : Z) (normalized names : gset string) (w : world),
  fst (fetch_pages env fuel ds limit page normalized w) = Some names ->
  exists evs,
    snd (fetch_pages env fuel ds limit page normalized w) = with_log w evs
    /\ (forall x, x ∈ normalized -> x ∈ names)
    /\ forall ds' p l body item,
         In (EvListDocuments ds' p l true (Dict body)) evs ->
         In item (docs_data body) ->
         truthy (dict_get item "name") = true ->
         lower (py_str (dict_get item "name")) ∈ names
         /\ fst (splitext (lower (py_str (dict_get item "name")))) ∈ names.
Proof.
  induction fuel as [|fuel IH]; intros page normalized names w; [done|].
  simpl fetch_pages. erewrite bind_some by apply list_documents_run.
  set (r := env_list_documents env (w_log w) ds page limit).
  assert (Hstop : fst r = false \/ snd r = NotADict ->
    Some normalized = Some names ->
    exists evs,
      with_log w [EvListDocuments ds page limit (fst r) (snd r)] = with_log w evs
      /\ (forall x, x ∈ normalized -> x ∈ names)
      /\ forall ds' p l body item,
           In (EvListDocuments ds' p l true (Dict body)) evs ->
           In item (docs_data body) ->
           truthy (dict_get item "name") = true ->
           lower (py_str (dict_get item "name")) ∈ names
           /\ fst (splitext (lower (py_str (dict_get item "name")))) ∈ names).
  { intros Hr [= <-]. eexists. split; [reflexivity|]. split; [done|].
    intros ds' p l body item [[= _ _ _ Hok Hbody]|[]].
    destruct Hr as [Hr|Hr]; congruence. }
  destruct r as [[|] [|body]] eqn:Er; cbn [fst snd] in *;
    try (apply Hstop; by auto).
  assert (Hitems : forall names' : gset string,
    (forall x, x ∈ fold_left add_item_names (docs_data body) normalized ->
               x ∈ names') ->
    forall item, In item (docs_data body) ->
    truthy (dict_get item "name") = true ->
    lower (py_str (dict_get item "name")) ∈ names'
    /\ fst (splitext (lower (py_str (dict_get item "name")))) ∈ names').
  { intros names' Hsub item Hin Ht.
    split; apply Hsub, fold_add_item_names_spec; right; exists item; auto. }
  destruct (negb (truthy (has_more body))).
  - intros [= <-]. eexists. split; [reflexivity|]. split.
    + intros x Hx. apply fold_add_item_names_spec. by left.
    + intros ds' p l body' item [[= _ _ _ <-]|[]]. by apply Hitems.
  - intros Hrun.
    destruct (IH _ _ _ _ Hrun) as (evs & Hw & Hsub & Hcoll).
    exists (EvListDocuments ds page limit true (Dict body) :: evs).
    rewrite Hw, with_log_app. split; [done|]. split.
    + intros x Hx. apply Hsub, fold_add_item_names_spec. by left.
    + intros ds' p l body' item [[= _ _ _ <-]|Hin]; [by apply Hitems|].
      by eapply Hcoll.
Qed.

(** Dedup round trip, for names of ASCII characters (on which [lower]
    is [str.lower]): a local file is skipped when a listing answer of
    the resolver's run names a document with the same name, or with
    the same name up to the extension, letter case aside. *)
Theorem listed_document_is_skipped (env env' : environment) (fuel fuel' : nat)
  (args : arguments) (ds ds' : string) (limit page : Z) (w w' w2 : world)
  (names : gset string) (body : list_body) (item : pydict) (file : string)
  (counts : Z * Z) :
  fetch_existing_document_names env fuel ds limit w = (Some names, w') ->
  In (EvListDocuments ds page limit true (Dict body))
     (skipn (List.length (w_log w)) (w_log w')) ->
  In item (docs_data body) ->
  truthy (dict_get item "name") = true ->
  is_ascii (py_str (dict_get item "name")) = true ->
  is_ascii (basename file) = true ->
  lower (basename file) = lower (py_str (dict_get item "name"))
  \/ lower (fst (splitext (basename file)))
     = lower (fst (splitext (py_str (dict_get item "name")))) ->
  upload_file env' fuel' args ds' names file counts w2
  = (Some (fst counts + 1, snd counts), w2).
Proof.
  intros Hrun Hev Hitem Hname _ _ Hsame.
  unfold fetch_existing_document_names in Hrun.
  destruct (fetch_pages_collects env ds limit fuel 1 ∅ names w) as
    (evs & Hw & _ & Hcoll); [by rewrite Hrun|].
  rewrite Hrun in Hw. cbn [snd] in Hw. subst w'.
  rewrite w_log_with_log, skipn_app, Nat.sub_diag, skipn_all in Hev.
  simpl in Hev.
  destruct (Hcoll _ _ _ _ _ Hev Hitem Hname) as [Hfull Hroot].
  assert (Hlisted : already_listed names file).
  { destruct Hsame as [H|H]; [left; by rewrite H|right].
    rewrite H.
    pose proof (splitext_lower (py_str (dict_get item "name"))) as Hs.
    destruct (splitext (lower (py_str (dict_get item "name")))).
    injection Hs as -> _. exact Hroot. }
  apply already_listed_test in Hlisted.
  unfold upload_file. cbv zeta. by rewrite Hlisted.
Qed.

Lemma listed_document_is_skipped_witness :
  upload_file env_errored 1 sample_args "ds"
    (default ∅ (fst (fetch_existing_document_names env_notes 2 "ds" 100
                       sample_world)))
    "/data/NOTES.markdown" (0, 0) sample_world
  = (Some (0 + 1, 0), sample_world).
Proof.
  apply (listed_document_is_skipped env_notes env_errored 2 1 sample_args
           "ds" "ds" 100 1 sample_world
           (snd (fetch_existing_document_names env_notes 2 "ds" 100 sample_world))
           sample_world _ notes_page
           [("id", VStr "d-7"); ("name", VStr "Notes.md")]
           "/data/NOTES.markdown" (0, 0)).
  - vm_compute. reflexivity.
  - vm_compute. left. reflexivity.
  - left. reflexivity.
  - reflexivity.
  - reflexivity.
  - reflexivity.
  - right. reflexivity.
Defined.

(* ================================================================== *)
(** * Further properties: Indexing Status Poller *)

(** Every run of the polling loop is one of [poll_run]. *)
Lemma wait_loop_run (env : environment) (ds : string) (b : pyval)
  (poll : Z) (deadline : Q) (fuel : nat) :
  forall (items : option (list pydict)) (w : world),
  exists evs,
    snd (wait_loop env fuel ds b poll deadline items w) = with_log w evs
    /\ poll_run ds b poll deadline items evs
         (fst (wait_loop env fuel ds b poll deadline items w)).
Proof.
  induction fuel as [|fuel IH]; intros items w; rewrite wait_loop_unfold;
    cbv zeta; destruct (Qltb (env_time env (w_log w)) deadline) eqn:Hnow;
    try (eexists; split; [reflexivity|]; by constructor).
  set (w1 := with_log w [EvTime (env_time env (w_log w))]).
  set (r := env_get_indexing_status env (w_log w1) ds b).
  destruct r as [ok body] eqn:Er. cbn [fst snd].
  set (w3 := with_log (with_log w1 [EvIndexingStatus ds b ok body]) [EvSleep poll]).
  assert (Hw3 : w3 = with_log w [EvTime (env_time env (w_log w));
                                 EvIndexingStatus ds b ok body; EvSleep poll]).
  { subst w3 w1. by rewrite !with_log_app. }
  clearbody w3. subst w3.
  set (w3 := with_log w [EvTime (env_time env (w_log w));
                         EvIndexingStatus ds b ok body; EvSleep poll]).
  destruct ok; [destruct body as [|body]|].
  - destruct (IH items w3) as (evs & Hw & Hrun).
    eexists. rewrite Hw. subst w3. rewrite with_log_app. split; [reflexivity|].
    apply PollTransient; auto.
  - destruct (status_data body) as [|item items'] eqn:E.
    + destruct (IH (Some []) w3) as (evs & Hw & Hrun).
      eexists. rewrite Hw. subst w3. rewrite with_log_app. split; [reflexivity|].
      apply PollWaiting; [done|by left|by rewrite E].
    + destruct (existsb has_error (item :: items')) eqn:Eerr.
      { eexists. subst w1. rewrite with_log_app. split; [reflexivity|].
        cbn [fst]. rewrite <- E in *. apply PollErrored; try done.
        by rewrite E. }
      destruct (forallb item_completed (item :: items')) eqn:Eall.
      { eexists. subst w1. rewrite with_log_app. split; [reflexivity|].
        cbn [fst]. rewrite <- E in *. apply PollCompleted; try done.
        by rewrite E. }
      destruct (IH (Some (item :: items')) w3) as (evs & Hw & Hrun).
      eexists. rewrite Hw. subst w3. rewrite with_log_app. split; [reflexivity|].
      rewrite <- E in *. apply PollWaiting; [done|by right|done].
  - destruct (IH items w3) as (evs & Hw & Hrun).
    eexists. rewrite Hw. subst w3. rewrite with_log_app. split; [reflexivity|].
    apply PollTransient; auto.
Qed.

(** The poller's run: its entry, the reading of the start time, and a
    run of the loop with the deadline [start + timeout]. *)
Lemma wait_for_batch_completion_run (env : environment) (fuel : nat)
  (ds : string) (b : pyval) (poll timeout : Z) (w : world) :
  exists t0 evs,
    snd (wait_for_batch_completion env fuel ds b poll timeout w)
    = with_log w (EvWait b poll timeout :: EvTime t0 :: evs)
    /\ poll_run ds b poll (t0 + inject_Z timeout)%Q None evs
         (fst (wait_for_batch_completion env fuel ds b poll timeout w)).
Proof.
  rewrite wait_for_batch_completion_unfold. cbv zeta.
  set (w1 := with_log w [EvWait b poll timeout]).
  set (t0 := env_time env (w_log w1)).
  destruct (wait_loop_run env ds b poll (t0 + inject_Z timeout)%Q fuel None
              (with_log w1 [EvTime t0])) as (evs & Hw & Hrun).
  exists t0, evs. split; [|done].
  rewrite Hw. subst w1. by rewrite !with_log_app.
Qed.

Lemma poll_run_guarded (ds : string) (b : pyval) (poll : Z) (deadline : Q)
  (items : option (list pydict)) (evs : list event)
  (res : option (bool * option (list pydict))) :
  poll_run ds b poll deadline items evs res ->
  forall pre e post,
  evs = pre ++ e :: post -> is_status_query e = true ->
  exists pre' t ok body,
    pre = pre' ++ [EvTime t] /\ Qltb t deadline = true
    /\ e = EvIndexingStatus ds b ok body.
Proof.
  assert (Hhead : forall t ok body (tl : list event) pre e post,
    Qltb t deadline = true ->
    EvTime t :: EvIndexingStatus ds b ok body :: tl = pre ++ e :: post ->
    is_status_query e = true ->
    (pre = [EvTime t] /\ e = EvIndexingStatus ds b ok body)
    \/ exists pre2, pre = EvTime t :: EvIndexingStatus ds b ok body :: pre2
                    /\ tl = pre2 ++ e :: post).
  { intros t ok body tl pre e post Ht Heq He.
    destruct pre as [|x pre]; simpl in Heq; injection Heq as <- Heq;
      [done|].
    destruct pre as [|y pre]; simpl in Heq; injection Heq as <- Heq.
    - by left.
    - right. by exists pre. }
  induction 1 as [items t Ht|items t Ht|items t body Ht Hne Herr
                  |items t body Ht Hne Herr Hall
                  |items t body evs res Ht Hw Hrun IH
                  |items t ok body evs res Ht Hok Hrun IH];
    intros pre e post Heq He.
  - destruct pre as [|x pre]; simpl in Heq; injection Heq as <- Heq; [done|].
    by destruct pre.
  - destruct pre as [|x pre]; simpl in Heq; injection Heq as <- Heq; [done|].
    by destruct pre.
  - destruct (Hhead _ _ _ _ _ _ _ Ht Heq He) as [[-> ->]|(pre2 & -> & Htl)].
    + by exists [], t, true, (Dict body).
    + by destruct pre2.
  - destruct (Hhead _ _ _ _ _ _ _ Ht Heq He) as [[-> ->]|(pre2 & -> & Htl)].
    + by exists [], t, true, (Dict body).
    + by destruct pre2.
  - destruct (Hhead _ _ _ _ _ _ _ Ht Heq He) as [[-> ->]|(pre2 & -> & Htl)].
    + by exists [], t, true, (Dict body).
    + destruct pre2 as [|z pre2]; simpl in Htl; injection Htl as <- Htl;
        [done|].
      destruct (IH _ _ _ Htl He) as (pre' & t' & ok' & body' & -> & Ht' & ->).
      by exists (EvTime t :: EvIndexingStatus ds b true (Dict body)
                 :: EvSleep poll :: pre'), t', ok', body'.
  - destruct (Hhead _ _ _ _ _ _ _ Ht Heq He) as [[-> ->]|(pre2 & -> & Htl)].
    + by exists [], t, ok, body.
    + destruct pre2 as [|z pre2]; simpl in Htl; injection Htl as <- Htl;
        [done|].
      destruct (IH _ _ _ Htl He) as (pre' & t' & ok' & body' & -> & Ht' & ->).
      by exists (EvTime t :: EvIndexingStatus ds b ok body
                 :: EvSleep poll :: pre'), t', ok', body'.
Qed.

(** The poller respects its deadline: for every environment and loop
    budget, each status query it issues is for the given dataset and
    batch and comes right after a clock reading that is earlier than
    the start time plus the timeout. *)
Theorem status_queries_before_deadline (env : environment) (fuel : nat)
  (ds : string) (b : pyval) (poll timeout : Z) (w : world) :
  exists t0 evs,
    snd (wait_for_batch_completion env fuel ds b poll timeout w)
    = with_log w (EvWait b poll timeout :: EvTime t0 :: evs)
    /\ forall pre e post,
         evs = pre ++ e :: post -> is_status_query e = true ->
         exists pre' t ok body,
           pre = pre' ++ [EvTime t]
           /\ Qltb t (t0 + inject_Z timeout) = true
           /\ e = EvIndexingStatus ds b ok body.
Proof.
  destruct (wait_for_batch_completion_run env fuel ds b poll timeout w)
    as (t0 & evs & Hw & Hrun).
  exists t0, evs. split; [exact Hw|]. by eapply poll_run_guarded.
Qed.

Lemma poll_run_rhythm (ds : string) (b : pyval) (poll : Z) (deadline : Q)
  (items : option (list pydict)) (evs : list event)
  (res : option (bool * option (list pydict))) :
  poll_run ds b poll deadline items evs res ->
  (forall n, In (EvSleep n) evs -> n = poll)
  /\ count is_time evs = (count is_sleep evs + 1)%nat
  /\ (count is_status_query evs = count is_sleep evs
      \/ count is_status_query evs = (count is_sleep evs + 1)%nat).
Proof.
  induction 1 as [items t Ht|items t Ht|items t body Ht Hne Herr
                  |items t body Ht Hne Herr Hall
                  |items t body evs res Ht Hw Hrun (IH1 & IH2 & IH3)
                  |items t ok body evs res Ht Hok Hrun (IH1 & IH2 & IH3)];
    rewrite ?count_cons, ?count_nil; cbn [is_time is_sleep is_status_query].
  - split; [by intros n [?|[]]|]. split; [done|by left].
  - split; [by intros n [?|[]]|]. split; [done|by left].
  - split; [by intros n [?|[?|[]]]|]. split; [done|by right].
  - split; [by intros n [?|[?|[]]]|]. split; [done|by right].
  - split; [|split; lia].
    intros n [?|[?|[[= <-]|Hin]]]; try done. by apply IH1.
  - split; [|split; lia].
    intros n [?|[?|[[= <-]|Hin]]]; try done. by apply IH1.
Qed.

(** The poller polls at a fixed rhythm: every sleep lasts exactly the
    poll interval, a clock reading precedes every status query, and
    every status query but possibly the last is followed by one
    sleep. *)
Theorem poller_fixed_rhythm (env : environment) (fuel : nat)
  (ds : string) (b : pyval) (poll timeout : Z) (w : world) :
  exists t0 evs,
    snd (wait_for_batch_completion env fuel ds b poll timeout w)
    = with_log w (EvWait b poll timeout :: EvTime t0 :: evs)
    /\ (forall n, In (EvSleep n) evs -> n = poll)
    /\ count is_time evs = (count is_sleep evs + 1)%nat
    /\ (count is_status_query evs = count is_sleep evs
        \/ count is_status_query evs = (count is_sleep evs + 1)%nat).
Proof.
  destruct (wait_for_batch_completion_run env fuel ds b poll timeout w)
    as (t0 & evs & Hw & Hrun).
  exists t0, evs. split; [exact Hw|]. by eapply poll_run_rhythm.
Qed.

Lemma last_event_cons (e : event) (evs : list event) :
  evs <> [] -> last_event (e :: evs) = last_event evs.
Proof. unfold last_event. by destruct evs. Qed.

Lemma last_event_app (pre evs : list event) :
  evs <> [] -> last_event (pre ++ evs) = last_event evs.
Proof.
  intros Hne. induction pre as [|e pre IH]; [done|].
  simpl app. rewrite last_event_cons; [done|]. by destruct pre, evs.
Qed.

Lemma poll_run_nonempty (ds : string) (b : pyval) (poll : Z) (deadline : Q)
  (items : option (list pydict)) (evs : list event)
  (res : option (bool * option (list pydict))) :
  poll_run ds b poll deadline items evs res -> evs <> [].
Proof. by destruct 1. Qed.

(** What the result of a run of the loop tells about the run, when the
    item list the loop starts with holds no item with an error. *)
Lemma poll_run_result (ds : string) (b : pyval) (poll : Z) (deadline : Q)
  (items : option (list pydict)) (evs : list event)
  (res : option (bool * option (list pydict))) :
  poll_run ds b poll deadline items evs res ->
  existsb has_error (default [] items) = false ->
  forall completed its,
  res = Some (completed, its) ->
  if completed then
    exists body,
      its = Some (status_data body)
      /\ status_data body <> []
      /\ existsb has_error (status_data body) = false
      /\ forallb item_completed (status_data body) = true
      /\ last_event evs = Some (EvIndexingStatus ds b true (Dict body))
  else
    (exists body,
       its = Some (status_data body)
       /\ existsb has_error (status_data body) = true
       /\ last_event evs = Some (EvIndexingStatus ds b true (Dict body)))
    \/ (existsb has_error (default [] its) = false
        /\ exists t, last_event evs = Some (EvTime t)
                     /\ Qltb t deadline = false).
Proof.
  induction 1 as [items t Ht|items t Ht|items t body Ht Hne Herr
                  |items t body Ht Hne Herr Hall
                  |items t body evs res Ht Hw Hrun IH
                  |items t ok body evs res Ht Hok Hrun IH];
    intros Hitems completed its Hres.
  - injection Hres as <- <-. right. split; [done|]. by exists t.
  - done.
  - injection Hres as <- <-. left. by exists body.
  - injection Hres as <- <-. by exists body.
  - rewrite !last_event_cons
      by (try done; by eapply poll_run_nonempty).
    apply IH; [|done]. simpl. destruct Hw as [->|[? _]]; done.
  - rewrite !last_event_cons
      by (try done; by eapply poll_run_nonempty).
    by apply IH.
Qed.

(** A completed result is backed by the last answer: when the poller
    returns completed, the item list it returns is the non-empty item
    list of the last status answer, no item of which has an error and
    every item of which is completed. *)
Theorem completed_result_is_last_answer (env : environment) (fuel : nat)
  (ds : string) (b : pyval) (poll timeout : Z) (w : world)
  (its : option (list pydict)) :
  fst (wait_for_batch_completion env fuel ds b poll timeout w)
  = Some (true, its) ->
  exists body,
    its = Some (status_data body)
    /\ status_data body <> []
    /\ existsb has_error (status_data body) = false
    /\ forallb item_completed (status_data body) = true
    /\ last_event
         (w_log (snd (wait_for_batch_completion env fuel ds b poll timeout w)))
       = Some (EvIndexingStatus ds b true (Dict body)).
Proof.
  intros Hres.
  destruct (wait_for_batch_completion_run env fuel ds b poll timeout w)
    as (t0 & evs & Hw & Hrun).
  rewrite Hw, w_log_with_log.
  destruct (poll_run_result _ _ _ _ _ _ _ Hrun eq_refl true its Hres)
    as (body & H1 & H2 & H3 & H4 & H5).
  exists body. repeat split; try done.
  pose proof (poll_run_nonempty _ _ _ _ _ _ _ Hrun).
  rewrite last_event_app by done. by rewrite !last_event_cons.
Qed.

Lemma completed_result_is_last_answer_witness :
  exists body,
    Some [completed_item] = Some (status_data body)
    /\ status_data body <> []
    /\ existsb has_error (status_data body) = false
    /\ forallb item_completed (status_data body) = true
    /\ last_event
         (w_log (snd (wait_for_batch_completion env_recovers 1 "ds"
                        (VStr "batch-1") 5 600
                        (with_log sample_world
                           [EvCreateDocument "ds" "a" "high_quality" true sample_created;
                            EvCreateDocument "ds" "a" "high_quality" true sample_created]))))
       = Some (EvIndexingStatus "ds" (VStr "batch-1") true (Dict body)).
Proof.
  apply (completed_result_is_last_answer env_recovers 1 "ds" (VStr "batch-1")
           5 600 _ (Some [completed_item])).
  vm_compute. reflexivity.
Defined.

(** A caller can tell an error from a timeout: when the poller returns
    not completed, either the returned item list holds an item with an
    error and is the item list of the last status answer (the poller
    stopped on the error), or the returned item list holds no item
    with an error and the last event is a clock reading that is not
    earlier than the start time plus the timeout (the poller timed
    out). *)
Theorem not_completed_error_or_timeout (env : environment) (fuel : nat)
  (ds : string) (b : pyval) (poll timeout : Z) (w : world)
  (its : option (list pydict)) :
  fst (wait_for_batch_completion env fuel ds b poll timeout w)
  = Some (false, its) ->
  exists t0 evs,
    snd (wait_for_batch_completion env fuel ds b poll timeout w)
    = with_log w (EvWait b poll timeout :: EvTime t0 :: evs)
    /\ ((exists body,
           its = Some (status_data body)
           /\ existsb has_error (status_data body) = true
           /\ last_event evs = Some (EvIndexingStatus ds b true (Dict body)))
        \/ (existsb has_error (default [] its) = false
            /\ exists t,
                 last_event evs = Some (EvTime t)
                 /\ Qltb t (t0 + inject_Z timeout) = false)).
Proof.
  intros Hres.
  destruct (wait_for_batch_completion_run env fuel ds b poll timeout w)
    as (t0 & evs & Hw & Hrun).
  exists t0, evs. split; [exact Hw|].
  exact (poll_run_result _ _ _ _ _ _ _ Hrun eq_refl false its Hres).
Qed.

Lemma not_completed_error_or_timeout_witness :
  exists t0 evs,
    snd (wait_for_batch_completion env_stuck 2 "ds" (VStr "batch-1") 5 300
           sample_world)
    = with_log sample_world (EvWait (VStr "batch-1") 5 300 :: EvTime t0 :: evs)
    /\ ((exists body,
           Some [indexing_item] = Some (status_data body)
           /\ existsb has_error (status_data body) = true
           /\ last_event evs
              = Some (EvIndexingStatus "ds" (VStr "batch-1") true (Dict body)))
        \/ (existsb has_error (default [] (Some [indexing_item])) = false
            /\ exists t,
                 last_event evs = Some (EvTime t)
                 /\ Qltb t (t0 + inject_Z 300) = false)).
Proof.
  apply (not_completed_error_or_timeout env_stuck 2 "ds" (VStr "batch-1")
           5 300 sample_world (Some [indexing_item])).
  vm_compute. reflexivity.
Defined.

Lemma poll_run_items (ds : string) (b : pyval) (poll : Z) (deadline : Q)
  (items : option (list pydict)) (evs : list event)
  (res : option (bool * option (list pydict))) :
  poll_run ds b poll deadline items evs res ->
  forall completed its,
  res = Some (completed, its) ->
  (existsb is_item_answer evs = false /\ its = items /\ completed = false)
  \/ (existsb is_item_answer evs = true /\ exists l, its = Some l).
Proof.
  induction 1 as [items t Ht|items t Ht|items t body Ht Hne Herr
                  |items t body Ht Hne Herr Hall
                  |items t body evs res Ht Hw Hrun IH
                  |items t ok body evs res Ht Hok Hrun IH];
    intros completed its Hres.
  - injection Hres as <- <-. by left.
  - done.
  - injection Hres as <- <-. right. split; [done|]. by eexists.
  - injection Hres as <- <-. right. split; [done|]. by eexists.
  - right. split; [done|].
    destruct (IH _ _ Hres) as [(_ & -> & _)|(_ & H)]; [by eexists|done].
  - destruct (IH _ _ Hres) as [(Hno & -> & ->)|(Hex & H)].
    + left. split; [|done]. simpl. rewrite Hno.
      by destruct Hok as [->| ->]; [|destruct ok].
    + right. split; [|done]. simpl. rewrite Hex. by rewrite !orb_true_r.
Qed.

(** The poller returns no item list exactly when no status query of
    the run was answered ok with a dict body (every answer was a
    transient failure); the result is then not completed. *)
Theorem no_item_list_iff_no_answer (env : environment) (fuel : nat)
  (ds : string) (b : pyval) (poll timeout : Z) (w : world)
  (completed : bool) (its : option (list pydict)) :
  fst (wait_for_batch_completion env fuel ds b poll timeout w)
  = Some (completed, its) ->
  exists t0 evs,
    snd (wait_for_batch_completion env fuel ds b poll timeout w)
    = with_log w (EvWait b poll timeout :: EvTime t0 :: evs)
    /\ (its = None <-> existsb is_item_answer evs = false)
    /\ (its = None -> completed = false).
Proof.
  intros Hres.
  destruct (wait_for_batch_completion_run env fuel ds b poll timeout w)
    as (t0 & evs & Hw & Hrun).
  exists t0, evs. split; [exact Hw|].
  destruct (poll_run_items _ _ _ _ _ _ _ Hrun _ _ Hres)
    as [(Hno & -> & ->)|(Hex & l & ->)].
  - by repeat split.
  - rewrite Hex. by repeat split.
Qed.

Lemma no_item_list_iff_no_answer_witness :
  exists t0 evs,
    snd (wait_for_batch_completion env_errored 0 "ds" (VStr "batch-1") 5 0
           sample_world)
    = with_log sample_world (EvWait (VStr "batch-1") 5 0 :: EvTime t0 :: evs)
    /\ (@None (list pydict) = None <-> existsb is_item_answer evs = false)
    /\ (@None (list pydict) = None -> false = false).
Proof.
  apply (no_item_list_iff_no_answer env_errored 0 "ds" (VStr "batch-1") 5 0
           sample_world false None).
  vm_compute. reflexivity.
Defined.

Lemma count_le_length (kind : event -> bool) (evs : list event) :
  (count kind evs <= List.length evs)%nat.
Proof. unfold count. apply List.filter_length_le. Qed.

(** The polling loop under a clock that every sleep advances: started
    after [k] sleeps with enough loop budget left, it returns, and it
    issues at most [n - k] status queries. *)
Lemma wait_loop_terminates (env : environment) (ds : string) (b : pyval)
  (poll timeout : Z) (t0 : Q) (base : list event) (n : nat) :
  0 < poll ->
  timeout <= poll * Z.of_nat n ->
  (forall evs, forallb is_poll_event evs = true ->
     (t0 + inject_Z (poll * Z.of_nat (count is_sleep evs))
      <= env_time env (base ++ evs))%Q) ->
  forall (fuel : nat) (evs0 : list event) (items : option (list pydict))
         (w : world),
  w_log w = base ++ evs0 ->
  forallb is_poll_event evs0 = true ->
  (n <= count is_sleep evs0 + fuel)%nat ->
  exists evs,
    snd (wait_loop env fuel ds b poll (t0 + inject_Z timeout)%Q items w)
    = with_log w evs
    /\ fst (wait_loop env fuel ds b poll (t0 + inject_Z timeout)%Q items w)
       <> None
    /\ (count is_status_query evs <= n - count is_sleep evs0)%nat.
Proof.
  intros Hpoll Hn Hclock.
  assert (Hstop : forall (evs0 : list event) (items : option (list pydict))
                         (w : world) (t : Q),
    exists evs,
      snd (Some (false, items), with_log w [EvTime t]) = with_log w evs
      /\ fst (Some (false, items), with_log w [EvTime t]) <> None
      /\ (count is_status_query evs <= n - count is_sleep evs0)%nat).
  { intros evs0 items w t. exists [EvTime t]. cbn [fst snd].
    split; [done|]. split; [done|]. rewrite count_cons, count_nil. simpl. lia. }
  induction fuel as [|fuel IH]; intros evs0 items w Hlog Hp Hfuel;
    rewrite wait_loop_unfold; cbv zeta; rewrite Hlog;
    destruct (Qltb (env_time env (base ++ evs0)) (t0 + inject_Z timeout))
      eqn:Hnow;
    try apply Hstop.
  - exfalso. pose proof (Hclock evs0 Hp) as Hc.
    unfold Qltb in Hnow. apply negb_true_iff in Hnow.
    assert (Hlt : (env_time env (base ++ evs0) < t0 + inject_Z timeout)%Q).
    { apply Qnot_le_lt. intros Hle. apply (proj2 (Qle_bool_iff _ _)) in Hle.
      rewrite Hnow in Hle. discriminate Hle. }
    assert (Hz : (inject_Z (poll * Z.of_nat (count is_sleep evs0))
                  < inject_Z timeout)%Q) by lra.
    rewrite <- Zlt_Qlt in Hz. nia.
  - pose proof (Hclock evs0 Hp) as Hc.
    unfold Qltb in Hnow. apply negb_true_iff in Hnow.
    assert (Hlt : (env_time env (base ++ evs0) < t0 + inject_Z timeout)%Q).
    { apply Qnot_le_lt. intros Hle. apply (proj2 (Qle_bool_iff _ _)) in Hle.
      rewrite Hnow in Hle. discriminate Hle. }
    assert (Hz : (inject_Z (poll * Z.of_nat (count is_sleep evs0))
                  < inject_Z timeout)%Q) by lra.
    rewrite <- Zlt_Qlt in Hz.
    assert (Hk : (count is_sleep evs0 < n)%nat) by nia.
    set (now := env_time env (base ++ evs0)).
    set (w1 := with_log w [EvTime now]).
    set (r := env_get_indexing_status env (w_log w1) ds b).
    assert (Hloop : forall its' : option (list pydict),
      exists evs,
        snd (wait_loop env fuel ds b poll (t0 + inject_Z timeout)%Q its'
               (with_log (with_log w1 [EvIndexingStatus ds b (fst r) (snd r)])
                         [EvSleep poll]))
        = with_log w evs
        /\ fst (wait_loop env fuel ds b poll (t0 + inject_Z timeout)%Q its'
               (with_log (with_log w1 [EvIndexingStatus ds b (fst r) (snd r)])
                         [EvSleep poll])) <> None
        /\ (count is_status_query evs <= n - count is_sleep evs0)%nat).
    { intros its'.
      destruct (IH (evs0 ++ [EvTime now; EvIndexingStatus ds b (fst r) (snd r);
                             EvSleep poll]) its'
                  (with_log (with_log w1 [EvIndexingStatus ds b (fst r) (snd r)])
                            [EvSleep poll]))
        as (evs & Hw & Hres & Hcount).
      - subst w1. rewrite !with_log_app, w_log_with_log, Hlog.
        by rewrite <- app_assoc.
      - rewrite forallb_app, Hp. reflexivity.
      - rewrite count_app, !count_cons, count_nil. simpl. lia.
      - eexists. split; [rewrite Hw; subst w1; rewrite !with_log_app; reflexivity|].
        split; [exact Hres|].
        rewrite count_app, !count_cons, count_nil in Hcount.
        repeat (rewrite ?count_app, ?count_cons, ?count_nil).
        simpl in *. lia. }
    assert (Hret : forall (res : bool * option (list pydict)),
      exists evs,
        with_log w1 [EvIndexingStatus ds b (fst r) (snd r)] = with_log w evs
        /\ Some res <> None
        /\ (count is_status_query evs <= n - count is_sleep evs0)%nat).
    { intros res. eexists. subst w1. rewrite with_log_app.
      split; [reflexivity|]. split; [done|].
      repeat (rewrite ?count_app, ?count_cons, ?count_nil). simpl. lia. }
    destruct r as [[|] [|body]] eqn:Er; cbn [fst snd] in *; try apply Hloop.
    destruct (status_data body) as [|item items'] eqn:E; [apply Hloop|].
    destruct (existsb has_error (item :: items')); [apply Hret|].
    destruct (forallb item_completed (item :: items')); [apply Hret|].
    apply Hloop.
Qed.

(** The poller terminates when sleeping advances the clock: with a
    positive poll interval and a clock that has advanced, after the
    reading of the start time, by at least the poll interval for every
    sleep, a loop budget of [n] with [timeout <= poll * n] is enough
    for the poller to return, and it issues at most [n] status
    queries. *)
Theorem poller_terminates (env : environment) (fuel n : nat) (ds : string)
  (b : pyval) (poll timeout : Z) (w : world) :
  0 < poll ->
  timeout <= poll * Z.of_nat n ->
  (n <= fuel)%nat ->
  let entry := w_log w ++ [EvWait b poll timeout] in
  let t0 := env_time env entry in
  (forall evs, forallb is_poll_event evs = true ->
     (t0 + inject_Z (poll * Z.of_nat (count is_sleep evs))
      <= env_time env ((entry ++ [EvTime t0]) ++ evs))%Q) ->
  exists evs,
    snd (wait_for_batch_completion env fuel ds b poll timeout w)
    = with_log w (EvWait b poll timeout :: EvTime t0 :: evs)
    /\ fst (wait_for_batch_completion env fuel ds b poll timeout w) <> None
    /\ (count is_status_query evs <= n)%nat.
Proof.
  intros Hpoll Hn Hfuel entry t0 Hclock.
  rewrite wait_for_batch_completion_unfold. cbv zeta.
  change (w_log (with_log w [EvWait b poll timeout])) with entry. fold t0.
  destruct (wait_loop_terminates env ds b poll timeout t0
              (entry ++ [EvTime t0]) n Hpoll Hn Hclock fuel [] None
              (with_log (with_log w [EvWait b poll timeout]) [EvTime t0]))
    as (evs & Hw & Hres & Hcount).
  - rewrite !w_log_with_log. by rewrite app_nil_r.
  - reflexivity.
  - simpl. lia.
  - exists evs. rewrite !with_log_app in Hw, Hres |- *. rewrite Hw.
    split; [by rewrite with_log_app|].
    split; [exact Hres|]. simpl in Hcount. lia.
Qed.

Lemma poller_terminates_witness :
  exists evs,
    snd (wait_for_batch_completion env_stuck 60 "ds" (VStr "batch-1") 5 300
           sample_world)
    = with_log sample_world
        (EvWait (VStr "batch-1") 5 300
         :: EvTime (env_time env_stuck [EvWait (VStr "batch-1") 5 300]) :: evs)
    /\ fst (wait_for_batch_completion env_stuck 60 "ds" (VStr "batch-1") 5 300
              sample_world) <> None
    /\ (count is_status_query evs <= 60)%nat.
Proof.
  apply (poller_terminates env_stuck 60 60 "ds" (VStr "batch-1") 5 300
           sample_world); [lia | lia | lia |].
  intros evs Hp. cbn [env_time env_stuck sample_world w_log].
  rewrite <- inject_Z_plus, <- Zle_Qle, !List.length_app.
  pose proof (count_le_length is_sleep evs). simpl List.length. lia.
Defined.

(* ================================================================== *)
(** * Further properties: Upload Dispatcher *)

(** An iteration of the upload loop adds nothing or one to each
    counter, and one at least to one of them. *)
Lemma upload_file_counts_step (env : environment) (fuel : nat)
  (args : arguments) (ds : string) (existing_names : gset string)
  (file : string) (counts counts' : Z * Z) (w : world) :
  fst (upload_file env fuel args ds existing_names file counts w) = Some counts' ->
  (fst counts' = fst counts \/ fst counts' = fst counts + 1)
  /\ (snd counts' = snd counts \/ snd counts' = snd counts + 1)
  /\ fst counts + snd counts + 1 <= fst counts' + snd counts'.
Proof.
  destruct (upload_file_run env fuel args ds existing_names file counts w)
    as (evs & res & Hrun & Hfile).
  rewrite Hrun. cbn [fst]. intros ->.
  inversion Hfile as [Hl|? Hok|? ? Hb|t evs' res ? ? ? Hp Hres
                      |t evs' tail res ? ? ? Hp Hfb Hevs Hcounts]; subst;
    cbn [fst snd]; try lia.
  - destruct Hres as [?|[[= ->] _]]; [done|]. cbn [fst snd]. lia.
  - destruct res as [f|]; [|done]. injection Hcounts as <-. cbn [fst snd].
    destruct (fallback_run_bounds _ _ _ _ _ _ _ Hfb) as (_ & _ & _ & _ & _ & Hout).
    destruct (Hout f eq_refl) as [->|(-> & _)]; lia.
Qed.

(** Every file of a run is counted at least once and at most twice:
    when the upload loop returns, each counter has grown by at most
    the number of files, and the two counters together by at least the
    number of files and at most twice that number. *)
Theorem counters_bounds (env : environment) (fuel : nat) (args : arguments)
  (ds : string) (existing_names : gset string) (files : list string) :
  forall (counts counts' : Z * Z) (w : world),
  fst (upload_files env fuel args ds existing_names files counts w)
  = Some counts' ->
  let n := Z.of_nat (List.length files) in
  fst counts <= fst counts' <= fst counts + n
  /\ snd counts <= snd counts' <= snd counts + n
  /\ n <= (fst counts' + snd counts') - (fst counts + snd counts) <= 2 * n.
Proof.
  induction files as [|file files IH]; intros counts counts' w; simpl.
  - intros [= <-]. lia.
  - unfold bind.
    pose proof (upload_file_counts_step env fuel args ds existing_names file
                  counts) as Hstep.
    destruct (upload_file env fuel args ds existing_names file counts w)
      as [[c1|] w1] eqn:Hfile; cbn [fst snd]; [|done].
    intros Hrest. specialize (IH _ _ _ Hrest). cbv zeta in IH.
    specialize (Hstep c1 w). rewrite Hfile in Hstep.
    specialize (Hstep eq_refl). lia.
Qed.

Lemma counters_bounds_witness :
  let n := Z.of_nat (List.length ["/data/a.md"]) in
  fst (0, 0) <= fst (1, 1) <= fst (0, 0) + n
  /\ snd (0, 0) <= snd (1, 1) <= snd (0, 0) + n
  /\ n <= (fst (1, 1) + snd (1, 1)) - (fst (0, 0) + snd (0, 0)) <= 2 * n.
Proof.
  apply (counters_bounds env_stuck 2 sample_args "ds" ∅ ["/data/a.md"]
           (0, 0) (1, 1) sample_world).
  vm_compute. reflexivity.
Defined.

(** A second run uploads nothing: when every file of the list is
    already listed in the set of existing names, the upload loop
    counts every file as a success and leaves the world as it was; no
    file is submitted, polled or deleted. *)
Theorem listed_files_upload_nothing (env : environment) (fuel : nat)
  (args : arguments) (ds : string) (existing_names : gset string)
  (files : list string) :
  forall (counts : Z * Z) (w : world),
  Forall (already_listed existing_names) files ->
  upload_files env fuel args ds existing_names files counts w
  = (Some (fst counts + Z.of_nat (List.length files), snd counts), w).
Proof.
  induction files as [|file files IH]; intros counts w Hall.
  - simpl. rewrite Z.add_0_r. by destruct counts.
  - apply Forall_cons in Hall as [Hfile Hrest].
    simpl upload_files.
    assert (Hskip : upload_file env fuel args ds existing_names file counts w
                    = (Some (fst counts + 1, snd counts), w)).
    { apply already_listed_test in Hfile.
      unfold upload_file. cbv zeta. by rewrite Hfile. }
    erewrite bind_some by exact Hskip.
    rewrite (IH _ _ Hrest). cbn [fst snd]. do 3 f_equal.
    simpl List.length. lia.
Qed.

Lemma listed_files_upload_nothing_witness :
  upload_files env_errored 1 sample_args "ds" ({["notes.md"]} ∪ {["a"]})
    ["/data/A.markdown"; "/data/Notes.MD"] (0, 0) sample_world
  = (Some (0 + 2, 0), sample_world).
Proof.
  apply (listed_files_upload_nothing env_errored 1 sample_args "ds"
           ({["notes.md"]} ∪ {["a"]}) ["/data/A.markdown"; "/data/Notes.MD"]
           (0, 0) sample_world).
  apply List.Forall_cons.
  - right. apply elem_of_union. right. by apply elem_of_singleton.
  - apply List.Forall_cons; [|apply List.Forall_nil].
    left. apply elem_of_union. left. by apply elem_of_singleton.
Defined.

Lemma about_file_mono (ds file : string) (doc : pyval)
  (batches batches' : list pyval) (e : event) :
  (forall b, In b batches -> In b batches') ->
  about_file ds file doc batches e -> about_file ds file doc batches' e.
Proof. intros Hsub. destruct e; simpl; intuition. Qed.

Lemma created_batches_app (a b : list event) :
  created_batches (a ++ b) = created_batches a ++ created_batches b.
Proof.
  induction a as [|e a IH]; [done|]. destruct e; simpl; by rewrite ?IH.
Qed.

Lemma poll_run_about (ds : string) (b : pyval) (poll : Z) (deadline : Q)
  (items : option (list pydict)) (evs : list event)
  (res : option (bool * option (list pydict))) (file : string) (doc : pyval) :
  poll_run ds b poll deadline items evs res ->
  Forall (about_file ds file doc [b]) evs /\ created_batches evs = [].
Proof.
  induction 1 as [items t Ht|items t Ht|items t body Ht Hne Herr
                  |items t body Ht Hne Herr Hall
                  |items t body evs res Ht Hw Hrun [IH1 IH2]
                  |items t ok body evs res Ht Hok Hrun [IH1 IH2]];
    (split; [repeat (apply List.Forall_cons; [simpl; auto|]);
             try apply List.Forall_nil; try exact IH1
            |simpl; auto]).
Qed.

(** The events of the poller concern its batch only and hold no
    submission. *)
Lemma wait_for_batch_completion_about (env : environment) (fuel : nat)
  (ds : string) (b : pyval) (poll timeout : Z) (w : world)
  (file : string) (doc : pyval) :
  exists evs,
    snd (wait_for_batch_completion env fuel ds b poll timeout w)
    = with_log w evs
    /\ Forall (about_file ds file doc [b]) evs
    /\ created_batches evs = [].
Proof.
  destruct (wait_for_batch_completion_run env fuel ds b poll timeout w)
    as (t0 & evs & Hw & Hrun).
  destruct (poll_run_about _ _ _ _ _ _ _ file doc Hrun) as [Hall Hnone].
  eexists. split; [exact Hw|]. split.
  - apply List.Forall_cons; [simpl; auto|].
    apply List.Forall_cons; [simpl; auto|]. exact Hall.
  - simpl. exact Hnone.
Qed.

Lemma delete_and_retry_about (env : environment) (fuel : nat) (args : arguments)
  (ds file : string) (doc : pyval) (failure_count : Z) (w : world) :
  exists evs,
    snd (delete_and_retry env fuel args ds file doc failure_count w)
    = with_log w evs
    /\ Forall (about_file ds file doc (created_batches evs)) evs.
Proof.
  unfold delete_and_retry.
  destruct (truthy doc).
  2:{ exists []. rewrite with_log_nil. split; [done|apply List.Forall_nil]. }
  erewrite bind_some by apply delete_document_run.
  destruct (env_delete_document env (w_log w) ds doc).
  2:{ eexists. split; [reflexivity|].
      apply List.Forall_cons; [by simpl|apply List.Forall_nil]. }
  erewrite bind_some by apply time_sleep_run.
  erewrite bind_some by apply create_document_from_file_run.
  cbv zeta. rewrite !with_log_app, !w_log_with_log. simpl app.
  destruct (env_create_document_from_file env _ ds file "high_quality")
    as [re_ok re_result].
  cbn [fst snd].
  assert (Hthree : forall ok,
    Forall (about_file ds file doc
              (created_batches
                 [EvDeleteDocument ds doc true;
                  EvSleep (arg_fallback_retry_wait_seconds args);
                  EvCreateDocument ds file "high_quality" ok re_result]))
      [EvDeleteDocument ds doc true;
       EvSleep (arg_fallback_retry_wait_seconds args);
       EvCreateDocument ds file "high_quality" ok re_result]).
  { intros ok. repeat (apply List.Forall_cons; [by simpl|]).
    apply List.Forall_nil. }
  destruct re_ok; [|eexists; split; [reflexivity|apply Hthree]].
  destruct (truthy (result_batch_id re_result));
    [|eexists; split; [reflexivity|apply Hthree]].
  set (w3 := with_log w _).
  destruct (wait_for_batch_completion_about env fuel ds
              (result_batch_id re_result) (arg_poll_interval args)
              (arg_indexing_timeout args) w3 file doc)
    as (evs & Hw & Hall & Hnone).
  exists ([EvDeleteDocument ds doc true;
           EvSleep (arg_fallback_retry_wait_seconds args);
           EvCreateDocument ds file "high_quality" true re_result] ++ evs).
  split.
  - unfold bind.
    destruct (wait_for_batch_completion env fuel ds (result_batch_id re_result)
                (arg_poll_interval args) (arg_indexing_timeout args) w3)
      as [[[completed its]|] w4]; cbn [snd] in Hw; subst w4 w3;
      rewrite with_log_app; [by destruct completed|done].
  - rewrite created_batches_app, Hnone, app_nil_r. apply Forall_app. split.
    + apply Hthree.
    + eapply List.Forall_impl; [|exact Hall].
      intros e. apply about_file_mono. simpl. tauto.
Qed.

(** An iteration of the upload loop touches nothing but its own file:
    for every environment and loop budget, every submission is of the
    given file to the given dataset with the technique "high_quality",
    every deletion is of the document id that the first submission
    returned, every polling phase and status query is for a batch id
    that a submission of this iteration returned, and no listing
    request is made. *)
Theorem upload_file_touches_own_file_only (env : environment) (fuel : nat)
  (args : arguments) (ds : string) (existing_names : gset string)
  (file : string) (counts : Z * Z) (w : world) :
  exists evs,
    snd (upload_file env fuel args ds existing_names file counts w)
    = with_log w evs
    /\ Forall (about_file ds file (first_document evs) (created_batches evs))
         evs.
Proof.
  unfold upload_file. cbv zeta.
  destruct (bool_decide _ || bool_decide _).
  { exists []. rewrite with_log_nil. split; [done|apply List.Forall_nil]. }
  erewrite bind_some by apply create_document_from_file_run.
  destruct (env_create_document_from_file env (w_log w) ds file "high_quality")
    as [ok result].
  cbn [fst snd].
  assert (Hone : forall ok',
    Forall (about_file ds file
              (first_document [EvCreateDocument ds file "high_quality" ok' result])
              (created_batches [EvCreateDocument ds file "high_quality" ok' result]))
      [EvCreateDocument ds file "high_quality" ok' result]).
  { intros ok'. apply List.Forall_cons; [by simpl|apply List.Forall_nil]. }
  destruct ok; [|eexists; split; [reflexivity|apply Hone]].
  destruct (truthy (result_batch_id result));
    [|eexists; split; [reflexivity|apply Hone]].
  set (w1 := with_log w _).
  set (budget := Z.min (arg_indexing_timeout args) (arg_fallback_timeout_seconds args)).
  destruct (wait_for_batch_completion_about env fuel ds (result_batch_id result)
              (arg_poll_interval args) budget w1 file (result_document_id result))
    as (evs & Hw & Hall & Hnone).
  unfold bind at 1.
  destruct (wait_for_batch_completion env fuel ds (result_batch_id result)
              (arg_poll_interval args) budget w1)
    as [[[completed its]|] w2]; cbn [snd] in Hw; subst w2 w1;
    rewrite with_log_app; simpl app; cbn [fst snd].
  1: destruct completed.
  3: idtac.
  all: try (exists (EvCreateDocument ds file "high_quality" true result :: evs);
            split; [reflexivity|];
            simpl first_document; simpl created_batches; rewrite Hnone;
            apply List.Forall_cons; [by simpl|];
            eapply List.Forall_impl; [|exact Hall];
            intros e; apply about_file_mono; simpl; tauto).
  destruct (delete_and_retry_about env fuel args ds file
              (result_document_id result) (snd counts)
              (with_log w (EvCreateDocument ds file "high_quality" true result
                           :: evs)))
    as (tail & Ht & Htail).
  exists (EvCreateDocument ds file "high_quality" true result :: evs ++ tail).
  split.
  - unfold bind.
    destruct (delete_and_retry env fuel args ds file (result_document_id result)
                (snd counts) _) as [[f|] w3]; cbn [snd] in Ht; subst w3;
      by rewrite with_log_app.
  - simpl first_document. simpl created_batches.
    rewrite created_batches_app, Hnone. simpl app.
    apply List.Forall_cons; [by simpl|]. apply Forall_app. split.
    + eapply List.Forall_impl; [|exact Hall].
      intros e. apply about_file_mono. simpl. tauto.
    + eapply List.Forall_impl; [|exact Htail].
      intros e. apply about_file_mono. simpl. tauto.
Qed.

(* ================================================================== *)
(** * Further properties: preparing the markdown directory *)

(** ** The file system updates *)

Lemma fs_makedirs_isfile (fs : filesystem) (d p : string) :
  isfile (fs_makedirs fs d) p = isfile fs p.
Proof. reflexivity. Qed.

Lemma fs_makedirs_file_bytes (fs : filesystem) (d p : string) :
  file_bytes (fs_makedirs fs d) p = file_bytes fs p.
Proof. reflexivity. Qed.

Lemma fs_makedirs_abspath (fs : filesystem) (d : string) :
  abspath (fs_makedirs fs d) = abspath fs.
Proof. reflexivity. Qed.

Lemma fs_makedirs_listdir (fs : filesystem) (d p : string) :
  isdir fs p = true -> listdir (fs_makedirs fs d) p = listdir fs p.
Proof.
  intros H. unfold fs_makedirs. cbn [listdir]. by rewrite H, andb_false_r.
Qed.


Lemma fs_makedirs_isdir_mono (fs : filesystem) (d p : string) :
  isdir fs p = true -> isdir (fs_makedirs fs d) p = true.
Proof.
  intros H. unfold fs_makedirs. cbn [isdir]. by rewrite H, orb_true_r.
Qed.

Lemma fs_makedirs_exists_mono (fs : filesystem) (d p : string) :
  path_exists fs p = true -> path_exists (fs_makedirs fs d) p = true.
Proof.
  intros H. unfold fs_makedirs. cbn [path_exists]. by rewrite H, orb_true_r.
Qed.

Lemma makedirs_created_ancestors (fs : filesystem) (fuel : nat) :
  forall name p : string,
  In p (makedirs_created fuel fs name) ->
  p = name \/ In p (path_ancestors fuel name).
Proof.
  induction fuel as [|fuel IH]; intros name p Hin.
  - destruct Hin as [<-|[]]. by left.
  - simpl in Hin |- *. destruct (makedirs_split name) as [head tail].
    destruct (negb (String.eqb head "") && negb (String.eqb tail "")) eqn:E;
      cbn [andb] in Hin.
    2:{ destruct Hin as [<-|[]]. by left. }
    destruct (negb (path_exists fs head)).
    2:{ destruct Hin as [<-|[]]. by left. }
    apply in_app_or in Hin as [Hin|Hin].
    + right. destruct (IH _ _ Hin) as [->|H]; [by left|by right].
    + destruct (String.eqb tail "."); [done|].
      destruct Hin as [<-|[]]. by left.
Qed.

(** A directory that is new after [os.makedirs(d)] is [d] or one of
    its ancestors. *)
Lemma fs_makedirs_isdir_new (fs : filesystem) (d p : string) :
  isdir (fs_makedirs fs d) p = true ->
  isdir fs p = true \/ p = d \/ In p (ancestors d).
Proof.
  unfold fs_makedirs. cbn [isdir]. intros H.
  apply orb_true_iff in H as [H|H]; [|by left].
  right. apply orb_true_iff in H as [H|H]; [left; by apply String.eqb_eq|].
  apply existsb_exists in H as (a & Hin & Heq).
  apply String.eqb_eq in Heq as <-.
  by apply makedirs_created_ancestors in Hin.
Qed.

Lemma fs_copy2_isfile (fs : filesystem) (source_path d file_name p : string) :
  isfile (fs_copy2 fs source_path d file_name) p
  = String.eqb p (path_join d file_name) || isfile fs p.
Proof. reflexivity. Qed.

Lemma fs_copy2_path_exists (fs : filesystem) (source_path d file_name p : string) :
  path_exists (fs_copy2 fs source_path d file_name) p
  = String.eqb p (path_join d file_name) || path_exists fs p.
Proof. reflexivity. Qed.

Lemma fs_copy2_file_bytes (fs : filesystem) (source_path d file_name p : string) :
  file_bytes (fs_copy2 fs source_path d file_name) p
  = if String.eqb p (path_join d file_name) then file_bytes fs source_path
    else file_bytes fs p.
Proof. reflexivity. Qed.

(** ** The copy loop *)

(** The copy loop: it always returns; every candidate is counted once,
    as copied or as skipped; the log is left as it is; directories stay
    as they are; no file disappears; a path that existed keeps its
    kind and its bytes; and every new file is the copy of a candidate
    that is not listed in the set of existing names, at a destination,
    in the markdown directory, that did not exist. *)
Lemma copy_candidates_spec (existing_names : gset string) (markdown_dir : string)
  (candidates : list string) :
  forall (counts : Z * Z) (w : world),
  exists copied skipped fs',
    copy_candidates existing_names markdown_dir candidates counts w
    = (Some (copied, skipped), {| w_fs := fs'; w_log := w_log w |})
    /\ copied + skipped
       = fst counts + snd counts + Z.of_nat (List.length candidates)
    /\ fst counts <= copied /\ snd counts <= skipped
    /\ abspath fs' = abspath (w_fs w)
    /\ (forall p, isdir fs' p = isdir (w_fs w) p)
    /\ (forall p, isfile (w_fs w) p = true -> isfile fs' p = true)
    /\ (forall p, path_exists (w_fs w) p = true -> path_exists fs' p = true)
    /\ (forall p, path_exists (w_fs w) p = true ->
          isfile fs' p = isfile (w_fs w) p
          /\ file_bytes fs' p = file_bytes (w_fs w) p)
    /\ (forall p, isfile fs' p = true ->
          isfile (w_fs w) p = true
          \/ (path_exists (w_fs w) p = false
              /\ exists source_path,
                   In source_path candidates
                   /\ ~ already_listed existing_names source_path
                   /\ p = path_join markdown_dir (basename source_path)
                   /\ (path_exists (w_fs w) source_path = true ->
                       file_bytes fs' p = file_bytes (w_fs w) source_path))).
Proof.
  induction candidates as [|source_path candidates IH]; intros counts w.
  - exists (fst counts), (snd counts), (w_fs w). simpl.
    destruct counts, w. repeat split; auto; simpl; lia.
  - simpl copy_candidates.
    assert (Hskipped :
      exists copied skipped fs',
        copy_candidates existing_names markdown_dir candidates
          (fst counts, snd counts + 1) w
        = (Some (copied, skipped), {| w_fs := fs'; w_log := w_log w |})
        /\ copied + skipped
           = fst counts + snd counts
             + Z.of_nat (List.length (source_path :: candidates))
        /\ fst counts <= copied /\ snd counts <= skipped
        /\ abspath fs' = abspath (w_fs w)
        /\ (forall p, isdir fs' p = isdir (w_fs w) p)
        /\ (forall p, isfile (w_fs w) p = true -> isfile fs' p = true)
        /\ (forall p, path_exists (w_fs w) p = true -> path_exists fs' p = true)
        /\ (forall p, path_exists (w_fs w) p = true ->
              isfile fs' p = isfile (w_fs w) p
              /\ file_bytes fs' p = file_bytes (w_fs w) p)
        /\ (forall p, isfile fs' p = true ->
              isfile (w_fs w) p = true
              \/ (path_exists (w_fs w) p = false
                  /\ exists src,
                       In src (source_path :: candidates)
                       /\ ~ already_listed existing_names src
                       /\ p = path_join markdown_dir (basename src)
                       /\ (path_exists (w_fs w) src = true ->
                           file_bytes fs' p = file_bytes (w_fs w) src)))).
    { destruct (IH (fst counts, snd counts + 1) w)
        as (c & s & fs' & Hrun & Hsum & Hc & Hs & Habs & Hdir & Hfile & Hex
            & Hkeep & Hnew).
      exists c, s, fs'. rewrite Hrun. cbn [fst snd] in *.
      repeat split; auto; try (simpl List.length; lia); try apply Hkeep; auto.
      intros p Hp.
      destruct (Hnew p Hp) as [?|(? & src & ? & ? & ? & ?)]; [by left|].
      right. split; [done|]. exists src. by repeat split; [right|..]. }
    destruct (bool_decide _ || bool_decide _) eqn:Hskip; [exact Hskipped|].
    assert (Hnot : ~ already_listed existing_names source_path).
    { intros H. apply already_listed_test in H. congruence. }
    rewrite bind_get_fs.
    destruct (path_exists (w_fs w) (path_join markdown_dir (basename source_path)))
      eqn:Hdest; [exact Hskipped|].
    clear Hskipped.
    set (dest := path_join markdown_dir (basename source_path)) in *.
    set (fs1 := fs_copy2 (w_fs w) source_path markdown_dir
                  (basename source_path)).
    assert (Hother : forall p, path_exists (w_fs w) p = true ->
                       String.eqb p dest = false).
    { intros p Hp. destruct (String.eqb p dest) eqn:E; [|done].
      apply String.eqb_eq in E as ->. congruence. }
    destruct (IH (fst counts + 1, snd counts) {| w_fs := fs1; w_log := w_log w |})
      as (c & s & fs' & Hrun & Hsum & Hc & Hs & Habs & Hdir & Hfile & Hex
          & Hkeep & Hnew).
    exists c, s, fs'.
    split; [exact Hrun|]. cbn [fst snd w_fs w_log] in *.
    split; [simpl List.length; lia|]. split; [lia|]. split; [lia|].
    split; [exact Habs|]. split; [exact Hdir|].
    split.
    { intros p Hp. apply Hfile. subst fs1. rewrite fs_copy2_isfile.
      by rewrite Hp, orb_true_r. }
    split.
    { intros p Hp. apply Hex. subst fs1. rewrite fs_copy2_path_exists.
      by rewrite Hp, orb_true_r. }
    split.
    { intros p Hp.
      assert (Hp1 : path_exists fs1 p = true).
      { subst fs1. rewrite fs_copy2_path_exists. by rewrite Hp, orb_true_r. }
      destruct (Hkeep p Hp1) as [Hk1 Hk2]. rewrite Hk1, Hk2. subst fs1.
      rewrite fs_copy2_isfile, fs_copy2_file_bytes.
      fold dest. by rewrite (Hother p Hp). }
    intros p Hp. destruct (Hnew p Hp) as [H1|(H1 & src & Hin & Hno & Hp' & Hb)].
    + subst fs1. rewrite fs_copy2_isfile in H1. fold dest in H1.
      apply orb_true_iff in H1 as [H1|H1]; [|by left].
      apply String.eqb_eq in H1 as ->. right. split; [exact Hdest|].
      exists source_path. split; [by left|]. split; [exact Hnot|].
      split; [done|]. intros Hsrc.
      assert (Hd1 : path_exists
                      (fs_copy2 (w_fs w) source_path markdown_dir
                         (basename source_path)) dest = true).
      { rewrite fs_copy2_path_exists. fold dest. by rewrite String.eqb_refl. }
      destruct (Hkeep dest Hd1) as [_ Hk2]. rewrite Hk2.
      rewrite fs_copy2_file_bytes. fold dest. by rewrite String.eqb_refl.
    + right. subst fs1. rewrite fs_copy2_path_exists in H1. fold dest in H1.
      apply orb_false_iff in H1 as [_ H1].
      split; [done|]. exists src. split; [by right|]. split; [done|].
      split; [done|]. intros Hsrc. rewrite Hb.
      * rewrite fs_copy2_file_bytes. fold dest. by rewrite (Hother src Hsrc).
      * rewrite fs_copy2_path_exists. by rewrite Hsrc, orb_true_r.
Qed.


(** ** The copy step *)

(** Accounting of the copy step: whenever
    [copy_missing_output_files_to_markdown] returns, the numbers of
    copied and of skipped files are not negative and add up to the
    number of files considered, which is the number of regular files
    of the output directory whose name ends case-insensitively in a
    markdown suffix (zero when the output directory is no directory). *)
Theorem copy_step_accounting (env : environment) (fuel : nat)
  (ds output_dir markdown_dir : string) (w : world)
  (copied skipped considered : Z) :
  fst (copy_missing_output_files_to_markdown env fuel ds output_dir
         markdown_dir w)
  = Some (copied, skipped, considered) ->
  copied + skipped = considered
  /\ 0 <= copied /\ 0 <= skipped
  /\ considered
     = if isdir (w_fs w) output_dir then
         Z.of_nat (List.length
           (List.filter
              (fun file_name =>
                 isfile (w_fs w) (path_join output_dir file_name)
                 && is_markdown_name file_name)
              (listdir (w_fs w) output_dir)))
       else 0.
Proof.
  unfold copy_missing_output_files_to_markdown. rewrite bind_get_fs.
  destruct (isdir (w_fs w) output_dir) eqn:Hdir; cbn [negb].
  2:{ intros [= <- <- <-]. lia. }
  unfold bind at 1. unfold set_fs at 1. rewrite bind_get_fs. cbn [w_fs w_log].
  rewrite (fs_makedirs_listdir _ _ _ Hdir).
  set (fs1 := fs_makedirs (w_fs w) markdown_dir).
  set (candidates := List.map (path_join output_dir) _).
  assert (Hcand : List.length candidates
                  = List.length
                      (List.filter
                         (fun file_name =>
                            isfile (w_fs w) (path_join output_dir file_name)
                            && is_markdown_name file_name)
                         (listdir (w_fs w) output_dir))).
  { subst candidates. rewrite List.length_map. f_equal.
    apply List.filter_ext. intros n. subst fs1. rewrite fs_makedirs_isfile.
    unfold endswith_any, markdown_suffixes, is_markdown_name.
    cbn [existsb]. by rewrite orb_false_r. }
  clearbody candidates.
  unfold bind at 1.
  destruct (fetch_existing_document_names env fuel ds 100 _)
    as [[names|] w2]; [|done].
  destruct (copy_candidates_spec names markdown_dir candidates (0, 0) w2)
    as (c & s & fs' & Hrun & Hsum & Hc & Hs & _).
  unfold bind. rewrite Hrun. cbn [fst snd] in *.
  intros [= <- <- <-]. rewrite <- Hcand. repeat split; lia.
Qed.

Lemma copy_step_accounting_witness :
  1 + 1 = 2 /\ 0 <= 1 /\ 0 <= 1
  /\ 2 = if isdir (w_fs output_world) "/output" then
           Z.of_nat (List.length
             (List.filter
                (fun file_name =>
                   isfile (w_fs output_world) (path_join "/output" file_name)
                   && is_markdown_name file_name)
                (listdir (w_fs output_world) "/output")))
         else 0.
Proof.
  apply (copy_step_accounting env_notes 2 "ds" "/output" "/data" output_world
           1 1 2).
  vm_compute. reflexivity.
Defined.

(** The whole copy step: what it asks the dataset and what it does to
    the file system. *)
Lemma copy_step_spec (env : environment) (fuel : nat)
  (ds output_dir markdown_dir : string) (w : world) :
  exists evs fs',
    snd (copy_missing_output_files_to_markdown env fuel ds output_dir
           markdown_dir w)
    = {| w_fs := fs'; w_log := w_log w ++ evs |}
    /\ forallb (is_listing_of ds 100) evs = true
    /\ List.map requested_page evs = pages_from 1 (List.length evs)
    /\ (isdir (w_fs w) output_dir = false -> fs' = w_fs w /\ evs = [])
    /\ abspath fs' = abspath (w_fs w)
    /\ (forall p, isdir fs' p = true ->
          isdir (w_fs w) p = true
          \/ p = markdown_dir \/ In p (ancestors markdown_dir))
    /\ (forall p, isdir (w_fs w) p = true -> isdir fs' p = true)
    /\ (forall p, isfile (w_fs w) p = true -> isfile fs' p = true)
    /\ (forall p, path_exists (w_fs w) p = true ->
          isfile fs' p = isfile (w_fs w) p
          /\ file_bytes fs' p = file_bytes (w_fs w) p)
    /\ (forall p, isfile fs' p = true ->
          isfile (w_fs w) p = true
          \/ (path_exists (w_fs w) p = false
              /\ exists file_name,
                   In file_name (listdir (w_fs w) output_dir)
                   /\ is_markdown_name file_name = true
                   /\ isfile (w_fs w) (path_join output_dir file_name) = true
                   /\ p = path_join markdown_dir
                          (basename (path_join output_dir file_name))
                   /\ (path_exists (w_fs w) (path_join output_dir file_name)
                       = true ->
                       file_bytes fs' p
                       = file_bytes (w_fs w)
                           (path_join output_dir file_name)))).
Proof.
  unfold copy_missing_output_files_to_markdown. rewrite bind_get_fs.
  destruct (isdir (w_fs w) output_dir) eqn:Hdir; cbn [negb].
  2:{ exists [], (w_fs w). simpl. rewrite app_nil_r. destruct w.
      repeat split; auto. }
  unfold bind at 1. unfold set_fs at 1. rewrite bind_get_fs. cbn [w_fs w_log].
  rewrite (fs_makedirs_listdir _ _ _ Hdir).
  set (fs1 := fs_makedirs (w_fs w) markdown_dir).
  set (w1 := {| w_fs := fs1; w_log := w_log w |}).
  set (candidates := List.map (path_join output_dir) _).
  assert (Hcand : forall source_path, In source_path candidates ->
            exists file_name,
              In file_name (listdir (w_fs w) output_dir)
              /\ is_markdown_name file_name = true
              /\ isfile (w_fs w) (path_join output_dir file_name) = true
              /\ source_path = path_join output_dir file_name).
  { intros source_path Hin. subst candidates.
    apply List.in_map_iff in Hin as (file_name & <- & Hin).
    apply List.filter_In in Hin as [Hin Htest].
    apply andb_true_iff in Htest as [Hfile Hmd].
    exists file_name. repeat split; auto.
    unfold endswith_any, markdown_suffixes in Hmd. cbn [existsb] in Hmd.
    by rewrite orb_false_r in Hmd. }
  clearbody candidates.
  destruct (fetch_pages_requests env ds 100 fuel 1 ∅ w1)
    as (evs & Hw & Hpages & Hkind & _).
  change (fetch_pages env fuel ds 100 1 ∅ w1)
    with (fetch_existing_document_names env fuel ds 100 w1) in Hw.
  assert (Hdirs : forall p, isdir fs1 p = true ->
                    isdir (w_fs w) p = true
                    \/ p = markdown_dir \/ In p (ancestors markdown_dir)).
  { intros p. apply fs_makedirs_isdir_new. }
  assert (Hdirs' : forall p, isdir (w_fs w) p = true -> isdir fs1 p = true).
  { intros p. apply fs_makedirs_isdir_mono. }
  assert (Hex1 : forall p, path_exists (w_fs w) p = true ->
                   path_exists fs1 p = true).
  { intros p. apply fs_makedirs_exists_mono. }
  unfold bind at 1.
  destruct (fetch_existing_document_names env fuel ds 100 w1)
    as [[names|] w2]; cbn [snd] in Hw; subst w2.
  2:{ exists evs, fs1. repeat split; auto; congruence. }
  destruct (copy_candidates_spec names markdown_dir candidates (0, 0)
              (with_log w1 evs))
    as (c & s & fs' & Hrun & _ & _ & _ & Habs & Hdir' & Hfile & _ & Hkeep
        & Hnew).
  unfold bind. rewrite Hrun. cbn [snd w_fs w_log with_log w1] in *.
  exists evs, fs'.
  split; [done|]. split; [done|]. split; [done|].
  split; [congruence|]. split; [exact Habs|].
  split. { intros p Hp. rewrite Hdir' in Hp. by apply Hdirs. }
  split. { intros p Hp. rewrite Hdir'. by apply Hdirs'. }
  split. { intros p Hp. by apply Hfile. }
  split. { intros p Hp. by apply Hkeep, Hex1. }
  intros p Hp.
  destruct (Hnew p Hp) as [H|(Hex & src & Hin & _ & -> & Hb)]; [by left|].
  right. split.
  - destruct (path_exists (w_fs w) (path_join markdown_dir (basename src)))
      eqn:E; [|done]. apply Hex1 in E. congruence.
  - destruct (Hcand src Hin) as (file_name & ? & ? & ? & ->).
    exists file_name. repeat split; auto.
Qed.

(** The copy step only reads the dataset: whatever the dataset
    answers, [copy_missing_output_files_to_markdown] asks it nothing
    but pages of its document listing (pages 1, 2, ... of a hundred
    documents), so it submits, deletes and polls nothing; and when the
    output directory is no directory, it asks nothing and leaves the
    file system as it is. *)
Theorem copy_step_reads_dataset_only (env : environment) (fuel : nat)
  (ds output_dir markdown_dir : string) (w : world) :
  let w' := snd (copy_missing_output_files_to_markdown env fuel ds output_dir
                   markdown_dir w) in
  exists evs,
    w_log w' = w_log w ++ evs
    /\ forallb (is_listing_of ds 100) evs = true
    /\ List.map requested_page evs = pages_from 1 (List.length evs)
    /\ (isdir (w_fs w) output_dir = false -> w' = w).
Proof.
  destruct (copy_step_spec env fuel ds output_dir markdown_dir w)
    as (evs & fs' & Hw & Hkind & Hpages & Hnodir & _).
  cbv zeta. rewrite Hw. exists evs. repeat split; auto.
  intros H. destruct (Hnodir H) as [-> ->]. rewrite app_nil_r. by destruct w.
Qed.


(* ================================================================== *)
(** * Further properties: a whole run *)

Lemma deletes_created_mono (ds : string) (evs : list event) :
  forall created created' : list pyval,
  (forall doc, In doc created -> In doc created') ->
  deletes_created ds created evs -> deletes_created ds created' evs.
Proof.
  induction evs as [|e evs IH]; intros c c' Hsub; [done|].
  destruct e as [| d f t ok body | | d doc ok | | |]; simpl; try by apply IH.
  - destruct ok; [|by apply IH]. apply IH.
    intros x [->|Hx]; [by left|right; auto].
  - intros (? & ? & ? & ?). repeat split; auto. by eapply IH.
Qed.

Lemma deletes_created_app (ds : string) (a b : list event) :
  forall created : list pyval,
  deletes_created ds created a -> deletes_created ds created b ->
  deletes_created ds created (a ++ b).
Proof.
  induction a as [|e a IH]; intros c Ha Hb; [done|].
  destruct e as [| d f t ok body | | d doc ok | | |]; simpl in *;
    try by apply IH.
  - destruct ok; [|by apply IH]. apply IH; [done|].
    eapply deletes_created_mono; [|exact Hb]. intros x Hx. by right.
  - destruct Ha as (? & ? & ? & ?). repeat split; auto.
Qed.

Lemma deletes_created_read_only (ds : string) (evs : list event) :
  forall created : list pyval,
  forallb is_read_only evs = true -> deletes_created ds created evs.
Proof.
  induction evs as [|e evs IH]; intros c H; [done|].
  simpl in H. apply andb_true_iff in H as [He H].
  destruct e; simpl in *; try discriminate; by apply IH.
Qed.

Lemma submitted_files_app (a b : list event) :
  submitted_files (a ++ b) = submitted_files a ++ submitted_files b.
Proof.
  induction a as [|e a IH]; [done|]. destruct e; simpl; by rewrite ?IH.
Qed.

Lemma submitted_files_read_only (evs : list event) :
  forallb is_read_only evs = true -> submitted_files evs = [].
Proof.
  induction evs as [|e evs IH]; intros H; [done|].
  simpl in H. apply andb_true_iff in H as [He H].
  destruct e; simpl in *; try discriminate; by apply IH.
Qed.

Lemma poll_events_read_only (evs : list event) :
  forallb is_poll_event evs = true -> forallb is_read_only evs = true.
Proof.
  intros H. apply forallb_forall. intros e He.
  eapply forallb_forall in H; [|exact He]. by destruct e.
Qed.

Lemma listing_events_read_only (ds : string) (limit : Z) (evs : list event) :
  forallb (is_listing_of ds limit) evs = true ->
  forallb is_read_only evs = true.
Proof.
  intros H. apply forallb_forall. intros e He.
  eapply forallb_forall in H; [|exact He]. by destruct e.
Qed.

(** The delete-and-retry cycle deletes nothing but the document it is
    given, whose id is not empty, and submits the file at most once. *)
Lemma fallback_run_discipline (args : arguments) (ds file : string)
  (doc : pyval) (failure_count : Z) (evs : list event) (res : option Z) :
  fallback_run args ds file doc failure_count evs res ->
  deletes_created ds [doc] evs
  /\ submitted_files evs `sublist_of` [file].
Proof.
  intros Hrun. destruct Hrun; simpl.
  - split; [done|apply sublist_nil_l].
  - split; [by auto|apply sublist_nil_l].
  - split; [by auto|done].
  - split; [by auto|done].
  - split.
    + repeat split; auto.
      apply deletes_created_read_only. by apply poll_events_read_only.
    + rewrite submitted_files_read_only by by apply poll_events_read_only.
      done.
Qed.

(** One iteration of the upload loop. *)
Lemma upload_file_discipline (env : environment) (fuel : nat)
  (args : arguments) (ds : string) (existing_names : gset string)
  (file : string) (counts : Z * Z) (w : world) :
  exists evs,
    snd (upload_file env fuel args ds existing_names file counts w)
    = with_log w evs
    /\ deletes_created ds [] evs
    /\ submitted_files evs `sublist_of` [file; file].
Proof.
  destruct (upload_file_run env fuel args ds existing_names file counts w)
    as (evs & res & Hrun & Hfile).
  exists evs. rewrite Hrun. split; [done|].
  destruct Hfile; simpl.
  - split; [done|apply sublist_nil_l].
  - split; [done|]. apply sublist_skip, sublist_cons, sublist_nil_l.
  - split; [done|]. apply sublist_skip, sublist_cons, sublist_nil_l.
  - split.
    + apply deletes_created_read_only. by apply poll_events_read_only.
    + rewrite submitted_files_read_only by by apply poll_events_read_only.
      apply sublist_skip, sublist_nil_l.
  - destruct (fallback_run_discipline _ _ _ _ _ _ _ H3) as [Hdel Hsub].
    split.
    + apply deletes_created_app; [|done].
      apply deletes_created_read_only. by apply poll_events_read_only.
    + rewrite submitted_files_app.
      rewrite submitted_files_read_only by by apply poll_events_read_only.
      simpl. by apply sublist_skip.
Qed.

(** The upload loop. *)
Lemma upload_files_discipline (env : environment) (fuel : nat)
  (args : arguments) (ds : string) (existing_names : gset string)
  (files : list string) :
  forall (counts : Z * Z) (w : world),
  exists evs,
    snd (upload_files env fuel args ds existing_names files counts w)
    = with_log w evs
    /\ deletes_created ds [] evs
    /\ submitted_files evs `sublist_of` twice files.
Proof.
  induction files as [|file files IH]; intros counts w.
  - exists []. simpl. rewrite with_log_nil. by repeat split.
  - simpl upload_files.
    destruct (upload_file_discipline env fuel args ds existing_names file
                counts w) as (evs & Hw & Hdel & Hsub).
    unfold bind.
    destruct (upload_file env fuel args ds existing_names file counts w)
      as [[counts'|] w1]; cbn [snd] in Hw; subst w1.
    + destruct (IH counts' (with_log w evs)) as (evs' & Hw' & Hdel' & Hsub').
      exists (evs ++ evs'). rewrite Hw', with_log_app. split; [done|]. split.
      * by apply deletes_created_app.
      * rewrite submitted_files_app.
        change (twice (file :: files)) with ([file; file] ++ twice files).
        by apply sublist_app.
    + exists evs. split; [done|]. split; [done|].
      change (twice (file :: files)) with ([file; file] ++ twice files).
      by apply sublist_inserts_r.
Qed.

(** [main] from the discovery of the files on. *)
Lemma upload_directory_discipline (env : environment) (fuel : nat)
  (args : arguments) (ds target_dir : string) (w : world) :
  exists evs,
    snd (upload_directory env fuel args ds target_dir w) = with_log w evs
    /\ deletes_created ds [] evs
    /\ submitted_files evs
       `sublist_of` twice (find_markdown_files (w_fs w) target_dir).
Proof.
  unfold upload_directory. rewrite bind_get_fs.
  destruct (find_markdown_files (w_fs w) target_dir) as [|file files] eqn:Hfiles.
  { exists []. simpl. rewrite with_log_nil. by repeat split. }
  destruct (fetch_pages_requests env ds 100 fuel 1 ∅ w)
    as (evs & Hw & _ & Hkind & _).
  change (fetch_pages env fuel ds 100 1 ∅ w)
    with (fetch_existing_document_names env fuel ds 100 w) in Hw.
  apply listing_events_read_only in Hkind.
  unfold bind at 1.
  destruct (fetch_existing_document_names env fuel ds 100 w)
    as [[names|] w1]; cbn [snd] in Hw; subst w1.
  2:{ exists evs. split; [done|]. split.
      - by apply deletes_created_read_only.
      - rewrite submitted_files_read_only by done. apply sublist_nil_l. }
  destruct (upload_files_discipline env fuel args ds names (file :: files)
              (0, 0) (with_log w evs)) as (evs' & Hw' & Hdel & Hsub).
  exists (evs ++ evs'). split.
  - unfold bind.
    destruct (upload_files env fuel args ds names (file :: files) (0, 0) _)
      as [[counts|] w2]; cbn [snd] in Hw'; subst w2; by rewrite with_log_app.
  - split.
    + apply deletes_created_app; [by apply deletes_created_read_only|done].
    + rewrite submitted_files_app, submitted_files_read_only by done. done.
Qed.

(** The whole of [main]. *)
Lemma main_discipline (env : environment) (fuel : nat) (args : arguments)
  (w : world) :
  let w' := snd (main env fuel args w) in
  exists evs,
    w_log w' = w_log w ++ evs
    /\ deletes_created (opt_str (arg_dataset_id args)) [] evs
    /\ submitted_files evs
       `sublist_of` twice (find_markdown_files (w_fs w')
                             (abspath (w_fs w) (arg_dir args))).
Proof.
  cbv zeta.
  destruct (main env fuel args w) as [res w'] eqn:Hmain. cbn [snd].
  assert (Hquiet : forall (evs : list event) (fs' : filesystem),
    forallb is_read_only evs = true ->
    w' = {| w_fs := fs'; w_log := w_log w ++ evs |} ->
    exists evs,
      w_log w' = w_log w ++ evs
      /\ deletes_created (opt_str (arg_dataset_id args)) [] evs
      /\ submitted_files evs
         `sublist_of` twice (find_markdown_files (w_fs w')
                               (abspath (w_fs w) (arg_dir args)))).
  { intros evs fs' Hkind ->. exists evs. cbn [w_log w_fs]. split; [done|]. split.
    - by apply deletes_created_read_only.
    - rewrite submitted_files_read_only by done. apply sublist_nil_l. }
  assert (Hnone : w' = w ->
    exists evs,
      w_log w' = w_log w ++ evs
      /\ deletes_created (opt_str (arg_dataset_id args)) [] evs
      /\ submitted_files evs
         `sublist_of` twice (find_markdown_files (w_fs w')
                               (abspath (w_fs w) (arg_dir args)))).
  { intros ->. apply (Hquiet [] (w_fs w)); [done|].
    rewrite app_nil_r. by destruct w. }
  unfold main in Hmain.
  destruct (negb (truthy_opt (arg_dataset_id args)));
    [injection Hmain as _ <-; by apply Hnone|].
  destruct (negb (truthy_opt (arg_api_key args)));
    [injection Hmain as _ <-; by apply Hnone|].
  destruct (negb (truthy_opt (arg_api_base args)));
    [injection Hmain as _ <-; by apply Hnone|].
  cbv zeta in Hmain. rewrite bind_get_fs in Hmain.
  set (ds := opt_str (arg_dataset_id args)) in *.
  set (target_dir := abspath (w_fs w) (arg_dir args)) in *.
  set (output_dir := abspath (w_fs w) (arg_output_dir args)) in *.
  destruct (arg_copy_missing_from_output args || arg_copy_missing_only args).
  2:{ destruct (upload_directory_discipline env fuel args ds target_dir w)
        as (evs & Hw & Hdel & Hsub).
      rewrite Hmain in Hw. cbn [snd] in Hw. subst w'.
      exists evs. by repeat split. }
  destruct (copy_step_spec env fuel ds output_dir target_dir w)
    as (evs & fs' & Hw & Hkind & _).
  apply listing_events_read_only in Hkind.
  unfold bind in Hmain.
  destruct (copy_missing_output_files_to_markdown env fuel ds output_dir
              target_dir w) as [[r|] w1]; cbn [snd] in Hw; subst w1.
  2:{ injection Hmain as _ <-. by apply (Hquiet evs fs'). }
  destruct (arg_copy_missing_only args).
  { injection Hmain as _ <-. by apply (Hquiet evs fs'). }
  destruct (upload_directory_discipline env fuel args ds target_dir
              {| w_fs := fs'; w_log := w_log w ++ evs |})
    as (evs' & Hw' & Hdel & Hsub).
  rewrite Hmain in Hw'. cbn [snd] in Hw'. subst w'.
  exists (evs ++ evs'). cbn [with_log w_fs w_log] in *.
  rewrite app_assoc. split; [done|]. split.
  - apply deletes_created_app; [by apply deletes_created_read_only|done].
  - rewrite submitted_files_app, submitted_files_read_only by done.
    exact Hsub.
Qed.

(** A run deletes only what it created: in every run of [main],
    whatever the dataset answers, every [delete_document] call is for
    the configured dataset and for a non-empty document id that an
    earlier successful [create_document_from_file] call of the same
    run returned. *)
Theorem run_deletes_only_created_documents (env : environment) (fuel : nat)
  (args : arguments) (w : world) :
  exists evs,
    w_log (snd (main env fuel args w)) = w_log w ++ evs
    /\ deletes_created (opt_str (arg_dataset_id args)) [] evs.
Proof.
  destruct (main_discipline env fuel args w) as (evs & Hw & Hdel & _).
  by exists evs.
Qed.

(** A run submits only the markdown files of the target directory, in
    path order and each at most twice: in every run of [main] the
    files of the [create_document_from_file] calls, in the order of
    the calls, are a subsequence of the list that names every file
    found by [find_markdown_files] in the target directory, as it is
    at the end of the run, twice. *)
Theorem run_submits_discovered_files_in_order (env : environment) (fuel : nat)
  (args : arguments) (w : world) :
  let w' := snd (main env fuel args w) in
  exists evs,
    w_log w' = w_log w ++ evs
    /\ submitted_files evs
       `sublist_of` twice (find_markdown_files (w_fs w')
                             (abspath (w_fs w) (arg_dir args))).
Proof.
  destruct (main_discipline env fuel args w) as (evs & Hw & _ & Hsub).
  by exists evs.
Qed.

(** A copy-only run: with the configuration complete and
    [--copy-missing-only] set, [main] asks the dataset nothing but
    pages of its document listing, so it submits, deletes and polls
    nothing, and it exits with code 0 as soon as the copy step
    returns. *)
Theorem copy_only_run (env : environment) (fuel : nat) (args : arguments)
  (w : world) :
  config_missing args = false ->
  arg_copy_missing_only args = true ->
  let copy :=
    copy_missing_output_files_to_markdown env fuel
      (opt_str (arg_dataset_id args))
      (abspath (w_fs w) (arg_output_dir args))
      (abspath (w_fs w) (arg_dir args)) w in
  main env fuel args w = (option_map (fun _ => 0) (fst copy), snd copy)
  /\ exists evs,
       w_log (snd (main env fuel args w)) = w_log w ++ evs
       /\ forallb (is_listing_of (opt_str (arg_dataset_id args)) 100) evs = true.
Proof.
  unfold config_missing. intros H Honly.
  apply orb_false_iff in H as [H Hbase]. apply orb_false_iff in H as [Hds Hkey].
  cbv zeta.
  assert (Hmain : main env fuel args w
    = (option_map (fun _ => 0)
         (fst (copy_missing_output_files_to_markdown env fuel
                 (opt_str (arg_dataset_id args))
                 (abspath (w_fs w) (arg_output_dir args))
                 (abspath (w_fs w) (arg_dir args)) w)),
       snd (copy_missing_output_files_to_markdown env fuel
              (opt_str (arg_dataset_id args))
              (abspath (w_fs w) (arg_output_dir args))
              (abspath (w_fs w) (arg_dir args)) w))).
  { unfold main. rewrite Hds, Hkey, Hbase. cbv zeta. rewrite bind_get_fs.
    rewrite Honly, orb_true_r. unfold bind.
    by destruct (copy_missing_output_files_to_markdown _ _ _ _ _ _)
      as [[r|] w1]. }
  split; [exact Hmain|].
  rewrite Hmain. cbn [snd].
  destruct (copy_step_spec env fuel (opt_str (arg_dataset_id args))
              (abspath (w_fs w) (arg_output_dir args))
              (abspath (w_fs w) (arg_dir args)) w)
    as (evs & fs' & Hw & Hkind & _).
  exists evs. by rewrite Hw.
Qed.

Lemma copy_only_run_witness :
  fst (main env_notes 2 copy_only_args output_world) = Some 0.
Proof.
  destruct (copy_only_run env_notes 2 copy_only_args output_world) as [H _];
    [reflexivity|reflexivity|].
  rewrite H. vm_compute. reflexivity.
Defined.

(* ================================================================== *)
(** * Further properties: from the copy step to the discovery *)





(* ================================================================== *)
(** * Further properties: the recursion of [os.makedirs] *)

Lemma basename_length (p : string) :
  (String.length (basename p) <= String.length p)%nat.
Proof.
  induction p as [|c p IH]; [done|]. simpl.
  destruct (contains_char p sep); [lia|].
  destruct (Ascii.eqb c sep); simpl; lia.
Qed.

Lemma substring_prefix_length (n : nat) :
  forall s : string, (String.length (substring 0 n s) <= n)%nat.
Proof.
  induction n as [|n IH]; intros [|c s]; simpl; try lia.
  specialize (IH s). lia.
Qed.

Lemma rstrip_sep_length (s : string) :
  (String.length (rstrip_sep s) <= String.length s)%nat.
Proof.
  induction s as [|c s IH]; [done|]. simpl.
  destruct (rstrip_sep s); simpl in *; [|lia].
  destruct (Ascii.eqb c sep); simpl; lia.
Qed.

Lemma path_split_length (p : string) :
  (String.length (fst (path_split p)) + String.length (snd (path_split p))
   <= String.length p)%nat.
Proof.
  unfold path_split. cbn [fst snd].
  pose proof (basename_length p) as Hb.
  pose proof (substring_prefix_length
                (String.length p - String.length (basename p)) p) as Hs.
  destruct (negb _ && negb _).
  - pose proof (rstrip_sep_length
                  (substring 0 (String.length p - String.length (basename p)) p)).
    lia.
  - lia.
Qed.

(** The head [os.makedirs] recurses on is shorter than the name. *)
Lemma makedirs_split_shorter (name head tail : string) :
  makedirs_split name = (head, tail) -> tail <> "" ->
  (String.length head < String.length name)%nat.
Proof.
  unfold makedirs_split.
  pose proof (path_split_length name) as H1.
  destruct (path_split name) as [h t]. cbn [fst snd] in H1.
  destruct (String.eqb t "") eqn:E.
  - pose proof (path_split_length h) as H2. intros Heq Hne.
    rewrite Heq in H2. cbn [fst snd] in H2.
    destruct tail; [done|]. simpl in H2. lia.
  - intros [= <- <-] Hne. destruct t; [done|]. simpl in H1. lia.
Qed.

(** The recursion never uses up the depth it is given: beyond the
    length of the name the depth plays no part. *)
Lemma makedirs_created_depth (fs : filesystem) (fuel : nat) :
  forall (fuel' : nat) (name : string),
  (String.length name < fuel)%nat -> (String.length name < fuel')%nat ->
  makedirs_created fuel fs name = makedirs_created fuel' fs name.
Proof.
  induction fuel as [|fuel IH]; intros fuel' name H1 H2; [lia|].
  destruct fuel' as [|fuel']; [lia|]. simpl.
  destruct (makedirs_split name) as [head tail] eqn:Hs.
  destruct (negb (String.eqb head "")); [|done]. cbn [andb].
  destruct (String.eqb tail "") eqn:Ht; [done|]. cbn [negb andb].
  destruct (negb (path_exists fs head)); [|done].
  assert (String.length head < String.length name)%nat.
  { apply (makedirs_split_shorter name head tail Hs).
    intros ->. by rewrite String.eqb_refl in Ht. }
  f_equal. apply IH; lia.
Qed.

Lemma path_ancestors_depth (fuel : nat) :
  forall (fuel' : nat) (name : string),
  (String.length name < fuel)%nat -> (String.length name < fuel')%nat ->
  path_ancestors fuel name = path_ancestors fuel' name.
Proof.
  induction fuel as [|fuel IH]; intros fuel' name H1 H2; [lia|].
  destruct fuel' as [|fuel']; [lia|]. simpl.
  destruct (makedirs_split name) as [head tail] eqn:Hs.
  destruct (negb (String.eqb head "")); [|done]. cbn [andb].
  destruct (String.eqb tail "") eqn:Ht; [done|]. cbn [negb].
  assert (String.length head < String.length name)%nat.
  { apply (makedirs_split_shorter name head tail Hs).
    intros ->. by rewrite String.eqb_refl in Ht. }
  f_equal. apply IH; lia.
Qed.

(* ================================================================== *)
(** * Further properties: what the copy loop reaches *)

(** The copy loop leaves no candidate out: after it, for every
    candidate that is not listed in the set of existing names,
    something exists at the candidate's destination in the markdown
    directory, and when nothing existed there before, it is a regular
    file. *)
Theorem unlisted_candidates_are_copied (existing_names : gset string)
  (markdown_dir : string) (candidates : list string) :
  forall (counts : Z * Z) (w : world) (source_path : string),
  let w' := snd (copy_candidates existing_names markdown_dir candidates
                   counts w) in
  let destination_path := path_join markdown_dir (basename source_path) in
  In source_path candidates ->
  ~ already_listed existing_names source_path ->
  path_exists (w_fs w') destination_path = true
  /\ (path_exists (w_fs w) destination_path = false ->
      isfile (w_fs w') destination_path = true).
Proof.
  induction candidates as [|first candidates IH];
    intros counts w source_path; cbv zeta; intros Hin Hnot; [done|].
  simpl copy_candidates.
  assert (Hmono : forall (counts' : Z * Z) (w0 : world) (p : string),
    (path_exists (w_fs w0) p = true ->
     path_exists (w_fs (snd (copy_candidates existing_names markdown_dir
                               candidates counts' w0))) p = true)
    /\ (isfile (w_fs w0) p = true ->
        isfile (w_fs (snd (copy_candidates existing_names markdown_dir
                             candidates counts' w0))) p = true)).
  { intros counts' w0 p.
    destruct (copy_candidates_spec existing_names markdown_dir candidates
                counts' w0)
      as (c & s & fs' & Hrun & _ & _ & _ & _ & _ & Hfile & Hex & _).
    rewrite Hrun. cbn [snd w_fs]. split; [apply Hex|apply Hfile]. }
  destruct (bool_decide _ || bool_decide _) eqn:Hskip.
  { destruct Hin as [->|Hin]; [|by apply IH].
    apply already_listed_test in Hskip. done. }
  rewrite bind_get_fs.
  destruct (path_exists (w_fs w) (path_join markdown_dir (basename first)))
    eqn:Hdest.
  { destruct Hin as [->|Hin]; [|by apply IH].
    split; [by apply Hmono|]. intros H. congruence. }
  unfold bind, set_fs.
  set (fs1 := fs_copy2 (w_fs w) first markdown_dir (basename first)).
  set (w1 := {| w_fs := fs1; w_log := w_log w |}).
  assert (Hmade : path_exists fs1 (path_join markdown_dir (basename first))
                  = true
                  /\ isfile fs1 (path_join markdown_dir (basename first))
                     = true).
  { subst fs1. rewrite fs_copy2_path_exists, fs_copy2_isfile.
    by rewrite String.eqb_refl. }
  destruct Hin as [->|Hin].
  { split; [by apply (Hmono _ w1), Hmade|].
    intros _. by apply (Hmono _ w1), Hmade. }
  destruct (IH (fst counts + 1, snd counts) w1 source_path Hin Hnot)
    as [Hthere Hfile].
  split; [exact Hthere|]. intros Hfree.
  destruct (String.eqb (path_join markdown_dir (basename source_path))
              (path_join markdown_dir (basename first))) eqn:E.
  - apply String.eqb_eq in E. rewrite E. by apply (Hmono _ w1), Hmade.
  - apply Hfile. cbn [w1 w_fs]. subst fs1. rewrite fs_copy2_path_exists.
    by rewrite E, Hfree.
Qed.

Lemma unlisted_candidates_are_copied_witness :
  path_exists
    (w_fs (snd (copy_candidates ∅ "/data" ["/output/b.md"] (0, 0) output_world)))
    "/data/b.md" = true.
Proof.
  apply (unlisted_candidates_are_copied ∅ "/data" ["/output/b.md"] (0, 0)
           output_world "/output/b.md").
  - by left.
  - intros [H|H]; by apply not_elem_of_empty in H.
Defined.
